(** * pdf-converter-backend: guardrails, extraction, composition

    A shallow embedding of the conversion pipeline of the backend
    (TypeScript, Express) and the properties its design document states
    about it.

    Conventions of the embedding.
    - A Node [Buffer] is a [list byte]; a JavaScript string that the code
      scans with a regular expression is the list of its UTF-16 code units
      ([list N]); strings that are only compared, concatenated or printed
      are Rocq [string]s.
    - [Map<string, number>] is stdpp's [gmap string nat].
    - A thrown [Error] is the left summand of a [Result] and carries its
      message, built as the template literal of the source builds it; the
      messages pushed by the file validator are the constructors of an
      error type whose doc comments quote the templates.
    - Calls into pdf.js, pdf-lib, docx and the canvas binding are
      parameters of the section that embeds their caller.
    - Text baselines and page coordinates are JavaScript numbers; they
      are embedded as exact rationals ([Q]), so a statement that depends
      on how a double rounds is not made.
    - [toLowerCase] is embedded on the ASCII letters; a statement about
      its result on a string carries the hypothesis that the string is
      ASCII. *)

From Stdlib Require Import ZArith NArith QArith Qabs Bool List Ascii String.
From Stdlib Require Import Decimal DecimalString DecimalNat Strings.Byte Lia Lqa.
From stdpp Require Import gmap strings list.

Import ListNotations.
Local Open Scope string_scope.
Local Open Scope list_scope.
Local Open Scope nat_scope.

(** ** Results of fallible calls *)

Inductive Result (E A : Type) : Type :=
| Err (e : E)
| Ok (a : A).
Arguments Err {E A} e.
Arguments Ok {E A} a.

Definition bindR {E A B} (r : Result E A) (k : A -> Result E B) : Result E B :=
  match r with
  | Err e => Err e
  | Ok a => k a
  end.

Definition isOk {E A} (r : Result E A) : bool :=
  match r with
  | Ok _ => true
  | Err _ => false
  end.

(** ** The JavaScript runtime: buffers and strings *)

Module Js.

(** A string as the regular-expression engine sees it: UTF-16 code
    units. *)
Definition CodeUnits := list N.

Definition codeUnitsOf (s : string) : CodeUnits :=
  map Byte.to_N (list_byte_of_string s).

Definition REPLACEMENT_CHARACTER : N := 0xFFFD%N.

(** State of the UTF-8 decoder between two bytes: continuation bytes
    still needed, the code point so far, and the range the next
    continuation byte must lie in. *)
Record Utf8State := {
  needed : nat;
  codePoint : N;
  lower : N;
  upper : N
}.

Definition utf8Idle : Utf8State :=
  {| needed := 0; codePoint := 0%N; lower := 0x80%N; upper := 0xBF%N |}.

(** A byte read in the idle state: the code points it completes and the
    state it leaves. *)
Definition utf8Lead (b : N) : list N * Utf8State :=
  if (b <=? 0x7F)%N then ([b], utf8Idle)
  else if ((0xC2 <=? b) && (b <=? 0xDF))%N then
    ([], {| needed := 1; codePoint := N.land b 0x1F;
            lower := 0x80%N; upper := 0xBF%N |})
  else if ((0xE0 <=? b) && (b <=? 0xEF))%N then
    ([], {| needed := 2; codePoint := N.land b 0xF;
            lower := if (b =? 0xE0)%N then 0xA0%N else 0x80%N;
            upper := if (b =? 0xED)%N then 0x9F%N else 0xBF%N |})
  else if ((0xF0 <=? b) && (b <=? 0xF4))%N then
    ([], {| needed := 3; codePoint := N.land b 0x7;
            lower := if (b =? 0xF0)%N then 0x90%N else 0x80%N;
            upper := if (b =? 0xF4)%N then 0x8F%N else 0xBF%N |})
  else ([REPLACEMENT_CHARACTER], utf8Idle).

(** UTF-8 decoding as [Buffer.prototype.toString('utf8')] performs it:
    every maximal ill-formed subsequence becomes U+FFFD, and the byte
    that broke a sequence is read again as a lead byte. *)
Fixpoint utf8Decode (st : Utf8State) (bytes : list byte) : list N :=
  match bytes with
  | [] => match needed st with
          | 0 => []
          | S _ => [REPLACEMENT_CHARACTER]
          end
  | b :: rest =>
      let n := Byte.to_N b in
      match needed st with
      | 0 => let '(out, st') := utf8Lead n in out ++ utf8Decode st' rest
      | S k =>
          if ((lower st <=? n) && (n <=? upper st))%N then
            let cp := (codePoint st * 64 + N.land n 0x3F)%N in
            match k with
            | 0 => cp :: utf8Decode utf8Idle rest
            | S _ => utf8Decode {| needed := k; codePoint := cp;
                                   lower := 0x80%N; upper := 0xBF%N |} rest
            end
          else
            let '(out, st') := utf8Lead n in
            REPLACEMENT_CHARACTER :: out ++ utf8Decode st' rest
      end
  end.

(** A code point as UTF-16 code units. *)
Definition utf16Encode (cp : N) : list N :=
  if (cp <=? 0xFFFF)%N then [cp]
  else
    let v := (cp - 0x10000)%N in
    [(0xD800 + N.shiftr v 10)%N; (0xDC00 + N.land v 0x3FF)%N].

(** [buffer.toString('utf8', 0, end)] *)
Definition toStringUtf8 (buffer : list byte) (end_ : nat) : CodeUnits :=
  flat_map utf16Encode (utf8Decode utf8Idle (firstn end_ buffer)).

(** The class [\s] of an ECMAScript regular expression. *)
Definition isWhiteSpace (c : N) : bool :=
  ((c =? 0x09) || (c =? 0x0A) || (c =? 0x0B) || (c =? 0x0C) || (c =? 0x0D)
   || (c =? 0x20) || (c =? 0xA0) || (c =? 0x1680)
   || ((0x2000 <=? c) && (c <=? 0x200A))
   || (c =? 0x2028) || (c =? 0x2029) || (c =? 0x202F) || (c =? 0x205F)
   || (c =? 0x3000) || (c =? 0xFEFF))%N.

(** The class [\d]: the ASCII digits. *)
Definition isDigit (c : N) : bool := ((0x30 <=? c) && (c <=? 0x39))%N.

(** Matching a literal at the head of the input; the rest on success. *)
Fixpoint literal (lit s : CodeUnits) : option CodeUnits :=
  match lit with
  | [] => Some s
  | l :: lit' =>
      match s with
      | [] => None
      | c :: s' => if (c =? l)%N then literal lit' s' else None
      end
  end.

(** A greedy run of a character class, and what follows it. *)
Fixpoint span (p : N -> bool) (s : CodeUnits) : CodeUnits * CodeUnits :=
  match s with
  | [] => ([], [])
  | c :: s' =>
      if p c then let '(run, rest) := span p s' in (c :: run, rest)
      else ([], s)
  end.

(** [parseInt(digits, 10)] on a non-empty run of ASCII digits.  The
    JavaScript number is the nearest double; the embedding keeps the
    exact integer, which compares with a page limit the same way. *)
Definition parseInt10 (digits : CodeUnits) : N :=
  fold_left (fun acc d => (acc * 10 + (d - 0x30))%N) digits 0%N.

(** A string without a dot, as every printed number is. *)
Fixpoint dotFree (s : string) : Prop :=
  match s with
  | EmptyString => True
  | String c s' => c <> "."%char /\ dotFree s'
  end.

(** A string of ASCII characters only.  On such a string lower-casing
    the ASCII letters is all that [String.prototype.toLowerCase] does. *)
Fixpoint asciiOnly (s : string) : Prop :=
  match s with
  | EmptyString => True
  | String c s' => nat_of_ascii c < 128 /\ asciiOnly s'
  end.

(** Byte-wise equality of two buffers. *)
Fixpoint bytesEqb (a b : list byte) : bool :=
  match a, b with
  | [], [] => true
  | x :: a', y :: b' => Byte.eqb x y && bytesEqb a' b'
  | _, _ => false
  end.

End Js.

(** ** middleware/dosProtection.ts *)

Module DosProtection.

Record DosProtectionConfig := {
  requestTimeoutMs : N;
  maxConcurrentPerIp : nat;
  minUploadSpeed : N;
  maxPdfPages : N;
  maxBodySize : N
}.

Definition DEFAULT_DOS_CONFIG : DosProtectionConfig := {|
  requestTimeoutMs := 60000%N;
  maxConcurrentPerIp := 5;
  minUploadSpeed := 1024%N;
  maxPdfPages := 100%N;
  maxBodySize := (15 * 1024 * 1024)%N
|}.

(** *** concurrentRequestLimiter

    The module-level [concurrentRequests] map is the state that every
    call threads. *)

(** [concurrentRequests.get(clientIp) || 0] *)
Definition getCount (clientIp : string) (concurrentRequests : gmap string nat) : nat :=
  default 0 (concurrentRequests !! clientIp).

Inductive Admission := Rejected429 | Accepted.

(** The body of the middleware up to [next()]: either the 429 answer, or
    the increment. *)
Definition concurrentRequestLimiter (maxConcurrent : nat) (clientIp : string)
    (concurrentRequests : gmap string nat) : Admission * gmap string nat :=
  let currentCount := getCount clientIp concurrentRequests in
  if maxConcurrent <=? currentCount then (Rejected429, concurrentRequests)
  else (Accepted, <[clientIp := currentCount + 1]> concurrentRequests).

(** The [cleanup] closure of an admitted request. *)
Definition cleanup (clientIp : string) (concurrentRequests : gmap string nat)
    : gmap string nat :=
  let count := getCount clientIp concurrentRequests in
  if count <=? 1 then delete clientIp concurrentRequests
  else <[clientIp := count - 1]> concurrentRequests.

(** Events of the response object of one request. *)
Inductive ResEvent := finish | close.

(** [res.on('finish', cleanup); res.on('close', cleanup)]: the listeners
    an admitted request has registered for each event. *)
Definition listeners (clientIp : string) (ev : ResEvent)
    : list (gmap string nat -> gmap string nat) :=
  match ev with
  | finish => [cleanup clientIp]
  | close => [cleanup clientIp]
  end.

Definition emit (clientIp : string) (ev : ResEvent)
    (concurrentRequests : gmap string nat) : gmap string nat :=
  fold_left (fun m h => h m) (listeners clientIp ev) concurrentRequests.

(** How a request ends.  Node's [http.ServerResponse] emits ['finish']
    when the response has been handed to the operating system and
    ['close'] once the response is completed or its connection was
    terminated; a response that was sent (by the handler or by the error
    handler) therefore emits both, an aborted connection only ['close']. *)
Inductive ExitPath := Success | Failure | ConnectionClose.

Definition events (p : ExitPath) : list ResEvent :=
  match p with
  | Success => [finish; close]
  | Failure => [finish; close]
  | ConnectionClose => [close]
  end.

Definition complete (clientIp : string) (p : ExitPath)
    (concurrentRequests : gmap string nat) : gmap string nat :=
  fold_left (fun m ev => emit clientIp ev m) (events p) concurrentRequests.

(** *** validatePdfComplexity *)

(** [/\/Type\s*\/Page[^s]/] anchored at the head of the input: the number
    of code units of the match.  The greedy [\s*] never has to give
    characters back, because what follows it must be a [/]. *)
Definition matchPageMarker (s : Js.CodeUnits) : option nat :=
  match Js.literal (Js.codeUnitsOf "/Type") s with
  | None => None
  | Some afterType =>
      let '(ws, afterWs) := Js.span Js.isWhiteSpace afterType in
      match Js.literal (Js.codeUnitsOf "/Page") afterWs with
      | Some (c :: _) =>
          if (c =? 0x73)%N then None (* 's' *)
          else Some (5 + length ws + 5 + 1)
      | _ => None
      end
  end.

(** [content.match(/.../g)]: the successive matches, each search
    resuming where the previous match ended.  [skip] is the number of
    code units of the last match that still lie ahead. *)
Fixpoint countPageMarkers (skip : nat) (s : Js.CodeUnits) : nat :=
  match s with
  | [] => 0
  | _ :: rest =>
      match skip with
      | S k => countPageMarkers k rest
      | 0 =>
          match matchPageMarker s with
          | Some len => S (countPageMarkers (len - 1) rest)
          | None => countPageMarkers 0 rest
          end
      end
  end.

(** [/\/Count\s+(\d+)/] anchored at the head of the input: the captured
    digits. *)
Definition matchCount (s : Js.CodeUnits) : option Js.CodeUnits :=
  match Js.literal (Js.codeUnitsOf "/Count") s with
  | None => None
  | Some afterCount =>
      let '(ws, afterWs) := Js.span Js.isWhiteSpace afterCount in
      let '(digits, _) := Js.span Js.isDigit afterWs in
      match ws, digits with
      | _ :: _, _ :: _ => Some digits
      | _, _ => None
      end
  end.

(** [content.match(/\/Count\s+(\d+)/)]: the leftmost match. *)
Fixpoint findCount (s : Js.CodeUnits) : option Js.CodeUnits :=
  match s with
  | [] => None
  | _ :: rest =>
      match matchCount s with
      | Some digits => Some digits
      | None => findCount rest
      end
  end.

Inductive ComplexityError :=
| (** "File too small to be a valid PDF" *)
  FileTooSmall
| (** "PDF has too many pages (${pageCount}). Maximum allowed is
      ${maxPages} pages." *)
  TooManyPages (pageCount maxPages : N).

Record ComplexityResult := {
  valid : bool;
  pageCount : option N;
  error : option ComplexityError
}.

Definition leadingWindow : nat := 1024 * 1024.

Definition estimatedPages (content : Js.CodeUnits) : N :=
  match countPageMarkers 0 content with
  | 0 => 1%N
  | S n => N.of_nat (S n)
  end.

Definition metadataPageCount (content : Js.CodeUnits) : N :=
  match findCount content with
  | Some digits => Js.parseInt10 digits
  | None => 0%N
  end.

(** The body of the [try]; decoding and matching do not throw, so the
    [catch] arm has no counterpart. *)
Definition validatePdfComplexity (pdfBuffer : list byte) (maxPages : N)
    : ComplexityResult :=
  if length pdfBuffer <? 5 then
    {| valid := false; pageCount := None; error := Some FileTooSmall |}
  else
    let content :=
      Js.toStringUtf8 pdfBuffer (Nat.min (length pdfBuffer) leadingWindow) in
    let pageCount := N.max (estimatedPages content) (metadataPageCount content) in
    if (maxPages <? pageCount)%N then
      {| valid := false; pageCount := Some pageCount;
         error := Some (TooManyPages pageCount maxPages) |}
    else
      {| valid := true; pageCount := Some pageCount; error := None |}.

(** *** dosProtection *)

Inductive Middleware :=
| payloadSizeLimiter (maxSize : N)
| concurrentRequestLimiterMw (maxConcurrent : nat)
| requestTimeout (timeoutMs : N)
| pdfComplexityMiddleware (maxPages : N).

(** [{ ...DEFAULT_DOS_CONFIG, ...config }] for a partial [config]. *)
Record PartialConfig := {
  requestTimeoutMs' : option N;
  maxConcurrentPerIp' : option nat;
  minUploadSpeed' : option N;
  maxPdfPages' : option N;
  maxBodySize' : option N
}.

Definition mergeConfig (config : PartialConfig) : DosProtectionConfig := {|
  requestTimeoutMs :=
    default (requestTimeoutMs DEFAULT_DOS_CONFIG) (requestTimeoutMs' config);
  maxConcurrentPerIp :=
    default (maxConcurrentPerIp DEFAULT_DOS_CONFIG) (maxConcurrentPerIp' config);
  minUploadSpeed :=
    default (minUploadSpeed DEFAULT_DOS_CONFIG) (minUploadSpeed' config);
  maxPdfPages := default (maxPdfPages DEFAULT_DOS_CONFIG) (maxPdfPages' config);
  maxBodySize := default (maxBodySize DEFAULT_DOS_CONFIG) (maxBodySize' config)
|}.

Definition dosProtection (config : PartialConfig) : list Middleware :=
  let finalConfig := mergeConfig config in
  [ payloadSizeLimiter (maxBodySize finalConfig);
    concurrentRequestLimiterMw (maxConcurrentPerIp finalConfig);
    requestTimeout (requestTimeoutMs finalConfig) ].

End DosProtection.

(** ** utils/fileValidator.ts *)

Module FileValidator.

Record MagicByteRule := {
  bytes : list byte;
  offset : option nat
}.

Record FileTypeDefinition := {
  mimeTypes : list string;
  extensions : list string;
  magicBytes : list MagicByteRule;
  description : string
}.

Definition rule (bs : list byte) : MagicByteRule :=
  {| bytes := bs; offset := None |}.

(** The table, in the order [Object.entries] enumerates it. *)
Definition FILE_TYPE_DEFINITIONS : list (string * FileTypeDefinition) :=
  [ ("pdf", {| mimeTypes := ["application/pdf"];
               extensions := [".pdf"];
               magicBytes := [rule [x25; x50; x44; x46; x2d]];
               description := "PDF Document" |});
    ("png", {| mimeTypes := ["image/png"];
               extensions := [".png"];
               magicBytes := [rule [x89; x50; x4e; x47; x0d; x0a; x1a; x0a]];
               description := "PNG Image" |});
    ("jpeg", {| mimeTypes := ["image/jpeg"; "image/jpg"];
                extensions := [".jpg"; ".jpeg"];
                magicBytes := [rule [xff; xd8; xff; xe0];
                               rule [xff; xd8; xff; xe1];
                               rule [xff; xd8; xff; xe2];
                               rule [xff; xd8; xff; xe3];
                               rule [xff; xd8; xff; xe8];
                               rule [xff; xd8; xff; xdb];
                               rule [xff; xd8; xff]];
                description := "JPEG Image" |}) ].

(** [FILE_TYPE_DEFINITIONS[t]] *)
Fixpoint lookupIn (table : list (string * FileTypeDefinition)) (t : string)
    : option FileTypeDefinition :=
  match table with
  | [] => None
  | (k, d) :: table' => if String.eqb k t then Some d else lookupIn table' t
  end.

Definition definitionOf (t : string) : option FileTypeDefinition :=
  lookupIn FILE_TYPE_DEFINITIONS t.

(** The loop of [matchesMagicBytes], from index [i] of the rule on. *)
Fixpoint bytesMatchFrom (buffer : list byte) (at_ : nat) (bs : list byte) : bool :=
  match bs with
  | [] => true
  | b :: bs' =>
      match nth_error buffer at_ with
      | Some x => if Byte.eqb x b then bytesMatchFrom buffer (S at_) bs' else false
      | None => false
      end
  end.

Definition matchesMagicBytes (buffer : list byte) (r : MagicByteRule) : bool :=
  let offset := default 0 (offset r) in
  let requiredLength := offset + length (bytes r) in
  if length buffer <? requiredLength then false
  else bytesMatchFrom buffer offset (bytes r).

Fixpoint detectIn (table : list (string * FileTypeDefinition)) (buffer : list byte)
    : option string :=
  match table with
  | [] => None
  | (typeKey, definition) :: table' =>
      if existsb (matchesMagicBytes buffer) (magicBytes definition)
      then Some typeKey
      else detectIn table' buffer
  end.

Definition detectFileType (buffer : list byte) : option string :=
  detectIn FILE_TYPE_DEFINITIONS buffer.

(** [String.prototype.toLowerCase] on the ASCII letters.  The strings it
    is compared with here are ASCII and contain no [k], so the two
    non-ASCII characters whose lower case is an ASCII letter cannot turn a
    mismatch into a match. *)
Definition lowerAscii (c : ascii) : ascii :=
  let n := nat_of_ascii c in
  if (65 <=? n) && (n <=? 90) then ascii_of_nat (n + 32) else c.

Fixpoint toLowerCase (s : string) : string :=
  match s with
  | EmptyString => EmptyString
  | String c s' => String (lowerAscii c) (toLowerCase s')
  end.

(** [s.lastIndexOf(c)], [None] for -1. *)
Fixpoint lastIndexOf (c : ascii) (s : string) : option nat :=
  match s with
  | EmptyString => None
  | String d s' =>
      match lastIndexOf c s' with
      | Some i => Some (S i)
      | None => if Ascii.eqb d c then Some 0 else None
      end
  end.

(** [s.substring(from)] *)
Fixpoint substringFrom (from : nat) (s : string) : string :=
  match from, s with
  | 0, _ => s
  | S n, EmptyString => EmptyString
  | S n, String _ s' => substringFrom n s'
  end.

Definition getExtension (filename : string) : string :=
  match lastIndexOf "." filename with
  | None => ""
  | Some lastDot =>
      if lastDot =? String.length filename - 1 then ""
      else toLowerCase (substringFrom lastDot filename)
  end.

Definition includes (l : list string) (x : string) : bool :=
  existsb (String.eqb x) l.

(** The messages [validateFile] can record. *)
Inductive ValidationError :=
| (** "File is empty or invalid" *)
  FileEmpty
| (** "File is too small to be valid" *)
  FileTooSmall
| (** "Unable to determine file type from content. ..." *)
  UnknownContent
| (** "File content is ${description}, but only ${allowed} files are
      allowed" *)
  ContentNotAllowed (detectedDescription : string) (allowedDescriptions : list string)
| (** "Invalid MIME type: ${mimeType}. Allowed types: ${allowed}" *)
  InvalidMimeType (mimeType : string) (allowedMimeTypes : list string)
| (** "Invalid file extension: ${extension}. Allowed extensions:
      ${allowed}" *)
  InvalidExtension (extension : string) (allowedExtensions : list string)
| (** "MIME type mismatch: File content indicates ${description}, but MIME
      type is ${mimeType}" *)
  MimeTypeMismatch (detectedDescription mimeType : string)
| (** "Extension mismatch: File content indicates ${description}, but
      extension is ${extension}" *)
  ExtensionMismatch (detectedDescription extension : string).

Definition isExtensionError (e : ValidationError) : bool :=
  match e with
  | InvalidExtension _ _ | ExtensionMismatch _ _ => true
  | _ => false
  end.

Record ValidationResult := {
  isValid : bool;
  detectedType : option string;
  errors : list ValidationError
}.

(** [FILE_TYPE_DEFINITIONS[t]?.description || t] *)
Definition descriptionOf (t : string) : string :=
  match definitionOf t with
  | Some d => if String.eqb (description d) "" then t else description d
  | None => t
  end.

(** [allowedTypes.flatMap(t => FILE_TYPE_DEFINITIONS[t]?.f || [])] *)
Definition flatMapDefinitions (f : FileTypeDefinition -> list string)
    (allowedTypes : list string) : list string :=
  flat_map (fun t => match definitionOf t with
                     | Some d => f d
                     | None => []
                     end) allowedTypes.

(** Step 1 *)
Definition contentErrors (detectedType : option string) (allowedTypes : list string)
    : list ValidationError :=
  match detectedType with
  | None => [UnknownContent]
  | Some t =>
      if includes allowedTypes t then []
      else [ContentNotAllowed (descriptionOf t) (map descriptionOf allowedTypes)]
  end.

(** Step 2 *)
Definition mimeErrors (mimeType : string) (allowedTypes : list string)
    : list ValidationError :=
  let allowedMimeTypes := flatMapDefinitions mimeTypes allowedTypes in
  if includes allowedMimeTypes (toLowerCase mimeType) then []
  else [InvalidMimeType mimeType allowedMimeTypes].

(** Step 3; the empty string is falsy. *)
Definition extensionErrors (extension : string) (allowedTypes : list string)
    : list ValidationError :=
  let allowedExtensions := flatMapDefinitions extensions allowedTypes in
  if negb (String.eqb extension "") && negb (includes allowedExtensions extension)
  then [InvalidExtension extension allowedExtensions]
  else [].

(** Step 4.  A detected type is a key of the table, so the lookup of its
    definition cannot fail. *)
Definition crossErrors (detectedType : option string) (mimeType extension : string)
    (allowedTypes : list string) : list ValidationError :=
  match detectedType with
  | None => []
  | Some t =>
      if includes allowedTypes t then
        match definitionOf t with
        | None => []
        | Some definition =>
            (if includes (mimeTypes definition) (toLowerCase mimeType) then []
             else [MimeTypeMismatch (description definition) mimeType])
            ++
            (if negb (String.eqb extension "")
                && negb (includes (extensions definition) extension)
             then [ExtensionMismatch (description definition) extension]
             else [])
        end
      else []
  end.

Definition validateFile (buffer : list byte) (filename mimeType : string)
    (allowedTypes : list string) : ValidationResult :=
  if length buffer =? 0 then
    {| isValid := false; detectedType := None; errors := [FileEmpty] |}
  else if length buffer <? 8 then
    {| isValid := false; detectedType := None; errors := [FileTooSmall] |}
  else
    let detectedType := detectFileType buffer in
    let extension := getExtension filename in
    let errors :=
      contentErrors detectedType allowedTypes
      ++ mimeErrors mimeType allowedTypes
      ++ extensionErrors extension allowedTypes
      ++ crossErrors detectedType mimeType extension allowedTypes in
    {| isValid := length errors =? 0;
       detectedType := detectedType;
       errors := errors |}.

Definition validatePdf (buffer : list byte) (filename mimeType : string)
    : ValidationResult :=
  validateFile buffer filename mimeType ["pdf"].

Definition validateImage (buffer : list byte) (filename mimeType : string)
    : ValidationResult :=
  validateFile buffer filename mimeType ["png"; "jpeg"].

End FileValidator.

(** ** services/pdfConverter.service.ts *)

Module PdfConverter.

(** A template literal's rendering of a page number or index. *)
Definition showNat (n : nat) : string := NilEmpty.string_of_uint (Nat.to_uint n).

Definition newline : string := String (ascii_of_nat 10) EmptyString.

(** The indices [0 .. n-1] without [i]. *)
Definition indicesWithout (n i : nat) : list nat :=
  seq 0 i ++ seq (S i) (n - S i).

(** [`page-${pageNum}-image-${imageIndex}.${format}`] *)
Definition imageName (pageNum imageIndex : nat) (format : string) : string :=
  "page-" +:+ showNat pageNum +:+ "-image-" +:+ showNat imageIndex +:+ "." +:+ format.


(** *** What pdf.js hands to the service *)

(** An entry of [textContent.items]: a text run with its transform, or a
    marked-content item, which has no [str]. *)
Inductive TextContentItem :=
| TextItem (str : string) (transform5 : Q)
| TextMarkedContent.

(** The operator codes the image walk distinguishes. *)
Inductive Op :=
| paintImageXObject
| paintXObject
| paintImageMaskXObject
| otherOp (code : N).

(** An entry of [argsArray]: [null] or an array of resource names. *)
Definition Args := option (list string).

Record OperatorList := {
  fnArray : list Op;
  argsArray : list Args
}.

(** An image object as [page.objs] yields it. *)
Record ImageObj := {
  width : N;
  height : N;
  data : option (list byte);
  kind : N
}.

(** [page.objs.get(name, resolve)] awaited: an exception, or the value
    passed to the callback, which is falsy ([None]) or an object.  (A
    callback that is never called leaves the walk waiting; the embedding
    has no outcome for that.) *)
Inductive Resolution :=
| ResolveThrows (message : string)
| Resolved (imageObj : option ImageObj).

Record PDFPageProxy := {
  getTextContent : Result string (list TextContentItem);
  getOperatorList : Result string OperatorList;
  objsGet : option string -> Resolution
}.

Record PDFDocumentProxy := {
  numPages : nat;
  getPage : nat -> Result string PDFPageProxy
}.

(** *** Results *)

Record ConvertedPage := {
  cpPageNumber : nat;
  cpBuffer : list byte;
  cpFilename : string
}.

Record ExtractedImage := {
  buffer : list byte;
  filename : string;
  format : string
}.

Record ExtractedPageContent := {
  pageNumber : nat;
  textContent : string;
  images : list ExtractedImage
}.

(** A [console.error] of the image walk:
    "Failed to extract image ${imageIndex} from page ${pageNum}:" and the
    error. *)
Record LogEntry := {
  logImageIndex : nat;
  logPageNum : nat;
  logError : string
}.

Section Service.

(** [pdfjs.getDocument({data}).promise] *)
Variable getDocument : list byte -> Result string PDFDocumentProxy.
(** [convertPageToImage]: viewport, canvas, render, encode. *)
Variable convertPageToImage : PDFPageProxy -> string -> Q -> Q -> Result string (list byte).
(** [createCanvas(width, height)] with [getContext('2d')]. *)
Variable createCanvas : N -> N -> Result string unit.
(** [ctx.createImageData(width, height)]: a zeroed pixel array. *)
Variable createImageData : N -> N -> Result string (list byte).
(** [ctx.putImageData(imageData, 0, 0)] and [canvas.encode('png')]. *)
Variable encodePng : N -> N -> list byte -> Result string (list byte).

Definition defaultScale : Q := 2.
Definition defaultQuality : Q := 95 # 100.

Definition loadPdfDocument (pdfBuffer : list byte) : Result string PDFDocumentProxy :=
  match getDocument pdfBuffer with
  | Ok doc => Ok doc
  | Err message => Err ("Failed to load PDF: " +:+ message)
  end.

(** *** convertPdfToImages *)

(** The page loop with [remaining] iterations to go. *)
Fixpoint convertPages (pdfDoc : PDFDocumentProxy) (format : string) (scale quality : Q)
    (remaining pageNum : nat) (convertedPages : list ConvertedPage)
    : Result string (list ConvertedPage) :=
  match remaining with
  | 0 => Ok convertedPages
  | S remaining' =>
      bindR (getPage pdfDoc pageNum) (fun page =>
      bindR (convertPageToImage page format scale quality) (fun imageBuffer =>
      convertPages pdfDoc format scale quality remaining' (S pageNum)
        (convertedPages ++
           [{| cpPageNumber := pageNum;
               cpBuffer := imageBuffer;
               cpFilename := "page-" +:+ showNat pageNum +:+ "." +:+ format |}])))
  end.

Definition convertPdfToImages (pdfBuffer : list byte) (format : string)
    (scale quality : option Q) : Result string (list ConvertedPage) :=
  let scale := default defaultScale scale in
  let quality := default defaultQuality quality in
  match bindR (loadPdfDocument pdfBuffer) (fun pdfDoc =>
          convertPages pdfDoc format scale quality (numPages pdfDoc) 1 []) with
  | Ok pages => Ok pages
  | Err message => Err ("PDF conversion failed: " +:+ message)
  end.

(** *** extractTextFromPage *)

(** [lastY !== -1 && Math.abs(lastY - y) > 5] *)
Definition startsNewLine (lastY y : Q) : bool :=
  negb (Qeq_bool lastY (-1)) && negb (Qle_bool (Qabs (lastY - y)) 5).

Fixpoint combineItems (items : list TextContentItem) (text : string) (lastY : Q)
    : string :=
  match items with
  | [] => text
  | TextMarkedContent :: items' => combineItems items' text lastY
  | TextItem str y :: items' =>
      let text := if startsNewLine lastY y then text +:+ newline else text in
      combineItems items' (text +:+ str) y
  end.

(** The text as the design document describes it: the fragments in
    order, with a line break before a fragment whose baseline is more than
    5 away from the baseline of the fragment before it.  [previous] is the
    baseline of the last fragment seen, if there is one. *)
Fixpoint linesByBaseline (previous : option Q) (items : list TextContentItem) : string :=
  match items with
  | [] => ""
  | TextMarkedContent :: items' => linesByBaseline previous items'
  | TextItem str y :: items' =>
      (match previous with
       | Some lastY => if Qle_bool (Qabs (lastY - y)) 5 then "" else newline
       | None => ""
       end) +:+ str +:+ linesByBaseline (Some y) items'
  end.

(** No fragment sits on the baseline -1. *)
Definition awayFromMinusOne (items : list TextContentItem) : Prop :=
  Forall (fun item => match item with
                      | TextItem _ y => ~ (y == -1)%Q
                      | TextMarkedContent => True
                      end) items.

Definition extractTextFromPage (page : PDFPageProxy) : Result string string :=
  match getTextContent page with
  | Ok items => Ok (combineItems items "" (-1))
  | Err message => Err ("Failed to extract text: " +:+ message)
  end.

(** *** convertImageObjToBuffer *)

(** One round of the pixel copy at offset [i]: a source byte that is
    missing leaves 0 in the colour channels and 255 in alpha; a write
    past the end of the destination is dropped. *)
Definition copyPixel (srcData dest : list byte) (i : nat) : list byte :=
  let dest := <[i := default x00 (srcData !! i)]> dest in
  let dest := <[i + 1 := default x00 (srcData !! (i + 1))]> dest in
  let dest := <[i + 2 := default x00 (srcData !! (i + 2))]> dest in
  <[i + 3 := default xff (srcData !! (i + 3))]> dest.

Fixpoint copyPixels (rounds i : nat) (srcData dest : list byte) : list byte :=
  match rounds with
  | 0 => dest
  | S rounds' => copyPixels rounds' (i + 4) srcData (copyPixel srcData dest i)
  end.

(** [data[0] === 0xff && data[1] === 0xd8] *)
Definition startsWithSoi (data : list byte) : bool :=
  match data with
  | b0 :: b1 :: _ => Byte.eqb b0 xff && Byte.eqb b1 xd8
  | _ => false
  end.

Definition convertImageObjToBuffer (imageObj : ImageObj)
    : Result string (list byte * string) :=
  let body :=
    bindR (createCanvas (width imageObj) (height imageObj)) (fun _ =>
    let passThrough :=
      match data imageObj with
      | Some data => (kind imageObj =? 1)%N && startsWithSoi data
      | None => false
      end in
    if passThrough then Ok (default [] (data imageObj), "jpg")
    else
      bindR (createImageData (width imageObj) (height imageObj)) (fun pixels =>
      let pixels :=
        match data imageObj with
        | Some srcData =>
            copyPixels (Nat.div (length srcData + 3) 4) 0 srcData pixels
        | None => pixels
        end in
      bindR (encodePng (width imageObj) (height imageObj) pixels) (fun buffer =>
      Ok (buffer, "png")))) in
  match body with
  | Ok r => Ok r
  | Err message => Err ("Failed to convert image object: " +:+ message)
  end.

(** *** extractImagesFromPage *)

Definition isPaintImage (op : Op) : bool :=
  match op with
  | paintImageXObject | paintXObject | paintImageMaskXObject => true
  | otherOp _ => false
  end.

(** What the inner [try] block does for a paint instruction. *)
Inductive PaintOutcome :=
| Extracted (buffer : list byte) (format : string)
| NoObject
| Threw (message : string).

Definition paintOutcome (page : PDFPageProxy) (args : option Args) : PaintOutcome :=
  match args with
  | None | Some None =>
      (* argsArray[i] is undefined or null: the TypeError of the runtime *)
      Threw "Cannot read properties of undefined or null"
  | Some (Some names) =>
      match objsGet page (head names) with
      | ResolveThrows message => Threw message
      | Resolved None => NoObject
      | Resolved (Some imageObj) =>
          match convertImageObjToBuffer imageObj with
          | Ok (buffer, format) => Extracted buffer format
          | Err message => Threw message
          end
      end
  end.

Record WalkState := {
  wsImages : list ExtractedImage;
  wsImageIndex : nat;
  wsLog : list LogEntry
}.

(** The body of the operator loop at index [i]. *)
Definition walkStep (page : PDFPageProxy) (pageNum : nat) (operatorList : OperatorList)
    (st : WalkState) (i : nat) : WalkState :=
  match fnArray operatorList !! i with
  | Some op =>
      if isPaintImage op then
        match paintOutcome page (argsArray operatorList !! i) with
        | Extracted buffer format =>
            {| wsImages := wsImages st ++
                 [{| buffer := buffer;
                     filename := imageName pageNum (wsImageIndex st) format;
                     format := format |}];
               wsImageIndex := S (wsImageIndex st);
               wsLog := wsLog st |}
        | NoObject => st
        | Threw message =>
            {| wsImages := wsImages st;
               wsImageIndex := wsImageIndex st;
               wsLog := wsLog st ++
                 [{| logImageIndex := wsImageIndex st;
                     logPageNum := pageNum;
                     logError := message |}] |}
        end
      else st
  | None => st
  end.

Definition walk (page : PDFPageProxy) (pageNum : nat) (operatorList : OperatorList)
    (indices : list nat) (st : WalkState) : WalkState :=
  fold_left (walkStep page pageNum operatorList) indices st.

Definition walkStart : WalkState :=
  {| wsImages := []; wsImageIndex := 1; wsLog := [] |}.

(** Two states with the same images and the same next index. *)
Definition sameImages (st st' : WalkState) : Prop :=
  wsImages st = wsImages st' /\ wsImageIndex st = wsImageIndex st'.

(** The names given so far are numbered 1, 2, ... and the next index
    follows them. *)
Definition numbered (pageNum : nat) (st : WalkState) : Prop :=
  exists formats,
    map filename (wsImages st) =
      zip_with (imageName pageNum) (seq 1 (length formats)) formats
    /\ wsImageIndex st = S (length formats).

(** The images of the page and what the walk logged. *)
Definition extractImagesFromPage (page : PDFPageProxy) (pageNum : nat)
    : Result string (list ExtractedImage) * list LogEntry :=
  match getOperatorList page with
  | Ok operatorList =>
      let st := walk page pageNum operatorList
                  (seq 0 (length (fnArray operatorList))) walkStart in
      (Ok (wsImages st), wsLog st)
  | Err message => (Err ("Failed to extract images: " +:+ message), [])
  end.

(** *** extractPdfContent

    [Promise.all] over the text and the images of a page: when both
    reject, the embedding reports the text error. *)

Fixpoint extractPages (pdfDoc : PDFDocumentProxy) (remaining pageNum : nat)
    (extractedContent : list ExtractedPageContent) (log : list LogEntry)
    : Result string (list ExtractedPageContent) * list LogEntry :=
  match remaining with
  | 0 => (Ok extractedContent, log)
  | S remaining' =>
      match getPage pdfDoc pageNum with
      | Err message => (Err message, log)
      | Ok page =>
          let text := extractTextFromPage page in
          let '(imgs, pageLog) := extractImagesFromPage page pageNum in
          match text, imgs with
          | Ok textContent, Ok images =>
              extractPages pdfDoc remaining' (S pageNum)
                (extractedContent ++
                   [{| pageNumber := pageNum;
                       textContent := textContent;
                       images := images |}])
                (log ++ pageLog)
          | Err message, _ => (Err message, log ++ pageLog)
          | Ok _, Err message => (Err message, log ++ pageLog)
          end
      end
  end.

Definition extractPdfContent (pdfBuffer : list byte)
    : Result string (list ExtractedPageContent) * list LogEntry :=
  match loadPdfDocument pdfBuffer with
  | Err message => (Err ("PDF content extraction failed: " +:+ message), [])
  | Ok pdfDoc =>
      match extractPages pdfDoc (numPages pdfDoc) 1 [] [] with
      | (Ok content, log) => (Ok content, log)
      | (Err message, log) =>
          (Err ("PDF content extraction failed: " +:+ message), log)
      end
  end.

End Service.

End PdfConverter.

(** ** services/imageToPdf.service.ts *)

Module ImageToPdf.

Record ImageData := {
  buffer : list byte;
  mimetype : string;
  originalname : string
}.

(** *** The part of pdf-lib the service drives *)

(** An embedded image: the bytes it was made from and its intrinsic
    size in pixels. *)
Record PDFImage := {
  source : list byte;
  pixelWidth : N;
  pixelHeight : N
}.

(** [embeddedImage.scale(factor)] *)
Definition scale (image : PDFImage) (factor : N) : N * N :=
  ((pixelWidth image * factor)%N, (pixelHeight image * factor)%N).

(** [page.drawImage(image, {x, y, width, height})] *)
Record DrawnImage := {
  image : PDFImage;
  x : N;
  y : N;
  drawWidth : N;
  drawHeight : N
}.

Record PDFPage := {
  pageWidth : N;
  pageHeight : N;
  drawn : list DrawnImage
}.

(** A document under construction: its pages, in order. *)
Definition PDFDocument := list PDFPage.

(** [message.includes(needle)] *)
Fixpoint includes (message needle : string) : bool :=
  String.prefix needle message
  || match message with
     | EmptyString => false
     | String _ message' => includes message' needle
     end.

(** An error that reports an unsupported format: the message of
    [validateImages] or the one of [addImageToPdf]. *)
Definition isUnsupportedFormatError (message : string) : bool :=
  includes message "has unsupported format"
  || includes message "Unsupported image format".

Section Service.

(** The PNG and JPEG decoders of [embedPng] and [embedJpg]: the
    intrinsic size, or the message of the exception. *)
Variable decodePng : list byte -> Result string (N * N).
Variable decodeJpg : list byte -> Result string (N * N).
(** [pdfDoc.save()] *)
Variable save : PDFDocument -> Result string (list byte).

Definition embed (decode : list byte -> Result string (N * N)) (bytes : list byte)
    : Result string PDFImage :=
  bindR (decode bytes) (fun '(w, h) =>
  Ok {| source := bytes; pixelWidth := w; pixelHeight := h |}).

Definition addImageToPdf (pdfDoc : PDFDocument) (imageData : ImageData)
    (_pageNumber : nat) : Result string PDFDocument :=
  let embedded :=
    if String.eqb (mimetype imageData) "image/png" then
      embed decodePng (buffer imageData)
    else if String.eqb (mimetype imageData) "image/jpeg" then
      embed decodeJpg (buffer imageData)
    else
      Err ("Unsupported image format: " +:+ mimetype imageData
           +:+ ". Only PNG and JPEG are supported.") in
  match embedded with
  | Err message => Err ("Failed to embed image: " +:+ message)
  | Ok embeddedImage =>
      let '(width, height) := scale embeddedImage 1 in
      Ok (pdfDoc ++
            [{| pageWidth := width;
                pageHeight := height;
                drawn := [{| image := embeddedImage;
                             x := 0%N; y := 0%N;
                             drawWidth := width;
                             drawHeight := height |}] |}])
  end.

(** The loop over [images] from index [i] on. *)
Fixpoint addImages (pdfDoc : PDFDocument) (images : list ImageData) (i : nat)
    : Result string PDFDocument :=
  match images with
  | [] => Ok pdfDoc
  | image :: images' =>
      match addImageToPdf pdfDoc image (i + 1) with
      | Ok pdfDoc' => addImages pdfDoc' images' (S i)
      | Err message =>
          Err ("Failed to process image " +:+ PdfConverter.showNat (i + 1)
               +:+ " (" +:+ originalname image +:+ "): " +:+ message)
      end
  end.

Definition convertImagesToPdf (images : list ImageData) : Result string (list byte) :=
  match images with
  | [] => Err "At least one image is required"
  | _ :: _ =>
      match bindR (addImages [] images 0) save with
      | Ok pdfBytes => Ok pdfBytes
      | Err message =>
          if includes message "Failed to process image" then Err message
          else Err ("PDF creation failed: " +:+ message)
      end
  end.

Definition isValidImageFormat (mimetype : string) : bool :=
  String.eqb mimetype "image/png" || String.eqb mimetype "image/jpeg".

(** The loop of [validateImages] from index [i] on; [Ok tt] when it
    returns without throwing. *)
Fixpoint validateEach (images : list ImageData) (i : nat) : Result string unit :=
  match images with
  | [] => Ok tt
  | image :: images' =>
      if length (buffer image) =? 0 then
        Err ("Image " +:+ PdfConverter.showNat (i + 1) +:+ " has no data")
      else if negb (isValidImageFormat (mimetype image)) then
        Err ("Image " +:+ PdfConverter.showNat (i + 1) +:+ " ("
             +:+ originalname image +:+ ") has unsupported format: "
             +:+ mimetype image)
      else validateEach images' (S i)
  end.

Definition validateImages (images : list ImageData) : Result string unit :=
  match images with
  | [] => Err "At least one image is required"
  | _ :: _ => validateEach images 0
  end.

(** The two calls as the [/images-to-pdf] handler makes them. *)
Definition composeFromImages (images : list ImageData) : Result string (list byte) :=
  bindR (validateImages images) (fun _ => convertImagesToPdf images).

(** *** What the design document says of a composed document *)

(** The intrinsic pixel size of an input that is a decodable PNG or
    JPEG. *)
Definition intrinsicSize (image : ImageData) : option (N * N) :=
  if String.eqb (mimetype image) "image/png" then
    match decodePng (buffer image) with
    | Ok size => Some size
    | Err _ => None
    end
  else if String.eqb (mimetype image) "image/jpeg" then
    match decodeJpg (buffer image) with
    | Ok size => Some size
    | Err _ => None
    end
  else None.

(** A page of exactly the size of the image, with the image drawn over
    its full bounds. *)
Definition fullPage (image : ImageData) (size : N * N) : PDFPage :=
  {| pageWidth := fst size;
     pageHeight := snd size;
     drawn := [{| image := {| source := buffer image;
                              pixelWidth := fst size;
                              pixelHeight := snd size |};
                  x := 0%N; y := 0%N;
                  drawWidth := fst size;
                  drawHeight := snd size |}] |}.

End Service.

End ImageToPdf.

(** ** services/pdfToDocx.service.ts *)

Module PdfToDocx.

(** *** The part of docx the service builds *)

Inductive Run :=
| TextRun (text : string) (italics : bool) (size : option N) (color : option string)
| ImageRun (data : list byte) (type : string) (width height : N)
| PageBreak.

Record Paragraph := {
  children : list Run;
  spacingBefore : option N;
  spacingAfter : option N;
  centered : bool
}.

Definition isPageBreak (r : Run) : bool :=
  match r with
  | PageBreak => true
  | _ => false
  end.

(** The explicit page breaks of a document body. *)
Definition countPageBreaks (paragraphs : list Paragraph) : nat :=
  length (List.filter isPageBreak (flat_map children paragraphs)).

(** [text.split('\n')] *)
Fixpoint splitLines (text : string) : list string :=
  match text with
  | EmptyString => [EmptyString]
  | String c text' =>
      if Ascii.eqb c (ascii_of_nat 10) then EmptyString :: splitLines text'
      else match splitLines text' with
           | line :: lines => String c line :: lines
           | [] => [String c EmptyString]
           end
  end.

Section Service.

(** [String.prototype.trim] *)
Variable trim : string -> string.
(** [new ImageRun({...})]: the message of the exception when the
    constructor throws. *)
Variable imageRunThrows : list byte -> string -> option string.
(** [Packer.toBuffer(new Document({sections: [{properties, children}]}))] *)
Variable pack : list Paragraph -> Result string (list byte).
(** [pdfConverterService.extractPdfContent] *)
Variable extractPdfContent :
  list byte -> Result string (list PdfConverter.ExtractedPageContent).

Definition pageLabel (pageNumber : nat) : Paragraph :=
  {| children := [TextRun ("Page " +:+ PdfConverter.showNat pageNumber) true
                    (Some 20%N) (Some "808080")];
     spacingBefore := None; spacingAfter := Some 200%N; centered := false |}.

Definition pageBreakParagraph : Paragraph :=
  {| children := [PageBreak];
     spacingBefore := None; spacingAfter := None; centered := false |}.

Definition lineParagraph (line : string) : Paragraph :=
  let trimmedLine := trim line in
  if String.length trimmedLine =? 0 then
    {| children := [TextRun "" false None None];
       spacingBefore := None; spacingAfter := Some 100%N; centered := false |}
  else
    {| children := [TextRun trimmedLine false (Some 24%N) None];
       spacingBefore := None; spacingAfter := Some 200%N; centered := false |}.

Definition convertTextToParagraphs (textContent : string) : list Paragraph :=
  map lineParagraph (splitLines textContent).

Definition detectImageType (buffer : list byte) : string :=
  match buffer with
  | b0 :: b1 :: b2 :: b3 :: _ =>
      if Byte.eqb b0 x89 && Byte.eqb b1 x50 && Byte.eqb b2 x4e && Byte.eqb b3 x47
      then "png"
      else if Byte.eqb b0 xff && Byte.eqb b1 xd8 then "jpg"
      else "png"
  | b0 :: b1 :: _ =>
      if Byte.eqb b0 xff && Byte.eqb b1 xd8 then "jpg" else "png"
  | _ => "png"
  end.

Definition createImageParagraph (imageBuffer : list byte) : Result string Paragraph :=
  let maxWidth := 600%N in
  let maxHeight := 400%N in
  let imageType := detectImageType imageBuffer in
  match imageRunThrows imageBuffer imageType with
  | Some message => Err message
  | None =>
      Ok {| children := [ImageRun imageBuffer imageType maxWidth maxHeight];
            spacingBefore := Some 200%N; spacingAfter := Some 200%N;
            centered := true |}
  end.

(** A [console.error]: "Failed to embed image ${image.filename}:" and
    the error. *)
Definition EmbedLog := (string * string)%type.

(** The loop over the images of one page. *)
Fixpoint embedImages (images : list PdfConverter.ExtractedImage)
    (paragraphs : list Paragraph) (log : list EmbedLog)
    : list Paragraph * list EmbedLog :=
  match images with
  | [] => (paragraphs, log)
  | image :: images' =>
      match createImageParagraph (PdfConverter.buffer image) with
      | Ok imageParagraph =>
          embedImages images' (paragraphs ++ [imageParagraph]) log
      | Err message =>
          embedImages images' paragraphs
            (log ++ [(PdfConverter.filename image, message)])
      end
  end.

(** The page loop at index [i], of [total] pages. *)
Fixpoint buildPages (total : nat) (includeImages preservePageBreaks : bool)
    (pages : list PdfConverter.ExtractedPageContent) (i : nat)
    (paragraphs : list Paragraph) (log : list EmbedLog)
    : list Paragraph * list EmbedLog :=
  match pages with
  | [] => (paragraphs, log)
  | page :: pages' =>
      let paragraphs :=
        if 1 <? total
        then paragraphs ++ [pageLabel (PdfConverter.pageNumber page)]
        else paragraphs in
      let text := PdfConverter.textContent page in
      let paragraphs :=
        if negb (String.length text =? 0) && (0 <? String.length (trim text))
        then paragraphs ++ convertTextToParagraphs text
        else paragraphs in
      let '(paragraphs, log) :=
        if includeImages && (0 <? length (PdfConverter.images page))
        then embedImages (PdfConverter.images page) paragraphs log
        else (paragraphs, log) in
      let paragraphs :=
        if preservePageBreaks && (i <? total - 1)
        then paragraphs ++ [pageBreakParagraph]
        else paragraphs in
      buildPages total includeImages preservePageBreaks pages' (S i) paragraphs log
  end.

(** What one page contributes before its page break: the label, the
    text paragraphs and the image paragraphs. *)
Definition pageParagraphs (total : nat) (includeImages : bool)
    (page : PdfConverter.ExtractedPageContent) : list Paragraph :=
  let text := PdfConverter.textContent page in
  (if 1 <? total then [pageLabel (PdfConverter.pageNumber page)] else [])
  ++ (if negb (String.length text =? 0) && (0 <? String.length (trim text))
      then convertTextToParagraphs text else [])
  ++ (if includeImages && (0 <? length (PdfConverter.images page))
      then fst (embedImages (PdfConverter.images page) [] []) else []).

(** The bodies of the pages with a page break after each but the
    last. *)
Fixpoint withBreaks (bodies : list (list Paragraph)) : list Paragraph :=
  match bodies with
  | [] => []
  | body :: bodies' =>
      match bodies' with
      | [] => body
      | _ :: _ => body ++ pageBreakParagraph :: withBreaks bodies'
      end
  end.

Definition buildDocxContent (extractedContent : list PdfConverter.ExtractedPageContent)
    (includeImages preservePageBreaks : bool) : list Paragraph * list EmbedLog :=
  buildPages (length extractedContent) includeImages preservePageBreaks
    extractedContent 0 [] [].

(** The document body handed to the packer, and the packed bytes. *)
Definition convertPdfToDocx (pdfBuffer : list byte)
    (includeImages preservePageBreaks : option bool)
    : Result string (list Paragraph * list byte) :=
  let includeImages := default true includeImages in
  let preservePageBreaks := default true preservePageBreaks in
  let body :=
    bindR (extractPdfContent pdfBuffer) (fun extractedContent =>
    if length extractedContent =? 0 then Err "No content extracted from PDF"
    else
      let docxChildren :=
        fst (buildDocxContent extractedContent includeImages preservePageBreaks) in
      bindR (pack docxChildren) (fun buffer => Ok (docxChildren, buffer))) in
  match body with
  | Ok r => Ok r
  | Err message => Err ("PDF to DOCX conversion failed: " +:+ message)
  end.

End Service.

End PdfToDocx.

(** ** config/upload.ts, middleware/fileValidation.ts, routes/pdf.routes.ts, app.ts *)

Module Routes.

Record UploadedFile := {
  buffer : list byte;
  originalname : string;
  mimetype : string
}.

(** What of a request the guards and the PDF handlers read: the client
    address, the declared [Content-Length], the part uploaded in the
    [pdf] field, and the [format] query parameter. *)
Record Request := {
  clientIp : string;
  contentLength : N;
  pdfField : option UploadedFile;
  formatQuery : option string
}.

Definition MAX_FILE_SIZE : N := (10 * 1024 * 1024)%N.

(** How a request to a PDF route ends: an HTTP error answer, or a call
    of the converter service on the uploaded bytes. *)
Inductive Outcome :=
| Answered (status : nat)
| CallsConvertPdfToImages (pdfBuffer : list byte) (format : string)
| CallsExtractPdfContent (pdfBuffer : list byte).

(** One guard of the DoS chain: the status it answers with, if it does
    not call [next()], and the counters it leaves. *)
Definition runGuard (mw : DosProtection.Middleware) (req : Request)
    (concurrentRequests : gmap string nat) : option nat * gmap string nat :=
  match mw with
  | DosProtection.payloadSizeLimiter maxSize =>
      if (maxSize <? contentLength req)%N then (Some 413, concurrentRequests)
      else (None, concurrentRequests)
  | DosProtection.concurrentRequestLimiterMw maxConcurrent =>
      match DosProtection.concurrentRequestLimiter maxConcurrent (clientIp req)
              concurrentRequests with
      | (DosProtection.Rejected429, m) => (Some 429, m)
      | (DosProtection.Accepted, m) => (None, m)
      end
  | DosProtection.requestTimeout _ =>
      (* arms a timer and calls next() *)
      (None, concurrentRequests)
  | DosProtection.pdfComplexityMiddleware maxPages =>
      match pdfField req with
      | None => (None, concurrentRequests)
      | Some file =>
          if DosProtection.valid
               (DosProtection.validatePdfComplexity (buffer file) maxPages)
          then (None, concurrentRequests)
          else (Some 400, concurrentRequests)
      end
  end.

Fixpoint runGuards (chain : list DosProtection.Middleware) (req : Request)
    (concurrentRequests : gmap string nat) : option nat * gmap string nat :=
  match chain with
  | [] => (None, concurrentRequests)
  | mw :: chain' =>
      match runGuard mw req concurrentRequests with
      | (Some status, m) => (Some status, m)
      | (None, m) => runGuards chain' req m
      end
  end.

(** The configuration [createApp] passes to [dosProtection]. *)
Definition appDosConfig : DosProtection.PartialConfig := {|
  DosProtection.requestTimeoutMs' := Some 60000%N;
  DosProtection.maxConcurrentPerIp' := Some 5;
  DosProtection.minUploadSpeed' := None;
  DosProtection.maxPdfPages' := None;
  DosProtection.maxBodySize' := Some (15 * 1024 * 1024)%N
|}.

(** [upload.single('pdf')]: the file filter and the size limit; both
    failures are answered with 400 by the router's error handler. *)
Definition uploadSingle (req : Request) : Result nat (option UploadedFile) :=
  match pdfField req with
  | None => Ok None
  | Some file =>
      if negb (String.eqb (mimetype file) "application/pdf") then Err 400
      else if (MAX_FILE_SIZE <? N.of_nat (length (buffer file)))%N then Err 400
      else Ok (Some file)
  end.

(** [validatePdfUpload]: the status it answers with, if any. *)
Definition validatePdfUpload (file : option UploadedFile) : option nat :=
  match file with
  | None => None
  | Some f =>
      if FileValidator.isValid
           (FileValidator.validatePdf (buffer f) (originalname f) (mimetype f))
      then None
      else Some 400
  end.

Definition isValidFormat (format : string) : bool :=
  String.eqb format "png" || String.eqb format "jpeg".

(** The [/convert] handler up to its call of the service. *)
Definition convertHandler (file : option UploadedFile) (formatQuery : option string)
    : Outcome :=
  match file with
  | None => Answered 400
  | Some f =>
      let lowered := FileValidator.toLowerCase (default "" formatQuery) in
      let formatParam := if String.eqb lowered "" then "png" else lowered in
      if negb (isValidFormat formatParam) then Answered 400
      else CallsConvertPdfToImages (buffer f) formatParam
  end.

(** The [/extract] handler up to its call of the service. *)
Definition extractHandler (file : option UploadedFile) : Outcome :=
  match file with
  | None => Answered 400
  | Some f => CallsExtractPdfContent (buffer f)
  end.

(** A request through the DoS chain of the application and the
    middleware of a PDF route, up to the handler.  The other middleware
    [createApp] mounts (headers, CORS, rate limiter, body parsers,
    compression, loggers) does not look at the uploaded file and is left
    out. *)
Definition pdfRoute (handler : option UploadedFile -> Outcome) (req : Request)
    (concurrentRequests : gmap string nat) : Outcome * gmap string nat :=
  match runGuards (DosProtection.dosProtection appDosConfig) req concurrentRequests with
  | (Some status, m) => (Answered status, m)
  | (None, m) =>
      match uploadSingle req with
      | Err status => (Answered status, m)
      | Ok file =>
          match validatePdfUpload file with
          | Some status => (Answered status, m)
          | None => (handler file, m)
          end
      end
  end.

Definition postConvert (req : Request) :=
  pdfRoute (fun file => convertHandler file (formatQuery req)) req.

Definition postExtract (req : Request) := pdfRoute extractHandler req.

(** *** The archive *)

Inductive EntryData :=
| BufferData (bytes : list byte)
| StringData (text : string).

(** [archive.append(data, { name })] *)
Record ArchiveEntry := {
  name : string;
  data : EntryData
}.

(** The appends of the [/convert] handler. *)
Definition convertEntries (convertedPages : list PdfConverter.ConvertedPage)
    : list ArchiveEntry :=
  map (fun page => {| name := PdfConverter.cpFilename page;
                      data := BufferData (PdfConverter.cpBuffer page) |})
      convertedPages.

Definition pageEntries (page : PdfConverter.ExtractedPageContent) : list ArchiveEntry :=
  let pageNum := PdfConverter.pageNumber page in
  {| name := "page-" +:+ PdfConverter.showNat pageNum +:+ ".txt";
     data := StringData (PdfConverter.textContent page) |}
  :: (if 0 <? length (PdfConverter.images page) then
        map (fun image =>
               {| name := "page-" +:+ PdfConverter.showNat pageNum +:+ "-images/"
                          +:+ PdfConverter.filename image;
                  data := BufferData (PdfConverter.buffer image) |})
            (PdfConverter.images page)
      else []).

(** The appends of the [/extract] handler. *)
Definition extractEntries (extractedContent : list PdfConverter.ExtractedPageContent)
    : list ArchiveEntry :=
  flat_map pageEntries extractedContent.

(** An entry of page [k] of an extraction archive: the text of the
    page, or one of its images in the folder of the page. *)
Definition entryOfPage (k : nat) (e : ArchiveEntry) : Prop :=
  name e = "page-" +:+ PdfConverter.showNat k +:+ ".txt"
  \/ exists j format,
       name e = "page-" +:+ PdfConverter.showNat k +:+ "-images/"
                +:+ PdfConverter.imageName k j format.

(** What holds of every page of an extraction: its image names are
    pairwise distinct, and its archive entries are entries of that
    page, led by its text. *)
Definition wellNamed (page : PdfConverter.ExtractedPageContent) : Prop :=
  List.NoDup (map PdfConverter.filename (PdfConverter.images page))
  /\ (exists e rest, pageEntries page = e :: rest
        /\ name e = "page-" +:+ PdfConverter.showNat (PdfConverter.pageNumber page)
                    +:+ ".txt")
  /\ Forall (entryOfPage (PdfConverter.pageNumber page)) (pageEntries page).

(** Entries that come in groups, one group per page, for the pages
    [1 .. n] in ascending order, each group led by the text of its
    page. *)
Definition ascendingByPage (n : nat) (entries : list ArchiveEntry) : Prop :=
  exists groups,
    entries = concat groups
    /\ Forall2 (fun k group =>
                  (exists e rest, group = e :: rest
                     /\ name e = "page-" +:+ PdfConverter.showNat k +:+ ".txt")
                  /\ Forall (entryOfPage k) group)
               (seq 1 n) groups.

End Routes.

(** ** Sample inputs *)

Module Samples.

Fixpoint replicate {A} (n : nat) (l : list A) : list A :=
  match n with
  | 0 => []
  | S n' => l ++ replicate n' l
  end.

(** A buffer with a PDF header and 150 page markers. *)
Definition crafted150 : list byte :=
  list_byte_of_string "%PDF-1.4 "
  ++ replicate 150 (list_byte_of_string "<< /Type /Page >> ").

Definition upload150 : Routes.UploadedFile :=
  {| Routes.buffer := crafted150;
     Routes.originalname := "crafted.pdf";
     Routes.mimetype := "application/pdf" |}.

Definition request150 : Routes.Request :=
  {| Routes.clientIp := "203.0.113.7";
     Routes.contentLength := 4096%N;
     Routes.pdfField := Some upload150;
     Routes.formatQuery := None |}.

(** Canvas operations that always succeed; the encoder stands for any
    PNG encoder and marks its output with the PNG signature. *)
Definition canvasOk (w h : N) : Result string unit := Ok tt.

Definition blankImageData (w h : N) : Result string (list byte) :=
  Ok (repeat x00 (4 * N.to_nat w * N.to_nat h)).

Definition pngOf (w h : N) (pixels : list byte) : Result string (list byte) :=
  Ok ([x89; x50; x4e; x47; x0d; x0a; x1a; x0a] ++ pixels).

(** Bytes that begin with the JPEG start-of-image marker. *)
Definition soiBytes : list byte := [xff; xd8; xff; xe0].

(** A resource carrying those bytes, of kind 2 (24-bit RGB). *)
Definition soiRgb : PdfConverter.ImageObj :=
  {| PdfConverter.width := 1%N; PdfConverter.height := 1%N;
     PdfConverter.data := Some soiBytes; PdfConverter.kind := 2%N |}.

(** The same bytes in a resource of kind 1. *)
Definition soiKind1 : PdfConverter.ImageObj :=
  {| PdfConverter.width := 1%N; PdfConverter.height := 1%N;
     PdfConverter.data := Some soiBytes; PdfConverter.kind := 1%N |}.

(** Two images, a 300x200 PNG and a 150x150 JPEG, and decoders that know
    them. *)
Definition imageA : ImageToPdf.ImageData :=
  {| ImageToPdf.buffer := [x89; x50; x4e; x47; x0d; x0a; x1a; x0a; x01];
     ImageToPdf.mimetype := "image/png";
     ImageToPdf.originalname := "a.png" |}.

Definition imageB : ImageToPdf.ImageData :=
  {| ImageToPdf.buffer := [xff; xd8; xff; xe0; x02];
     ImageToPdf.mimetype := "image/jpeg";
     ImageToPdf.originalname := "b.jpg" |}.

Definition decodePngSample (bytes : list byte) : Result string (N * N) :=
  if Js.bytesEqb bytes (ImageToPdf.buffer imageA) then Ok (300%N, 200%N)
  else Err "Input is not a PNG file".

Definition decodeJpgSample (bytes : list byte) : Result string (N * N) :=
  if Js.bytesEqb bytes (ImageToPdf.buffer imageB) then Ok (150%N, 150%N)
  else Err "SOI not found in JPEG".

(** A serialiser that writes the PDF header and one byte per page. *)
Definition saveSample (pdfDoc : ImageToPdf.PDFDocument) : Result string (list byte) :=
  Ok ([x25; x50; x44; x46; x2d] ++ map (fun _ => x0a) pdfDoc).

(** A PNG upload whose bytes are not a PNG, one without bytes, and a GIF. *)
Definition brokenPng : ImageToPdf.ImageData :=
  {| ImageToPdf.buffer := [x00; x01];
     ImageToPdf.mimetype := "image/png";
     ImageToPdf.originalname := "broken.png" |}.

Definition emptyPng : ImageToPdf.ImageData :=
  {| ImageToPdf.buffer := [];
     ImageToPdf.mimetype := "image/png";
     ImageToPdf.originalname := "empty.png" |}.

Definition gifImage : ImageToPdf.ImageData :=
  {| ImageToPdf.buffer := [x47; x49; x46; x38];
     ImageToPdf.mimetype := "image/gif";
     ImageToPdf.originalname := "c.gif" |}.

(** Three extracted pages and a docx binding that never fails. *)
Definition threePages : list PdfConverter.ExtractedPageContent :=
  [ {| PdfConverter.pageNumber := 1; PdfConverter.textContent := "one";
       PdfConverter.images := [] |};
    {| PdfConverter.pageNumber := 2; PdfConverter.textContent := "";
       PdfConverter.images :=
         [{| PdfConverter.buffer := [xff; xd8; xff; xe0];
             PdfConverter.filename := "page-2-image-1.jpg";
             PdfConverter.format := "jpg" |}] |};
    {| PdfConverter.pageNumber := 3; PdfConverter.textContent := "three";
       PdfConverter.images := [] |} ].

Definition extractThreePages (pdfBuffer : list byte)
    : Result string (list PdfConverter.ExtractedPageContent) :=
  Ok threePages.

Definition trimNothing (s : string) : string := s.

Definition imageRunFine (data : list byte) (type : string) : option string := None.

Definition packStub (paragraphs : list PdfToDocx.Paragraph) : Result string (list byte) :=
  Ok [x50; x4b; x03; x04].

(** A canvas binding that refuses an empty surface. *)
Definition canvasNonEmpty (w h : N) : Result string unit :=
  if ((w =? 0) || (h =? 0))%N then Err "Invalid canvas size" else Ok tt.

Definition emptyImage : PdfConverter.ImageObj :=
  {| PdfConverter.width := 0%N; PdfConverter.height := 0%N;
     PdfConverter.data := None; PdfConverter.kind := 0%N |}.

(** A page with a text run and three paint instructions: the resource of
    the first cannot be converted, the second is fine, the third resolves
    to no object. *)
Definition mixedPage : PdfConverter.PDFPageProxy :=
  {| PdfConverter.getTextContent := Ok [PdfConverter.TextItem "Invoice" 700];
     PdfConverter.getOperatorList :=
       Ok {| PdfConverter.fnArray :=
               [PdfConverter.paintImageXObject; PdfConverter.otherOp 44;
                PdfConverter.paintImageXObject; PdfConverter.paintImageMaskXObject];
             PdfConverter.argsArray :=
               [Some ["img_bad"]; Some ["text"]; Some ["img_ok"]; Some ["img_null"]] |};
     PdfConverter.objsGet := fun name =>
       if bool_decide (name = Some "img_bad") then
         PdfConverter.Resolved (Some emptyImage)
       else if bool_decide (name = Some "img_ok") then
         PdfConverter.Resolved (Some soiKind1)
       else PdfConverter.Resolved None |}.

(** A page whose only instruction paints a resource that resolves to no
    object. *)
Definition unresolvedPage : PdfConverter.PDFPageProxy :=
  {| PdfConverter.getTextContent := Ok [PdfConverter.TextItem "Cover" 700];
     PdfConverter.getOperatorList :=
       Ok {| PdfConverter.fnArray := [PdfConverter.paintImageXObject];
             PdfConverter.argsArray := [Some ["img_null"]] |};
     PdfConverter.objsGet := fun _ => PdfConverter.Resolved None |}.

Definition twoPages : PdfConverter.PDFDocumentProxy :=
  {| PdfConverter.numPages := 2;
     PdfConverter.getPage := fun pageNum =>
       if pageNum =? 1 then Ok mixedPage
       else if pageNum =? 2 then Ok unresolvedPage
       else Err "Invalid page request." |}.

Definition loadTwoPages (pdfBuffer : list byte)
    : Result string PdfConverter.PDFDocumentProxy :=
  Ok twoPages.

(** A renderer that returns the PNG signature for every page. *)
Definition renderStub (page : PdfConverter.PDFPageProxy) (format : string)
    (scale quality : Q) : Result string (list byte) :=
  Ok [x89; x50; x4e; x47].

End Samples.

(** ** middleware/dosProtection.ts: the client address and runs of the limiter *)

Module Guards.

(** The characters [String.prototype.trim] removes among the code units
    0 .. 255, which is where the characters of a header value lie. *)
Definition isTrimmed (c : ascii) : bool :=
  let n := nat_of_ascii c in
  ((9 <=? n) && (n <=? 13)) || (n =? 32) || (n =? 160).

Fixpoint trimStart (s : string) : string :=
  match s with
  | EmptyString => EmptyString
  | String c s' => if isTrimmed c then trimStart s' else s
  end.

Fixpoint trimEnd (s : string) : string :=
  match s with
  | EmptyString => EmptyString
  | String c s' =>
      match trimEnd s' with
      | EmptyString => if isTrimmed c then EmptyString else String c EmptyString
      | rest => String c rest
      end
  end.

Definition trim (s : string) : string := trimEnd (trimStart s).

(** [s.split(',')[0]] *)
Fixpoint firstField (s : string) : string :=
  match s with
  | EmptyString => EmptyString
  | String c s' => if Ascii.eqb c "," then EmptyString else String c (firstField s')
  end.

(** What [getClientIp] reads of a request: the [x-forwarded-for] header
    when it is a string, [req.ip] and [req.socket.remoteAddress]. *)
Record Peer := {
  forwardedFor : option string;
  ip : option string;
  remoteAddress : option string
}.

(** [a || b] on strings that may be undefined: the empty string is falsy. *)
Definition orElse (a : option string) (b : string) : string :=
  match a with
  | Some s => if String.eqb s "" then b else s
  | None => b
  end.

Definition getClientIp (req : Peer) : string :=
  match forwardedFor req with
  | Some forwarded => trim (firstField forwarded)
  | None => orElse (ip req) (orElse (remoteAddress req) "unknown")
  end.

(** What happens to the counters over time: a request of a client goes
    through the limiter, or a response of a client emits an event for
    which [cleanup] is registered. *)
Inductive Happening :=
| Arrives (clientIp : string)
| Emits (clientIp : string).

Definition happen (maxConcurrent : nat) (m : gmap string nat) (h : Happening)
    : gmap string nat :=
  match h with
  | Arrives clientIp =>
      snd (DosProtection.concurrentRequestLimiter maxConcurrent clientIp m)
  | Emits clientIp => DosProtection.cleanup clientIp m
  end.

Definition history (maxConcurrent : nat) (hs : list Happening) : gmap string nat :=
  fold_left (happen maxConcurrent) hs ∅.

(** The limiter on the requests of a list, one after the other, none of
    them finishing in between: the answers and the counters left. *)
Fixpoint admitAll (maxConcurrent : nat) (reqs : list Peer) (m : gmap string nat)
    : list DosProtection.Admission * gmap string nat :=
  match reqs with
  | [] => ([], m)
  | req :: reqs' =>
      let '(answer, m') :=
        DosProtection.concurrentRequestLimiter maxConcurrent (getClientIp req) m in
      let '(answers, m'') := admitAll maxConcurrent reqs' m' in
      (answer :: answers, m'')
  end.

End Guards.

(** ** utils/fileValidator.ts: text files; middleware/fileValidation.ts and the
    image route *)

Module Uploads.

(** The leading bytes the table of file types asks for: [%PDF-], the PNG
    signature, and the three bytes every JPEG rule begins with. *)
Definition pdfSignature : list byte := [x25; x50; x44; x46; x2d].
Definition pngSignature : list byte := [x89; x50; x4e; x47; x0d; x0a; x1a; x0a].
Definition jpegSignature : list byte := [xff; xd8; xff].

(** The messages [validateText] can record. *)
Inductive TextError :=
| (** "Invalid MIME type: ${mimeType}. Expected: text/plain" *)
  TextInvalidMimeType (mimeType : string)
| (** "Invalid file extension: ${extension}. Expected: .txt" *)
  TextInvalidExtension (extension : string)
| (** "File appears to be binary (contains null bytes)" *)
  TextBinary.

Record TextValidationResult := {
  textIsValid : bool;
  textDetectedType : option string;
  textErrors : list TextError
}.

(** The loop over the first [checkLimit] bytes: is one of them zero? *)
Definition hasNullByte (buffer : list byte) : bool :=
  existsb (Byte.eqb x00) (firstn (Nat.min (length buffer) 1000) buffer).

Definition validateText (buffer : list byte) (filename mimeType : string)
    : TextValidationResult :=
  let extension := FileValidator.getExtension filename in
  let errors :=
    (if String.eqb mimeType "text/plain" then [] else [TextInvalidMimeType mimeType])
    ++ (if String.eqb extension ".txt" then [] else [TextInvalidExtension extension])
    ++ (if hasNullByte buffer then [TextBinary] else []) in
  {| textIsValid := length errors =? 0;
     textDetectedType := if length errors =? 0 then Some "text/plain" else None;
     textErrors := errors |}.

(** [imageFileFilter] of the upload configuration. *)
Definition imageFileFilter (file : Routes.UploadedFile) : bool :=
  String.eqb (Routes.mimetype file) "image/png"
  || String.eqb (Routes.mimetype file) "image/jpeg".

(** [imageUpload.array('images', 20)]: the file filter, the limit on the
    number of files and the size limit; each failure is answered with 400
    by the router's error handler. *)
Definition uploadArray (files : list Routes.UploadedFile)
    : Result nat (list Routes.UploadedFile) :=
  if negb (forallb imageFileFilter files) then Err 400
  else if 20 <? length files then Err 400
  else if existsb (fun file =>
                     (Routes.MAX_FILE_SIZE <? N.of_nat (length (Routes.buffer file)))%N)
                  files then Err 400
  else Ok files.

(** [validateImageUploads]: the status it answers with, if any. *)
Definition validateImageUploads (files : list Routes.UploadedFile) : option nat :=
  match files with
  | [] => None
  | _ :: _ =>
      let validationErrors :=
        List.filter
          (fun file =>
             negb (FileValidator.isValid
                     (FileValidator.validateImage (Routes.buffer file)
                        (Routes.originalname file) (Routes.mimetype file))))
          files in
      if 0 <? length validationErrors then Some 400 else None
  end.

(** [req.files.map(file => ({buffer, mimetype, originalname}))] *)
Definition toImageData (file : Routes.UploadedFile) : ImageToPdf.ImageData :=
  {| ImageToPdf.buffer := Routes.buffer file;
     ImageToPdf.mimetype := Routes.mimetype file;
     ImageToPdf.originalname := Routes.originalname file |}.

(** How a request to [/images-to-pdf] ends: an error answer of a guard,
    an error passed to the error handler, or the PDF. *)
Inductive ImagesOutcome :=
| ImagesAnswered (status : nat)
| ImagesError (message : string)
| ImagesPdf (pdfBuffer : list byte).

Section ImagesRoute.

Variable decodePng : list byte -> Result string (N * N).
Variable decodeJpg : list byte -> Result string (N * N).
Variable save : ImageToPdf.PDFDocument -> Result string (list byte).

Definition imagesToPdfHandler (files : list Routes.UploadedFile) : ImagesOutcome :=
  match files with
  | [] => ImagesAnswered 400
  | _ :: _ =>
      let images := map toImageData files in
      match ImageToPdf.validateImages images with
      | Err message => ImagesError message
      | Ok _ =>
          match ImageToPdf.convertImagesToPdf decodePng decodeJpg save images with
          | Err message => ImagesError message
          | Ok pdfBuffer => ImagesPdf pdfBuffer
          end
      end
  end.

(** The route: [imageUpload.array], [validateImageUploads], the handler. *)
Definition postImagesToPdf (files : list Routes.UploadedFile) : ImagesOutcome :=
  match uploadArray files with
  | Err status => ImagesAnswered status
  | Ok files =>
      match validateImageUploads files with
      | Some status => ImagesAnswered status
      | None => imagesToPdfHandler files
      end
  end.

End ImagesRoute.

End Uploads.

(** ** Counting in texts and document bodies *)

Module Measures.

(** The line feeds of a text. *)
Fixpoint lineFeeds (text : string) : nat :=
  match text with
  | EmptyString => 0
  | String c text' =>
      (if Ascii.eqb c (ascii_of_nat 10) then 1 else 0) + lineFeeds text'
  end.

Definition isImageRun (r : PdfToDocx.Run) : bool :=
  match r with
  | PdfToDocx.ImageRun _ _ _ _ => true
  | _ => false
  end.

(** The images of a document body. *)
Definition countImageRuns (paragraphs : list PdfToDocx.Paragraph) : nat :=
  length (List.filter isImageRun (flat_map PdfToDocx.children paragraphs)).


(** [lines.join(separator)] *)
Fixpoint joinWith (separator : string) (lines : list string) : string :=
  match lines with
  | [] => EmptyString
  | line :: lines' =>
      match lines' with
      | [] => line
      | _ :: _ => line +:+ separator +:+ joinWith separator lines'
      end
  end.

End Measures.

(** ** services/textToPdf.service.ts *)

Module TextToPdf.

Definition CR : ascii := ascii_of_nat 13.
Definition LF : ascii := ascii_of_nat 10.

(** [text.replace(/\r\n/g, '\n')] *)
Fixpoint replaceCrLf (text : string) : string :=
  match text with
  | EmptyString => EmptyString
  | String c EmptyString => String c EmptyString
  | String c (String d text'' as text') =>
      if Ascii.eqb c CR && Ascii.eqb d LF then String LF (replaceCrLf text'')
      else String c (replaceCrLf text')
  end.

(** [text.replace(/\r/g, '\n')] *)
Fixpoint replaceCr (text : string) : string :=
  match text with
  | EmptyString => EmptyString
  | String c text' => String (if Ascii.eqb c CR then LF else c) (replaceCr text')
  end.

Definition normalizeLineEndings (text : string) : string :=
  replaceCr (replaceCrLf text).

(** [text.split(separator)] for a one-character separator. *)
Fixpoint splitOn (separator : ascii) (text : string) : list string :=
  match text with
  | EmptyString => [EmptyString]
  | String c text' =>
      if Ascii.eqb c separator then EmptyString :: splitOn separator text'
      else match splitOn separator text' with
           | field :: fields => String c field :: fields
           | [] => [String c EmptyString]
           end
  end.

Record TextToPdfOptions := {
  fontSize : option Q;
  lineHeight : option Q;
  margin : option Q
}.

(** [option || fallback] on a number that may be undefined: 0 is falsy. *)
Definition orNumber (o : option Q) (fallback : Q) : Q :=
  match o with
  | Some q => if Qeq_bool q 0 then fallback else q
  | None => fallback
  end.

Definition Qltb (a b : Q) : bool := negb (Qle_bool b a).

(** [page.drawText(line, {x, y, size, font, color})] *)
Record DrawnText := {
  dtText : string;
  dtX : Q;
  dtY : Q;
  dtSize : Q
}.

(** [PageSizes.A4] *)
Definition A4_WIDTH : Q := 59528 # 100.
Definition A4_HEIGHT : Q := 84189 # 100.

(** The document while it is laid out: the pages that are full, the page
    being written, and the vertical position on it. *)
Record Layout := {
  donePages : list (list DrawnText);
  currentPage : list DrawnText;
  y : Q
}.

Definition pagesOf (st : Layout) : list (list DrawnText) :=
  donePages st ++ [currentPage st].

Section Service.

(** [font.widthOfTextAtSize(text, size)]; it throws on a character the
    font cannot encode. *)
Variable widthOfTextAtSize : string -> Q -> Result string Q.
(** The message of the exception when [page.drawText] throws on a line. *)
Variable drawTextThrows : string -> option string.
(** [String.prototype.trim] *)
Variable trim : string -> string.
(** [pdfDoc.save()] *)
Variable save : list (list DrawnText) -> Result string (list byte).

Local Open Scope Q_scope.

(** The loop of [breakTextIntoLines] over the words after the first. *)
Fixpoint breakWords (words : list string) (lines : list string) (currentLine : string)
    (size maxWidth : Q) : Result string (list string) :=
  match words with
  | [] => Ok (lines ++ [currentLine])
  | word :: words' =>
      let testLine := currentLine +:+ " " +:+ word in
      match widthOfTextAtSize testLine size with
      | Err message => Err message
      | Ok width =>
          if Qltb width maxWidth
          then breakWords words' lines testLine size maxWidth
          else breakWords words' (lines ++ [currentLine]) word size maxWidth
      end
  end.

Definition breakTextIntoLines (text : string) (size maxWidth : Q)
    : Result string (list string) :=
  if String.eqb text "" then Ok [""]
  else
    match splitOn " " text with
    | [] => Ok []
    | first :: words => breakWords words [] first size maxWidth
    end.

Definition newPage (st : Layout) (top : Q) : Layout :=
  {| donePages := donePages st ++ [currentPage st]; currentPage := []; y := top |}.

(** The loop over the lines of one paragraph. *)
Fixpoint drawLines (lines : list string) (st : Layout)
    (size marginQ lineHeightQ top : Q) : Result string Layout :=
  match lines with
  | [] => Ok st
  | line :: lines' =>
      let st := if Qltb (y st) (marginQ + lineHeightQ) then newPage st top else st in
      match drawTextThrows line with
      | Some message => Err message
      | None =>
          drawLines lines'
            {| donePages := donePages st;
               currentPage := currentPage st ++
                 [{| dtText := line; dtX := marginQ; dtY := y st; dtSize := size |}];
               y := y st - lineHeightQ |}
            size marginQ lineHeightQ top
      end
  end.

(** The loop over the paragraphs. *)
Fixpoint drawParagraphs (paragraphs : list string) (st : Layout)
    (size marginQ lineHeightQ top maxWidth : Q) : Result string Layout :=
  match paragraphs with
  | [] => Ok st
  | paragraph :: paragraphs' =>
      if String.eqb (trim paragraph) "" then
        let st := {| donePages := donePages st; currentPage := currentPage st;
                     y := y st - lineHeightQ |} in
        let st := if Qltb (y st) marginQ then newPage st top else st in
        drawParagraphs paragraphs' st size marginQ lineHeightQ top maxWidth
      else
        bindR (breakTextIntoLines paragraph size maxWidth) (fun lines =>
        bindR (drawLines lines st size marginQ lineHeightQ top) (fun st =>
        drawParagraphs paragraphs' st size marginQ lineHeightQ top maxWidth))
  end.

Definition sizeOf (options : TextToPdfOptions) : Q := orNumber (fontSize options) 12.
Definition marginOf (options : TextToPdfOptions) : Q := orNumber (margin options) 50.
Definition lineHeightOf (options : TextToPdfOptions) : Q :=
  sizeOf options * orNumber (lineHeight options) (12 # 10).

(** The body of the [try] up to [save]: the pages with what is drawn on
    them. *)
Definition layoutText (text : string) (options : TextToPdfOptions)
    : Result string (list (list DrawnText)) :=
  let top := A4_HEIGHT - marginOf options in
  let maxWidth := A4_WIDTH - 2 * marginOf options in
  match drawParagraphs (PdfToDocx.splitLines (normalizeLineEndings text))
          {| donePages := []; currentPage := []; y := top |}
          (sizeOf options) (marginOf options) (lineHeightOf options) top maxWidth with
  | Ok st => Ok (pagesOf st)
  | Err message => Err message
  end.

Definition convertTextToPdf (text : string) (options : TextToPdfOptions)
    : Result string (list byte) :=
  if String.eqb text "" then Err "Text content cannot be empty"
  else
    match bindR (layoutText text options) save with
    | Ok pdfBytes => Ok pdfBytes
    | Err message => Err ("PDF creation failed: " +:+ message)
    end.

End Service.

End TextToPdf.

(** ** More sample inputs *)

Module MoreSamples.

(** Two requests that come through a proxy, from different clients. *)
Definition viaProxyA : Guards.Peer :=
  {| Guards.forwardedFor := Some "198.51.100.4, 10.0.0.1";
     Guards.ip := Some "10.0.0.1";
     Guards.remoteAddress := Some "10.0.0.1" |}.

Definition viaProxyB : Guards.Peer :=
  {| Guards.forwardedFor := Some " 198.51.100.5 ";
     Guards.ip := Some "10.0.0.1";
     Guards.remoteAddress := Some "10.0.0.1" |}.

(** A PNG upload with the bytes of [Samples.imageA]. *)
Definition uploadA : Routes.UploadedFile :=
  {| Routes.buffer := ImageToPdf.buffer Samples.imageA;
     Routes.originalname := "a.png";
     Routes.mimetype := "image/png" |}.

(** A PDF header followed by 1 MiB of spaces, and page markers to put
    after them. *)
Definition padded : list byte :=
  list_byte_of_string "%PDF-" ++ repeat x20 DosProtection.leadingWindow.

Definition lateMarkers : list byte :=
  Samples.replicate 150 (list_byte_of_string "<< /Type /Page >> ").

(** A page that only shows text. *)
Definition textOnlyPage : PdfConverter.PDFPageProxy :=
  {| PdfConverter.getTextContent := Ok [PdfConverter.TextItem "Summary" 700];
     PdfConverter.getOperatorList :=
       Ok {| PdfConverter.fnArray := [PdfConverter.otherOp 31; PdfConverter.otherOp 44];
             PdfConverter.argsArray := [None; Some ["text"]] |};
     PdfConverter.objsGet := fun _ => PdfConverter.Resolved None |}.

(** A font in which every character is half as wide as the font size, and
    a page that draws every line. *)
Definition widthSample (text : string) (size : Q) : Result string Q :=
  Ok (inject_Z (Z.of_nat (String.length text)) * size * (1 # 2))%Q.

Definition drawFine (line : string) : option string := None.

Definition defaults : TextToPdf.TextToPdfOptions :=
  {| TextToPdf.fontSize := None;
     TextToPdf.lineHeight := None;
     TextToPdf.margin := None |}.

Definition letter : string :=
  String "a" (String "a" (String " " (String "b" (String "b"
    (String TextToPdf.CR (String TextToPdf.LF (String TextToPdf.LF
      (String "c" (String "c" EmptyString))))))))).

End MoreSamples.

(** * Properties *)

Section ConcurrencyCounter.
Import DosProtection.

Lemma getCount_insert ip n (m : gmap string nat) :
  getCount ip (<[ip := n]> m) = n.
Proof. unfold getCount. by rewrite lookup_insert_eq. Qed.

Lemma getCount_delete ip (m : gmap string nat) :
  getCount ip (delete ip m) = 0.
Proof. unfold getCount. by rewrite lookup_delete_eq. Qed.

(** One run of [cleanup] lowers the client's count by one, stopping at
    zero. *)
Lemma cleanup_count ip (m : gmap string nat) :
  getCount ip (cleanup ip m) = getCount ip m - 1.
Proof.
  unfold cleanup. destruct (Nat.leb_spec (getCount ip m) 1).
  - rewrite getCount_delete. lia.
  - apply getCount_insert.
Qed.

Lemma admitted_count max ip (m m' : gmap string nat) :
  concurrentRequestLimiter max ip m = (Accepted, m') ->
  getCount ip m' = getCount ip m + 1 /\ getCount ip m < max.
Proof.
  unfold concurrentRequestLimiter.
  destruct (Nat.leb_spec max (getCount ip m)); intros [= <-].
  split; [apply getCount_insert | lia].
Qed.

Lemma getCount_empty ip : getCount ip ∅ = 0.
Proof. unfold getCount. by rewrite lookup_empty. Qed.

Lemma admits_below_cap max ip (m : gmap string nat) :
  getCount ip m < max ->
  concurrentRequestLimiter max ip m = (Accepted, <[ip := getCount ip m + 1]> m).
Proof.
  intros Hlt. unfold concurrentRequestLimiter.
  destruct (Nat.leb_spec max (getCount ip m)); [lia | reflexivity].
Qed.

(** A response that is sent runs [cleanup] for both of its events. *)
Lemma complete_sent_count ip (m : gmap string nat) :
  getCount ip (complete ip Success m) = getCount ip m - 2.
Proof.
  unfold complete, emit; simpl. rewrite !cleanup_count. lia.
Qed.

Lemma complete_closed_count ip (m : gmap string nat) :
  getCount ip (complete ip ConnectionClose m) = getCount ip m - 1.
Proof. unfold complete, emit; simpl. apply cleanup_count. Qed.

End ConcurrencyCounter.

(** ** The concurrency counter and the page-count check *)

Section Guardrails.
Import DosProtection.

(** C2.  The per-client counter is to be decremented exactly once per
    admitted request.  Here two requests of one client are admitted under
    the cap of 5 and the first is answered: its response emits both
    [finish] and [close], [cleanup] runs for each, and the stored count
    drops from 2 to 0 while the second request is still active. *)
Theorem C2_counter_released_twice :
  let ip := "203.0.113.7" in
  let first := concurrentRequestLimiter 5 ip ∅ in
  let second := concurrentRequestLimiter 5 ip (snd first) in
  fst first = Accepted /\ fst second = Accepted /\
  getCount ip (snd second) = 2 /\
  getCount ip (complete ip Success (snd second)) = 0.
Proof.
  cbn zeta.
  rewrite (admits_below_cap 5 _ ∅) by (rewrite getCount_empty; lia).
  cbn [fst snd].
  rewrite admits_below_cap by (rewrite getCount_insert, getCount_empty; lia).
  cbn [fst snd].
  rewrite complete_sent_count, !getCount_insert, getCount_empty. auto.
Qed.

(** A buffer of at least five bytes whose estimate exceeds the limit is
    refused, and the estimate is the larger of the two counts. *)
Lemma validatePdfComplexity_rejects (pdfBuffer : list byte) (maxPages : N) :
  5 <= length pdfBuffer ->
  let content :=
    Js.toStringUtf8 pdfBuffer (Nat.min (length pdfBuffer) leadingWindow) in
  let estimate := N.max (estimatedPages content) (metadataPageCount content) in
  (maxPages < estimate)%N ->
  validatePdfComplexity pdfBuffer maxPages =
    {| valid := false; pageCount := Some estimate;
       error := Some (TooManyPages estimate maxPages) |}.
Proof.
  intros Hlen content estimate Hover. unfold validatePdfComplexity.
  destruct (Nat.ltb_spec (length pdfBuffer) 5); [lia |].
  fold content. fold estimate.
  destruct (N.ltb_spec maxPages estimate); [reflexivity | lia].
Qed.

Lemma dosProtection_stages (config : PartialConfig) :
  exists maxSize maxConcurrent timeoutMs,
    dosProtection config =
      [payloadSizeLimiter maxSize; concurrentRequestLimiterMw maxConcurrent;
       requestTimeout timeoutMs].
Proof. unfold dosProtection. eauto. Qed.

(** C1.  The page-count check is to be applied on every call that
    reaches the conversion pipeline.  [validatePdfComplexity] does refuse
    the buffer with 150 page markers against the ceiling of 100, but no
    configuration puts the check into the [dosProtection] chain, and the
    [/convert] and [/extract] routes hand that buffer to the converter
    service. *)
Theorem C1_page_check_never_applied :
  validatePdfComplexity Samples.crafted150 (maxPdfPages DEFAULT_DOS_CONFIG) =
    {| valid := false; pageCount := Some 150%N;
       error := Some (TooManyPages 150 100) |}
  /\ (forall config maxPages,
        ~ In (pdfComplexityMiddleware maxPages) (dosProtection config))
  /\ fst (Routes.postConvert Samples.request150 ∅) =
       Routes.CallsConvertPdfToImages Samples.crafted150 "png"
  /\ fst (Routes.postExtract Samples.request150 ∅) =
       Routes.CallsExtractPdfContent Samples.crafted150.
Proof.
  split; [vm_compute; reflexivity |].
  split.
  - intros config maxPages Hin.
    destruct (dosProtection_stages config) as (a & b & c & E).
    rewrite E in Hin. simpl in Hin. intuition discriminate.
  - split; vm_compute; reflexivity.
Qed.

End Guardrails.

(** ** The image codec bridge *)

Section ImageCodecBridge.
Import PdfConverter.

Variable createCanvas : N -> N -> Result string unit.
Variable createImageData : N -> N -> Result string (list byte).
Variable encodePng : N -> N -> list byte -> Result string (list byte).

(** A resource of kind 1 whose bytes begin with 0xFF 0xD8, and for which
    the canvas of its size can be created, comes back tagged [jpg] with
    exactly its bytes. *)
Lemma jpeg_pass_through_kind1 (imageObj : ImageObj) (rest : list byte) :
  data imageObj = Some (xff :: xd8 :: rest) ->
  kind imageObj = 1%N ->
  createCanvas (width imageObj) (height imageObj) = Ok tt ->
  convertImageObjToBuffer createCanvas createImageData encodePng imageObj
    = Ok (xff :: xd8 :: rest, "jpg").
Proof.
  intros Hdata Hkind Hcanvas. unfold convertImageObjToBuffer.
  rewrite Hcanvas, Hdata, Hkind. reflexivity.
Qed.

(** Whatever its bytes are, a resource of another kind takes the PNG
    path: what is returned is what the encoder makes of the canvas array
    after the pixel copy, tagged [png]. *)
Lemma other_kind_is_reencoded (imageObj : ImageObj) (srcData : list byte) :
  data imageObj = Some srcData ->
  kind imageObj <> 1%N ->
  forall bytes tag,
    convertImageObjToBuffer createCanvas createImageData encodePng imageObj
      = Ok (bytes, tag) ->
    tag = "png"
    /\ exists pixels,
         createImageData (width imageObj) (height imageObj) = Ok pixels
         /\ encodePng (width imageObj) (height imageObj)
              (copyPixels (Nat.div (length srcData + 3) 4) 0 srcData pixels)
            = Ok bytes.
Proof.
  intros Hdata Hkind bytes tag. unfold convertImageObjToBuffer.
  destruct (createCanvas _ _) as [e | []]; [discriminate |]. cbn [bindR].
  rewrite Hdata. apply N.eqb_neq in Hkind. rewrite Hkind. cbn [andb].
  destruct (createImageData _ _) as [e | pixels]; [discriminate |]. cbn [bindR].
  destruct (encodePng _ _ _) as [e | png] eqn:Hpng; [discriminate |]. cbn [bindR].
  intros [= <- <-]. split; [reflexivity |]. exists pixels. by split.
Qed.

End ImageCodecBridge.

(** C3.  Bytes that begin with 0xFF 0xD8 are not passed through when
    the resource is of a kind other than 1.  The resource
    [Samples.soiRgb], of kind 2 with the bytes FF D8 FF E0, is copied to a
    canvas and encoded again: what comes back is the output of the
    encoder, tagged [png], not the bytes of the resource tagged [jpg].
    And so for every resource of a kind other than 1 and every canvas
    binding: whatever is returned is tagged [png] and is what the encoder
    made of the copied pixels, whatever the bytes begin with. *)
Theorem C3_jpeg_bytes_reencoded :
  PdfConverter.data Samples.soiRgb = Some [xff; xd8; xff; xe0]
  /\ PdfConverter.kind Samples.soiRgb = 2%N
  /\ PdfConverter.convertImageObjToBuffer Samples.canvasOk Samples.blankImageData
       Samples.pngOf Samples.soiRgb
     = Ok ([x89; x50; x4e; x47; x0d; x0a; x1a; x0a; xff; xd8; xff; xe0], "png")
  /\ (forall createCanvas createImageData encodePng imageObj rest bytes tag,
        PdfConverter.data imageObj = Some (xff :: xd8 :: rest) ->
        PdfConverter.kind imageObj <> 1%N ->
        PdfConverter.convertImageObjToBuffer createCanvas createImageData encodePng
          imageObj = Ok (bytes, tag) ->
        tag = "png"
        /\ exists pixels,
             createImageData (PdfConverter.width imageObj) (PdfConverter.height imageObj)
               = Ok pixels
             /\ encodePng (PdfConverter.width imageObj) (PdfConverter.height imageObj)
                  (PdfConverter.copyPixels
                     (Nat.div (length (xff :: xd8 :: rest) + 3) 4) 0
                     (xff :: xd8 :: rest) pixels)
                = Ok bytes).
Proof.
  split; [reflexivity |]. split; [reflexivity |]. split; [reflexivity |].
  intros createCanvas createImageData encodePng imageObj rest bytes tag Hdata Hkind H.
  exact (other_kind_is_reencoded createCanvas createImageData encodePng imageObj
           _ Hdata Hkind bytes tag H).
Qed.

(** The pass-through on a resource of kind 1. *)
Lemma jpeg_pass_through_kind1_example :
  PdfConverter.convertImageObjToBuffer Samples.canvasOk Samples.blankImageData
    Samples.pngOf Samples.soiKind1
  = Ok (Samples.soiBytes, "jpg").
Proof.
  apply (jpeg_pass_through_kind1 Samples.canvasOk Samples.blankImageData
           Samples.pngOf Samples.soiKind1 [xff; xe0]); reflexivity.
Qed.

(** ** Text extraction *)

Section TextExtraction.
Import PdfConverter.

Lemma startsNewLine_first (y : Q) : startsNewLine (-1) y = false.
Proof. reflexivity. Qed.

(** Away from the value -1 the test is the comparison of the distance
    with 5. *)
Lemma startsNewLine_spec (lastY y : Q) :
  ~ (lastY == -1)%Q ->
  startsNewLine lastY y = true <-> (5 < Qabs (lastY - y))%Q.
Proof.
  intros Hne. unfold startsNewLine.
  destruct (Qeq_bool lastY (-1)) eqn:E.
  - apply Qeq_bool_iff in E. contradiction.
  - cbn [negb andb]. rewrite negb_true_iff.
    destruct (Qle_bool (Qabs (lastY - y)) 5) eqn:L.
    + apply Qle_bool_iff in L. split; [discriminate |].
      intros Hlt. exfalso. eapply Qlt_not_le; eauto.
    + split; [| reflexivity]. intros _.
      apply Qnot_le_lt. intros Hle. apply Qle_bool_iff in Hle. congruence.
Qed.

Lemma combineItems_step str y items text lastY :
  combineItems (TextItem str y :: items) text lastY =
    combineItems items
      ((if startsNewLine lastY y then text +:+ newline else text) +:+ str) y.
Proof. reflexivity. Qed.

(** Two fragments, the first not at -1, more than 5 apart: a line break
    between them. *)
Lemma combineItems_pair_break (s1 s2 : string) (y1 y2 : Q) :
  ~ (y1 == -1)%Q ->
  (5 < Qabs (y1 - y2))%Q ->
  combineItems [TextItem s1 y1; TextItem s2 y2] "" (-1) = (s1 +:+ newline) +:+ s2.
Proof.
  intros Hne Hfar. apply (startsNewLine_spec _ _ Hne) in Hfar.
  rewrite !combineItems_step, startsNewLine_first, Hfar. reflexivity.
Qed.

(** Two fragments at most 5 apart: no separator. *)
Lemma combineItems_pair_merge (s1 s2 : string) (y1 y2 : Q) :
  ~ (5 < Qabs (y1 - y2))%Q ->
  combineItems [TextItem s1 y1; TextItem s2 y2] "" (-1) = s1 +:+ s2.
Proof.
  intros Hnear. rewrite !combineItems_step, startsNewLine_first.
  destruct (startsNewLine y1 y2) eqn:E; [| reflexivity].
  exfalso. apply Hnear. unfold startsNewLine in E.
  apply andb_true_iff in E as [_ E]. apply negb_true_iff in E.
  apply Qnot_le_lt. intros Hle. apply Qle_bool_iff in Hle. congruence.
Qed.

Lemma append_assoc_string (a b c : string) : (a +:+ b) +:+ c = a +:+ b +:+ c.
Proof.
  induction a as [| x a IH]; [reflexivity |]. exact (f_equal (String x) IH).
Qed.

Lemma append_empty_r (a : string) : a +:+ "" = a.
Proof.
  induction a as [| x a IH]; [reflexivity |]. exact (f_equal (String x) IH).
Qed.

(** On a page without a fragment at -1 the loop produces the text of the
    design document.  This is a statement about exact baselines: where
    the subtraction of two doubles rounds, the code compares the rounded
    distance with 5. *)
Lemma combineItems_away_from_minus_one (items : list TextContentItem) :
  awayFromMinusOne items ->
  combineItems items "" (-1) = linesByBaseline None items.
Proof.
  assert (Hgen : forall items text lastY previous,
            awayFromMinusOne items ->
            (previous = None /\ lastY = (-1)%Q
             \/ previous = Some lastY /\ ~ (lastY == -1)%Q) ->
            combineItems items text lastY = text +:+ linesByBaseline previous items).
  { clear items. induction items as [| item items IH]; intros text lastY previous Hall Hprev.
    - cbn. by rewrite append_empty_r.
    - apply Forall_cons in Hall as [Hitem Hall].
      destruct item as [str y |]; [| by apply IH].
      rewrite combineItems_step.
      rewrite (IH _ y (Some y) Hall) by (right; auto).
      cbn [linesByBaseline]. destruct Hprev as [[-> ->] | [-> Hne]].
      + rewrite startsNewLine_first. cbn [String.append].
        by rewrite !append_assoc_string.
      + unfold startsNewLine.
        destruct (Qeq_bool lastY (-1)) eqn:E;
          [apply Qeq_bool_iff in E; contradiction |].
        cbn [negb andb].
        destruct (Qle_bool (Qabs (lastY - y)) 5); cbn [negb];
          by rewrite !append_assoc_string. }
  intros Hall. rewrite (Hgen items "" (-1)%Q None Hall) by (left; auto).
  reflexivity.
Qed.

Example merge_100_0_and_100_2 :
  combineItems [TextItem "Hello, " 100; TextItem "world" (1002 # 10)] "" (-1)
  = "Hello, world".
Proof. reflexivity. Qed.

Example break_100_and_120 :
  combineItems [TextItem "first" 120; TextItem "second" 100] "" (-1)
  = "first" +:+ newline +:+ "second".
Proof. reflexivity. Qed.

(** C4.  A line break is due exactly when two consecutive baselines are
    more than 5 apart.  The loop uses -1 both as "no fragment yet" and as
    a baseline: after a fragment whose baseline is -1 the distance is not
    looked at, and the fragment at 20, which is 21 away, is appended to
    the same line. *)
Theorem C4_baseline_minus_one_hides_break :
  let page := {| getTextContent := Ok [TextItem "a" (-1); TextItem "b" 20];
                 getOperatorList := Err "";
                 objsGet := fun _ => Resolved None |} in
  (5 < Qabs (-1 - 20))%Q /\ extractTextFromPage page = Ok "ab".
Proof. split; reflexivity. Qed.

End TextExtraction.

(** ** Printed numbers *)

Section PrintedNumbers.
Import PdfConverter.

Lemma append_cancel_l (s x y : string) : s +:+ x = s +:+ y -> x = y.
Proof.
  induction s as [| c s IH]; cbn; [auto |].
  intros [= H]. auto.
Qed.

Lemma string_of_uint_digits (d : Decimal.uint) :
  Js.dotFree (NilEmpty.string_of_uint d).
Proof. induction d; cbn; auto; split; auto; discriminate. Qed.

Lemma showNat_digits (n : nat) : Js.dotFree (showNat n).
Proof. apply string_of_uint_digits. Qed.

Lemma showNat_inj (n m : nat) : showNat n = showNat m -> n = m.
Proof.
  unfold showNat. intros H.
  apply DecimalNat.Unsigned.to_uint_inj.
  apply (f_equal NilEmpty.uint_of_string) in H.
  rewrite !NilEmpty.usu in H. congruence.
Qed.

(** Two runs of digits followed by a dot: the runs are equal. *)
Lemma digits_before_dot (s1 s2 r1 r2 : string) :
  Js.dotFree s1 -> Js.dotFree s2 ->
  s1 +:+ String "." r1 = s2 +:+ String "." r2 ->
  s1 = s2.
Proof.
  revert s2. induction s1 as [| c s1 IH]; intros [| d s2]; cbn; auto.
  - intros _ [Hd _] [= <- _]. contradiction.
  - intros [Hc _] _ [= -> _]. contradiction.
  - intros [_ H1] [_ H2] [= -> H]. f_equal. eauto.
Qed.

Lemma imageName_inj pageNum i j f g :
  imageName pageNum i f = imageName pageNum j g -> i = j.
Proof.
  unfold imageName. intros H.
  apply (append_cancel_l "page-") in H.
  apply append_cancel_l in H.
  apply (append_cancel_l "-image-") in H.
  apply showNat_inj.
  eapply digits_before_dot; [apply showNat_digits | apply showNat_digits | exact H].
Qed.

(** Names numbered from [a] on are pairwise distinct. *)
Lemma imageNames_from (pageNum : nat) (formats : list string) (a : nat) (x : string) :
  In x (zip_with (imageName pageNum) (seq a (length formats)) formats) ->
  exists j f, a <= j /\ x = imageName pageNum j f.
Proof.
  revert a. induction formats as [| f formats IH]; cbn; intros a; [tauto |].
  intros [<- | Hin].
  - exists a, f. auto.
  - destruct (IH _ Hin) as (j & g & Hle & ->). exists j, g. split; [lia | auto].
Qed.

Lemma imageNames_NoDup (pageNum : nat) (formats : list string) (a : nat) :
  List.NoDup (zip_with (imageName pageNum) (seq a (length formats)) formats).
Proof.
  revert a. induction formats as [| f formats IH]; cbn; intros a;
    constructor; [| apply IH].
  intros Hin. destruct (imageNames_from _ _ _ _ Hin) as (j & g & Hle & E).
  apply imageName_inj in E. lia.
Qed.

End PrintedNumbers.

(** ** The image walk and the page loop *)

Section ImageWalk.
Import PdfConverter.

Variable getDocument : list byte -> Result string PDFDocumentProxy.
Variable convertPageToImage : PDFPageProxy -> string -> Q -> Q -> Result string (list byte).
Variable createCanvas : N -> N -> Result string unit.
Variable createImageData : N -> N -> Result string (list byte).
Variable encodePng : N -> N -> list byte -> Result string (list byte).

Let paintOutcome := paintOutcome createCanvas createImageData encodePng.
Let walkStep := walkStep createCanvas createImageData encodePng.
Let walk := walk createCanvas createImageData encodePng.
Let extractImagesFromPage := extractImagesFromPage createCanvas createImageData encodePng.
Let extractPages := extractPages createCanvas createImageData encodePng.
Let extractPdfContent := extractPdfContent getDocument createCanvas createImageData encodePng.

Lemma walk_app page pageNum ol l1 l2 st :
  walk page pageNum ol (l1 ++ l2) st = walk page pageNum ol l2 (walk page pageNum ol l1 st).
Proof. apply fold_left_app. Qed.

Lemma walkStep_sameImages page pageNum ol i st st' :
  sameImages st st' ->
  sameImages (walkStep page pageNum ol st i) (walkStep page pageNum ol st' i).
Proof.
  intros [Himg Hidx]. unfold walkStep, PdfConverter.walkStep.
  destruct (fnArray ol !! i) as [op |]; [| by split].
  destruct (isPaintImage op); [| by split].
  destruct (PdfConverter.paintOutcome _ _ _ _ _); split; cbn; congruence.
Qed.

Lemma walk_sameImages page pageNum ol l st st' :
  sameImages st st' ->
  sameImages (walk page pageNum ol l st) (walk page pageNum ol l st').
Proof.
  revert st st'. induction l as [| i l IH]; intros st st' H; [exact H |].
  apply IH, walkStep_sameImages, H.
Qed.

(** The walk only ever adds to the log. *)
Lemma walkStep_log_kept page pageNum ol i st e :
  In e (wsLog st) -> In e (wsLog (walkStep page pageNum ol st i)).
Proof.
  intros Hin. unfold walkStep, PdfConverter.walkStep.
  destruct (fnArray ol !! i) as [op |]; [| exact Hin].
  destruct (isPaintImage op); [| exact Hin].
  destruct (PdfConverter.paintOutcome _ _ _ _ _); cbn; auto.
  apply in_or_app. auto.
Qed.

Lemma walk_log_kept page pageNum ol l st e :
  In e (wsLog st) -> In e (wsLog (walk page pageNum ol l st)).
Proof.
  revert st. induction l as [| i l IH]; intros st H; [exact H |].
  apply IH, walkStep_log_kept, H.
Qed.

(** The indices of a list with one of them taken out. *)
Lemma seq_split_at (n i : nat) :
  i < n -> seq 0 n = seq 0 i ++ i :: seq (S i) (n - S i).
Proof.
  intros Hlt. replace n with (i + S (n - S i)) at 1 by lia.
  rewrite seq_app. reflexivity.
Qed.

(** A paint instruction that fails leaves the images and the next index
    as they were. *)
Lemma failed_step page pageNum ol i op st :
  fnArray ol !! i = Some op -> isPaintImage op = true ->
  (paintOutcome page (argsArray ol !! i) = NoObject ->
     walkStep page pageNum ol st i = st)
  /\ (forall message,
        paintOutcome page (argsArray ol !! i) = Threw message ->
        walkStep page pageNum ol st i =
          {| wsImages := wsImages st;
             wsImageIndex := wsImageIndex st;
             wsLog := wsLog st ++ [{| logImageIndex := wsImageIndex st;
                                      logPageNum := pageNum;
                                      logError := message |}] |}).
Proof.
  intros Hop Hpaint. unfold walkStep, PdfConverter.walkStep, paintOutcome.
  rewrite Hop, Hpaint.
  split; [intros -> | intros message ->]; reflexivity.
Qed.

(** C7, as the code has it.  On a page whose text and operator list are
    available, let instruction [i] be a paint-image instruction that
    fails: its resolution or conversion throws, or its resource resolves
    to no object.  Then the images of the page are those of the walk over
    all the other instructions; a thrown failure leaves an entry in the
    log, an absent object leaves the log as the other instructions make
    it; and the page loop appends the entry of the page, with its text,
    and goes on with the next page. *)
Theorem C7_failed_image_is_skipped
    (page : PDFPageProxy) (pageNum : nat) (items : list TextContentItem)
    (operatorList : OperatorList) (i : nat) (op : Op) :
  getTextContent page = Ok items ->
  getOperatorList page = Ok operatorList ->
  fnArray operatorList !! i = Some op ->
  isPaintImage op = true ->
  let outcome := paintOutcome page (argsArray operatorList !! i) in
  (outcome = NoObject \/ exists message, outcome = Threw message) ->
  let others := indicesWithout (length (fnArray operatorList)) i in
  let skipped := walk page pageNum operatorList others walkStart in
  fst (extractImagesFromPage page pageNum) = Ok (wsImages skipped)
  /\ (forall message, outcome = Threw message ->
        exists k, In {| logImageIndex := k; logPageNum := pageNum;
                        logError := message |}
                     (snd (extractImagesFromPage page pageNum)))
  /\ (outcome = NoObject ->
        snd (extractImagesFromPage page pageNum) = wsLog skipped)
  /\ (forall pdfDoc remaining content log,
        getPage pdfDoc pageNum = Ok page ->
        extractPages pdfDoc (S remaining) pageNum content log =
        extractPages pdfDoc remaining (S pageNum)
          (content ++ [{| pageNumber := pageNum;
                          textContent := combineItems items "" (-1);
                          images := wsImages skipped |}])
          (log ++ snd (extractImagesFromPage page pageNum))).
Proof.
  intros Htext Hol Hop Hpaint outcome Hfail others skipped.
  assert (Hlt : i < length (fnArray operatorList))
    by (eapply lookup_lt_Some; eauto).
  destruct (failed_step page pageNum operatorList i op
              (walk page pageNum operatorList (seq 0 i) walkStart) Hop Hpaint)
    as [Hnone Hthrew].
  assert (Hrun : extractImagesFromPage page pageNum =
            (Ok (wsImages (walk page pageNum operatorList
                             (seq 0 (length (fnArray operatorList))) walkStart)),
             wsLog (walk page pageNum operatorList
                      (seq 0 (length (fnArray operatorList))) walkStart))).
  { unfold extractImagesFromPage, PdfConverter.extractImagesFromPage.
    rewrite Hol. reflexivity. }
  rewrite (seq_split_at _ _ Hlt) in Hrun.
  rewrite walk_app in Hrun. cbn [walk PdfConverter.walk fold_left] in Hrun.
  fold (walkStep page pageNum operatorList) in Hrun.
  fold (walk page pageNum operatorList) in Hrun.
  assert (Himages : fst (extractImagesFromPage page pageNum) = Ok (wsImages skipped)).
  { rewrite Hrun. cbn [fst]. f_equal.
    unfold skipped, others, indicesWithout. rewrite walk_app.
    apply walk_sameImages.
    destruct Hfail as [E | [message E]].
    - rewrite (Hnone E). by split.
    - rewrite (Hthrew message E). by split. }
  split; [exact Himages |].
  split.
  { intros message E. eexists. rewrite Hrun. cbn [snd].
    apply walk_log_kept. rewrite (Hthrew message E). cbn.
    apply in_or_app. right. left. reflexivity. }
  split.
  { intros E. rewrite Hrun. cbn [snd]. rewrite (Hnone E).
    unfold skipped, others, indicesWithout. by rewrite walk_app. }
  intros pdfDoc remaining content log Hpage.
  cbn [extractPages PdfConverter.extractPages]. rewrite Hpage.
  unfold extractTextFromPage. rewrite Htext.
  fold (extractImagesFromPage page pageNum).
  destruct (extractImagesFromPage page pageNum) as [imgs pageLog].
  cbn [fst snd] in *. rewrite Himages. reflexivity.
Qed.


End ImageWalk.

Lemma C7_failed_image_is_skipped_witness :
  PdfConverter.fnArray
    {| PdfConverter.fnArray :=
         [PdfConverter.paintImageXObject; PdfConverter.otherOp 44;
          PdfConverter.paintImageXObject; PdfConverter.paintImageMaskXObject];
       PdfConverter.argsArray :=
         [Some ["img_bad"]; Some ["text"]; Some ["img_ok"]; Some ["img_null"]] |}
    !! 0 = Some PdfConverter.paintImageXObject
  /\ fst (PdfConverter.extractImagesFromPage Samples.canvasNonEmpty
            Samples.blankImageData Samples.pngOf Samples.mixedPage 1)
     = Ok [{| PdfConverter.buffer := Samples.soiBytes;
              PdfConverter.filename := "page-1-image-1.jpg";
              PdfConverter.format := "jpg" |}].
Proof.
  split; [reflexivity |].
  exact (proj1 (C7_failed_image_is_skipped Samples.canvasNonEmpty
                  Samples.blankImageData Samples.pngOf Samples.mixedPage 1
                  [PdfConverter.TextItem "Invoice" 700] _ 0
                  PdfConverter.paintImageXObject eq_refl eq_refl eq_refl eq_refl
                  (or_intror (ex_intro _ _ eq_refl)))).
Defined.

(** C7 as stated fails on "is logged": the only paint instruction of the
    sample page resolves to no object, the page comes back without images,
    and nothing is logged. *)
Lemma C7_counterexample :
  ~ (forall createCanvas createImageData encodePng page pageNum operatorList i op,
       PdfConverter.getOperatorList page = Ok operatorList ->
       PdfConverter.fnArray operatorList !! i = Some op ->
       PdfConverter.isPaintImage op = true ->
       (forall bytes tag,
          PdfConverter.paintOutcome createCanvas createImageData encodePng page
            (PdfConverter.argsArray operatorList !! i)
          <> PdfConverter.Extracted bytes tag) ->
       snd (PdfConverter.extractImagesFromPage createCanvas createImageData
              encodePng page pageNum) <> []).
Proof.
  intros Hclaim.
  apply (Hclaim Samples.canvasNonEmpty Samples.blankImageData Samples.pngOf
           Samples.unresolvedPage 1 _ 0 PdfConverter.paintImageXObject
           eq_refl eq_refl eq_refl).
  - intros bytes tag. discriminate.
  - reflexivity.
Qed.

(** ** Page numbers, entry order and image names *)

Section OutputOrder.
Import PdfConverter.

Variable getDocument : list byte -> Result string PDFDocumentProxy.
Variable convertPageToImage : PDFPageProxy -> string -> Q -> Q -> Result string (list byte).
Variable createCanvas : N -> N -> Result string unit.
Variable createImageData : N -> N -> Result string (list byte).
Variable encodePng : N -> N -> list byte -> Result string (list byte).

Let walkStep := walkStep createCanvas createImageData encodePng.
Let walk := walk createCanvas createImageData encodePng.
Let extractImagesFromPage := extractImagesFromPage createCanvas createImageData encodePng.
Let extractPages := extractPages createCanvas createImageData encodePng.

Lemma convertPages_numbers pdfDoc format scale quality remaining :
  forall pageNum acc pages,
    convertPages convertPageToImage pdfDoc format scale quality remaining pageNum acc
      = Ok pages ->
    exists new,
      pages = acc ++ new
      /\ map cpPageNumber new = seq pageNum remaining
      /\ map cpFilename new =
           map (fun k => "page-" +:+ showNat k +:+ "." +:+ format)
               (seq pageNum remaining).
Proof.
  induction remaining as [| r IH]; intros pageNum acc pages; cbn [convertPages].
  - intros [= <-]. exists []. by rewrite app_nil_r.
  - destruct (getPage pdfDoc pageNum) as [e | page]; [discriminate |].
    cbn [bindR].
    destruct (convertPageToImage page format scale quality) as [e | img];
      [discriminate |].
    cbn [bindR]. intros H. apply IH in H as (new & -> & Hnum & Hname).
    eexists (_ :: new). split; [by rewrite <- app_assoc |].
    cbn. by rewrite Hnum, Hname.
Qed.

Lemma walkStep_numbered page pageNum ol i st :
  numbered pageNum st -> numbered pageNum (walkStep page pageNum ol st i).
Proof.
  intros (formats & Hnames & Hidx). unfold walkStep, PdfConverter.walkStep.
  destruct (fnArray ol !! i) as [op |]; [| by exists formats].
  destruct (isPaintImage op); [| by exists formats].
  destruct (paintOutcome _ _ _ _ _) as [b f | | m]; [| by exists formats ..].
  exists (formats ++ [f]). cbn [wsImages wsImageIndex].
  rewrite map_app, Hnames, Hidx, length_app. cbn [length map filename].
  split; [| lia].
  rewrite Nat.add_1_r, seq_S.
  rewrite zip_with_app by (by rewrite length_seq). reflexivity.
Qed.

Lemma walk_numbered page pageNum ol l st :
  numbered pageNum st -> numbered pageNum (walk page pageNum ol l st).
Proof.
  revert st. induction l as [| i l IH]; intros st H; [exact H |].
  apply IH, walkStep_numbered, H.
Qed.

Lemma extractImages_names page pageNum imgs log :
  extractImagesFromPage page pageNum = (Ok imgs, log) ->
  exists formats,
    map filename imgs = zip_with (imageName pageNum) (seq 1 (length formats)) formats.
Proof.
  unfold extractImagesFromPage, PdfConverter.extractImagesFromPage.
  destruct (getOperatorList page) as [e | ol]; [discriminate |].
  intros [= <- _].
  assert (numbered pageNum
            (walk page pageNum ol (seq 0 (length (fnArray ol))) walkStart))
    as (formats & H & _) by (apply walk_numbered; by exists []).
  exists formats. exact H.
Qed.

Lemma names_wellNamed pageNum text imgs formats :
  map filename imgs = zip_with (imageName pageNum) (seq 1 (length formats)) formats ->
  Routes.wellNamed {| pageNumber := pageNum; textContent := text; images := imgs |}.
Proof.
  intros Hnames. split; [| split].
  - cbn. rewrite Hnames. apply imageNames_NoDup.
  - unfold Routes.pageEntries. cbn. eauto.
  - unfold Routes.pageEntries. cbn [pageNumber textContent images].
    constructor; [by left |].
    destruct (0 <? length imgs); [| constructor].
    apply Forall_forall. intros e Hin. apply list_elem_of_In in Hin.
    apply in_map_iff in Hin as (img & <- & Hin).
    right. cbn.
    assert (Hname : In (filename img) (map filename imgs)) by (by apply in_map).
    rewrite Hnames in Hname.
    apply imageNames_from in Hname as (j & f & _ & ->). eauto.
Qed.

Lemma extractPages_numbers pdfDoc remaining :
  forall pageNum acc log content log',
    extractPages pdfDoc remaining pageNum acc log = (Ok content, log') ->
    exists new,
      content = acc ++ new
      /\ map pageNumber new = seq pageNum remaining
      /\ Forall Routes.wellNamed new.
Proof.
  induction remaining as [| r IH]; intros pageNum acc log content log';
    cbn [extractPages PdfConverter.extractPages].
  - intros [= <- _]. exists []. by rewrite app_nil_r.
  - destruct (getPage pdfDoc pageNum) as [e | page]; [discriminate |].
    fold (extractImagesFromPage page pageNum).
    destruct (extractImagesFromPage page pageNum) as [imgs pageLog] eqn:Himgs.
    destruct (extractTextFromPage page) as [e | text]; [discriminate |].
    destruct imgs as [e | imgs]; [discriminate |].
    fold extractPages. intros H. apply IH in H as (new & -> & Hnum & Hnamed).
    eexists (_ :: new). split; [by rewrite <- app_assoc |].
    cbn. rewrite Hnum. split; [reflexivity |].
    constructor; [| exact Hnamed].
    apply extractImages_names in Himgs as (formats & Hnames).
    eapply names_wellNamed; eauto.
Qed.

Lemma wellNamed_ascending (content : list ExtractedPageContent) (a : nat) :
  map pageNumber content = seq a (length content) ->
  Forall Routes.wellNamed content ->
  Forall2 (fun k group =>
             (exists e rest, group = e :: rest
                /\ Routes.name e = "page-" +:+ showNat k +:+ ".txt")
             /\ Forall (Routes.entryOfPage k) group)
          (seq a (length content)) (map Routes.pageEntries content).
Proof.
  revert a. induction content as [| page content IH]; intros a; cbn.
  - constructor.
  - intros [= Hk Hrest] Hall.
    apply Forall_cons in Hall as [(_ & Hlead & Hentries) Hall'].
    constructor; [| by apply IH].
    rewrite <- Hk. auto.
Qed.

(** The converted page [cp] is page [k] of the source document,
    rendered. *)
Let renderingOf (pdfDoc : PDFDocumentProxy) (format : string) (scale quality : Q)
    (k : nat) (cp : ConvertedPage) : Prop :=
  cpPageNumber cp = k
  /\ exists page,
       getPage pdfDoc k = Ok page
       /\ convertPageToImage page format scale quality = Ok (cpBuffer cp).

(** The extracted content [c] is the text and the images of page [k] of
    the source document. *)
Let contentOf (pdfDoc : PDFDocumentProxy) (k : nat) (c : ExtractedPageContent) : Prop :=
  pageNumber c = k
  /\ exists page,
       getPage pdfDoc k = Ok page
       /\ extractTextFromPage page = Ok (textContent c)
       /\ fst (extractImagesFromPage page k) = Ok (images c).

Lemma convertPages_source pdfDoc format scale quality remaining :
  forall pageNum acc pages,
    convertPages convertPageToImage pdfDoc format scale quality remaining pageNum acc
      = Ok pages ->
    exists new,
      pages = acc ++ new
      /\ Forall2 (renderingOf pdfDoc format scale quality) (seq pageNum remaining) new.
Proof.
  induction remaining as [| r IH]; intros pageNum acc pages; cbn [convertPages seq].
  - intros [= <-]. exists []. split; [by rewrite app_nil_r | constructor].
  - destruct (getPage pdfDoc pageNum) as [e | page] eqn:Hpage; [discriminate |].
    cbn [bindR].
    destruct (convertPageToImage page format scale quality) as [e | img] eqn:Himg;
      [discriminate |].
    cbn [bindR]. intros H. apply IH in H as (new & -> & Hnew).
    eexists (_ :: new). split; [by rewrite <- app_assoc |].
    constructor; [| exact Hnew].
    split; [reflexivity |]. exists page. by split.
Qed.

Lemma extractPages_source pdfDoc remaining :
  forall pageNum acc log content log',
    extractPages pdfDoc remaining pageNum acc log = (Ok content, log') ->
    exists new,
      content = acc ++ new
      /\ Forall2 (contentOf pdfDoc) (seq pageNum remaining) new.
Proof.
  induction remaining as [| r IH]; intros pageNum acc log content log';
    cbn [extractPages PdfConverter.extractPages seq].
  - intros [= <- _]. exists []. split; [by rewrite app_nil_r | constructor].
  - destruct (getPage pdfDoc pageNum) as [e | page] eqn:Hpage; [discriminate |].
    fold (extractImagesFromPage page pageNum).
    destruct (extractImagesFromPage page pageNum) as [imgs pageLog] eqn:Himgs.
    destruct (extractTextFromPage page) as [e | text] eqn:Htext; [discriminate |].
    destruct imgs as [e | imgs]; [discriminate |].
    fold extractPages. intros H. apply IH in H as (new & -> & Hnew).
    eexists (_ :: new). split; [by rewrite <- app_assoc |].
    constructor; [| exact Hnew].
    split; [reflexivity |]. exists page. cbn [textContent images].
    split; [exact Hpage |]. split; [exact Htext |]. by rewrite Himgs.
Qed.

Lemma convertEntries_source pdfDoc format scale quality ks pages :
  Forall2 (renderingOf pdfDoc format scale quality) ks pages ->
  map cpFilename pages = map (fun k => "page-" +:+ showNat k +:+ "." +:+ format) ks ->
  Forall2 (fun k entry =>
             Routes.name entry = "page-" +:+ showNat k +:+ "." +:+ format
             /\ exists page bytes,
                  getPage pdfDoc k = Ok page
                  /\ convertPageToImage page format scale quality = Ok bytes
                  /\ Routes.data entry = Routes.BufferData bytes)
          ks (Routes.convertEntries pages).
Proof.
  induction 1 as [| k cp ks pages (_ & page & Hpage & Himg) _ IH]; cbn.
  - constructor.
  - intros [= Hname Hnames]. constructor; [| by apply IH].
    cbn. split; [exact Hname |]. exists page, (cpBuffer cp). by repeat split.
Qed.

Lemma pageEntries_source pdfDoc ks content :
  Forall2 (contentOf pdfDoc) ks content ->
  Forall2 (fun k group =>
             exists page text imgs,
               getPage pdfDoc k = Ok page
               /\ extractTextFromPage page = Ok text
               /\ fst (extractImagesFromPage page k) = Ok imgs
               /\ group = Routes.pageEntries
                            {| pageNumber := k; textContent := text; images := imgs |})
          ks (map Routes.pageEntries content).
Proof.
  induction 1 as [| k c ks content (Hnum & page & Hpage & Htext & Himgs) _ IH]; cbn.
  - constructor.
  - constructor; [| exact IH].
    exists page, (textContent c), (images c).
    split; [exact Hpage |]. split; [exact Htext |]. split; [exact Himgs |].
    destruct c as [n t i]. cbn in Hnum. by subst.
Qed.

(** C8.  Whenever [convertPdfToImages] returns pages, there is one per
    page of the loaded document, the k-th of them is numbered k and holds
    the rendering of page k of that document, and the archive entries
    are [page-1.ext], ..., [page-n.ext] in this order, the k-th with the
    rendering of page k.  Whenever [extractPdfContent] returns pages,
    there is one per page of the loaded document, the k-th of them is
    numbered k and holds the text and the images of page k of that
    document, the archive entries come page by page in ascending page
    number, the group of page k being the entries of the text and the
    images of page k of the document, and within each page the image file
    names are pairwise distinct. *)
Theorem C8_ordered_output :
  (forall pdfBuffer format scale quality pages,
     convertPdfToImages getDocument convertPageToImage pdfBuffer format scale quality
       = Ok pages ->
     (exists pdfDoc,
        getDocument pdfBuffer = Ok pdfDoc
        /\ length pages = numPages pdfDoc
        /\ Forall2 (renderingOf pdfDoc format (default defaultScale scale)
                      (default defaultQuality quality))
                   (seq 1 (numPages pdfDoc)) pages
        /\ Forall2 (fun k entry =>
                      Routes.name entry = "page-" +:+ showNat k +:+ "." +:+ format
                      /\ exists page bytes,
                           getPage pdfDoc k = Ok page
                           /\ convertPageToImage page format
                                (default defaultScale scale)
                                (default defaultQuality quality) = Ok bytes
                           /\ Routes.data entry = Routes.BufferData bytes)
                   (seq 1 (numPages pdfDoc)) (Routes.convertEntries pages))
     /\ map cpPageNumber pages = seq 1 (length pages)
     /\ map Routes.name (Routes.convertEntries pages) =
          map (fun k => "page-" +:+ showNat k +:+ "." +:+ format)
              (seq 1 (length pages)))
  /\ (forall pdfBuffer content log,
        PdfConverter.extractPdfContent getDocument createCanvas createImageData
          encodePng pdfBuffer = (Ok content, log) ->
        (exists pdfDoc,
           getDocument pdfBuffer = Ok pdfDoc
           /\ length content = numPages pdfDoc
           /\ Forall2 (contentOf pdfDoc) (seq 1 (numPages pdfDoc)) content
           /\ exists groups,
                Routes.extractEntries content = concat groups
                /\ Forall2 (fun k group =>
                              exists page text imgs,
                                getPage pdfDoc k = Ok page
                                /\ extractTextFromPage page = Ok text
                                /\ fst (extractImagesFromPage page k) = Ok imgs
                                /\ group = Routes.pageEntries
                                             {| pageNumber := k;
                                                textContent := text;
                                                images := imgs |})
                           (seq 1 (numPages pdfDoc)) groups)
        /\ map pageNumber content = seq 1 (length content)
        /\ Routes.ascendingByPage (length content) (Routes.extractEntries content)
        /\ Forall (fun page => List.NoDup (map filename (images page))) content).
Proof.
  split.
  - intros pdfBuffer format scale quality pages. unfold convertPdfToImages, loadPdfDocument.
    destruct (getDocument pdfBuffer) as [e | pdfDoc]; [discriminate |].
    cbn [bindR].
    destruct (convertPages _ _ _ _ _ _ _ _) as [e | pages'] eqn:Hloop; [discriminate |].
    intros [= <-].
    pose proof Hloop as Hsource.
    apply convertPages_source in Hsource as (new' & Hnew' & Hsource).
    apply convertPages_numbers in Hloop as (new & -> & Hnum & Hname).
    cbn [app] in *. subst new'.
    assert (Hlen : length new = numPages pdfDoc).
    { apply (f_equal (@length nat)) in Hnum. by rewrite length_map, length_seq in Hnum. }
    split.
    + exists pdfDoc. split; [reflexivity |]. split; [exact Hlen |].
      split; [exact Hsource |].
      by apply convertEntries_source.
    + rewrite Hlen. split; [exact Hnum |].
      unfold Routes.convertEntries. rewrite map_map. cbn. exact Hname.
  - intros pdfBuffer content log. unfold PdfConverter.extractPdfContent, loadPdfDocument.
    destruct (getDocument pdfBuffer) as [e | pdfDoc]; [discriminate |].
    fold (extractPages pdfDoc (numPages pdfDoc) 1 [] []).
    destruct (extractPages pdfDoc (numPages pdfDoc) 1 [] [])
      as [[e | content'] log''] eqn:Hloop; [discriminate |].
    intros [= <- _].
    pose proof Hloop as Hsource.
    apply extractPages_source in Hsource as (new' & Hnew' & Hsource).
    apply extractPages_numbers in Hloop as (new & -> & Hnum & Hnamed).
    cbn [app] in *. subst new'.
    assert (Hlen : length new = numPages pdfDoc).
    { apply (f_equal (@length nat)) in Hnum. by rewrite length_map, length_seq in Hnum. }
    split.
    + exists pdfDoc. split; [reflexivity |]. split; [exact Hlen |].
      split; [exact Hsource |].
      exists (map Routes.pageEntries new). split.
      * unfold Routes.extractEntries. apply flat_map_concat_map.
      * by apply pageEntries_source.
    + rewrite Hlen. split; [exact Hnum |].
      split.
      * exists (map Routes.pageEntries new). split.
        -- unfold Routes.extractEntries. apply flat_map_concat_map.
        -- rewrite <- Hlen. apply wellNamed_ascending; [by rewrite Hlen | exact Hnamed].
      * eapply Forall_impl; [exact Hnamed |]. by intros page (H & _).
Qed.

End OutputOrder.

Lemma C8_ordered_output_witness :
  (PdfConverter.convertPdfToImages Samples.loadTwoPages Samples.renderStub
     [] "png" None None
   = Ok [{| PdfConverter.cpPageNumber := 1;
            PdfConverter.cpBuffer := [x89; x50; x4e; x47];
            PdfConverter.cpFilename := "page-1.png" |};
         {| PdfConverter.cpPageNumber := 2;
            PdfConverter.cpBuffer := [x89; x50; x4e; x47];
            PdfConverter.cpFilename := "page-2.png" |}])
  /\ (exists content log,
        PdfConverter.extractPdfContent Samples.loadTwoPages Samples.canvasNonEmpty
          Samples.blankImageData Samples.pngOf [] = (Ok content, log)
        /\ map PdfConverter.pageNumber content = [1; 2]
        /\ Routes.ascendingByPage 2 (Routes.extractEntries content)).
Proof.
  pose proof (C8_ordered_output Samples.loadTwoPages Samples.renderStub
                Samples.canvasNonEmpty Samples.blankImageData Samples.pngOf)
    as [Hconvert Hextract].
  split; [reflexivity |].
  eexists _, _. split; [reflexivity |].
  destruct (Hextract [] _ _ eq_refl) as (_ & Hnum & Hentries & _).
  split; [exact Hnum | exact Hentries].
Defined.

(** ** Composing a document from images *)

Section ReverseComposer.
Import ImageToPdf.

Variable decodePng : list byte -> Result string (N * N).
Variable decodeJpg : list byte -> Result string (N * N).
Variable save : PDFDocument -> Result string (list byte).

Let addImageToPdf := addImageToPdf decodePng decodeJpg.
Let addImages := addImages decodePng decodeJpg.
Let convertImagesToPdf := convertImagesToPdf decodePng decodeJpg save.
Let intrinsicSize := intrinsicSize decodePng decodeJpg.

Lemma includes_prefix (message needle : string) :
  String.prefix needle message = true -> includes message needle = true.
Proof. intros H. destruct message; cbn [includes]; by rewrite H. Qed.

(** An input with an intrinsic size becomes one full page. *)
Lemma addImageToPdf_decodable pdfDoc image size pageNumber :
  intrinsicSize image = Some size ->
  addImageToPdf pdfDoc image pageNumber = Ok (pdfDoc ++ [fullPage image size]).
Proof.
  unfold intrinsicSize, ImageToPdf.intrinsicSize, addImageToPdf,
    ImageToPdf.addImageToPdf, embed, fullPage.
  destruct (String.eqb (mimetype image) "image/png").
  - destruct (decodePng (buffer image)) as [e | [w h]]; [discriminate |].
    intros [= <-]. cbn. by rewrite !N.mul_1_r.
  - destruct (String.eqb (mimetype image) "image/jpeg"); [| discriminate].
    destruct (decodeJpg (buffer image)) as [e | [w h]]; [discriminate |].
    intros [= <-]. cbn. by rewrite !N.mul_1_r.
Qed.

(** An input without one makes [addImageToPdf] throw; the message names
    the format when the format is the reason. *)
Lemma addImageToPdf_undecodable pdfDoc image pageNumber :
  intrinsicSize image = None ->
  exists reason,
    addImageToPdf pdfDoc image pageNumber = Err ("Failed to embed image: " +:+ reason)
    /\ (isValidImageFormat (mimetype image) = false ->
          reason = "Unsupported image format: " +:+ mimetype image
                   +:+ ". Only PNG and JPEG are supported.").
Proof.
  unfold intrinsicSize, ImageToPdf.intrinsicSize, addImageToPdf,
    ImageToPdf.addImageToPdf, embed, isValidImageFormat.
  destruct (String.eqb (mimetype image) "image/png").
  - destruct (decodePng (buffer image)) as [e | [w h]]; [| discriminate].
    intros _. exists e. split; [reflexivity | discriminate].
  - destruct (String.eqb (mimetype image) "image/jpeg").
    + destruct (decodeJpg (buffer image)) as [e | [w h]]; [| discriminate].
      intros _. exists e. split; [reflexivity | discriminate].
    + intros _. eexists. split; reflexivity.
Qed.

Lemma addImages_decodable images :
  forall sizes pdfDoc i,
    Forall2 (fun image size => intrinsicSize image = Some size) images sizes ->
    addImages pdfDoc images i = Ok (pdfDoc ++ zip_with fullPage images sizes).
Proof.
  induction images as [| image images IH]; intros sizes pdfDoc i H.
  - apply Forall2_nil_inv_l in H as ->. cbn. by rewrite app_nil_r.
  - apply Forall2_cons_inv_l in H as (size & sizes' & Hsize & Hrest & ->).
    cbn [addImages ImageToPdf.addImages].
    fold (addImageToPdf pdfDoc image (i + 1)).
    rewrite (addImageToPdf_decodable _ _ _ _ Hsize).
    fold addImages. rewrite (IH _ _ _ Hrest). cbn. by rewrite <- app_assoc.
Qed.

Lemma addImages_first_failure before bad after :
  forall sizes pdfDoc i,
    Forall2 (fun image size => intrinsicSize image = Some size) before sizes ->
    intrinsicSize bad = None ->
    exists reason,
      addImages pdfDoc (before ++ bad :: after) i =
        Err ("Failed to process image "
             +:+ PdfConverter.showNat (i + length before + 1)
             +:+ " (" +:+ originalname bad +:+ "): "
             +:+ "Failed to embed image: " +:+ reason)
      /\ (isValidImageFormat (mimetype bad) = false ->
            reason = "Unsupported image format: " +:+ mimetype bad
                     +:+ ". Only PNG and JPEG are supported.").
Proof.
  induction before as [| image before IH]; intros sizes pdfDoc i H Hbad.
  - cbn [app addImages ImageToPdf.addImages length].
    fold (addImageToPdf pdfDoc bad (i + 1)).
    destruct (addImageToPdf_undecodable pdfDoc bad (i + 1) Hbad) as (reason & -> & Hwhy).
    exists reason. rewrite Nat.add_0_r. auto.
  - apply Forall2_cons_inv_l in H as (size & sizes' & Hsize & Hrest & ->).
    cbn [app addImages ImageToPdf.addImages length].
    fold (addImageToPdf pdfDoc image (i + 1)).
    rewrite (addImageToPdf_decodable _ _ _ _ Hsize).
    fold addImages.
    destruct (IH _ (pdfDoc ++ [fullPage image size]) (S i) Hrest Hbad)
      as (reason & -> & Hwhy).
    exists reason. replace (S i + length before + 1) with (i + S (length before) + 1) by lia.
    auto.
Qed.

(** Every input of a loop that ran to its end had an intrinsic size. *)
Lemma addImages_ok_inv images :
  forall pdfDoc i doc,
    addImages pdfDoc images i = Ok doc ->
    exists sizes,
      Forall2 (fun image size => intrinsicSize image = Some size) images sizes
      /\ doc = pdfDoc ++ zip_with fullPage images sizes.
Proof.
  induction images as [| image images IH]; intros pdfDoc i doc.
  - cbn. intros [= <-]. exists []. split; [constructor | by rewrite app_nil_r].
  - cbn [addImages ImageToPdf.addImages].
    fold (addImageToPdf pdfDoc image (i + 1)).
    destruct (intrinsicSize image) as [size |] eqn:Hsize.
    + rewrite (addImageToPdf_decodable _ _ _ _ Hsize). fold addImages.
      intros H. apply IH in H as (sizes & Hall & ->).
      exists (size :: sizes). split; [by constructor |].
      cbn. by rewrite <- app_assoc.
    + destruct (addImageToPdf_undecodable pdfDoc image (i + 1) Hsize) as (reason & -> & _).
      discriminate.
Qed.

Lemma fullPage_sizes images sizes :
  Forall2 (fun image size => intrinsicSize image = Some size) images sizes ->
  length (zip_with fullPage images sizes) = length images
  /\ map (fun page => (pageWidth page, pageHeight page))
         (zip_with fullPage images sizes) = sizes.
Proof.
  induction 1 as [| image [w h] images sizes _ _ [IHlen IHmap]]; cbn; [auto |].
  by rewrite IHlen, IHmap.
Qed.

(** C5.  For a non-empty list of inputs that are decodable PNG or JPEG
    images, the document handed to [save] has one page per input, in
    input order; the page of an input has that input's intrinsic pixel
    size and one drawing of it at the origin over the full page; and what
    [convertImagesToPdf] returns is what [save] makes of that document. *)
Theorem C5_one_full_page_per_image (images : list ImageData) (sizes : list (N * N)) :
  images <> [] ->
  Forall2 (fun image size => intrinsicSize image = Some size) images sizes ->
  let pdfDoc := zip_with fullPage images sizes in
  addImages [] images 0 = Ok pdfDoc
  /\ length pdfDoc = length images
  /\ map (fun page => (pageWidth page, pageHeight page)) pdfDoc = sizes
  /\ convertImagesToPdf images =
       match save pdfDoc with
       | Ok pdfBytes => Ok pdfBytes
       | Err message =>
           if includes message "Failed to process image" then Err message
           else Err ("PDF creation failed: " +:+ message)
       end.
Proof.
  intros Hne Hall pdfDoc.
  assert (Hloop : addImages [] images 0 = Ok pdfDoc)
    by (by rewrite (addImages_decodable _ _ _ _ Hall)).
  destruct (fullPage_sizes _ _ Hall) as [Hlen Hsizes].
  repeat split; auto.
  unfold convertImagesToPdf, ImageToPdf.convertImagesToPdf.
  destruct images as [| image images']; [contradiction |].
  fold (addImages [] (image :: images') 0). rewrite Hloop. reflexivity.
Qed.

Lemma validateEach_passes (images : list ImageToPdf.ImageData) :
  Forall (fun image => ImageToPdf.buffer image <> []
                       /\ ImageToPdf.isValidImageFormat (ImageToPdf.mimetype image) = true)
         images ->
  forall i, ImageToPdf.validateEach images i = Ok tt.
Proof.
  induction 1 as [| image images [Hdata Hformat] _ IH]; intros i; [reflexivity |].
  cbn [ImageToPdf.validateEach].
  destruct (ImageToPdf.buffer image); [contradiction |].
  cbn [length Nat.eqb]. rewrite Hformat. cbn [negb]. apply IH.
Qed.

Lemma validateEach_passes_inv (images : list ImageToPdf.ImageData) :
  forall i, ImageToPdf.validateEach images i = Ok tt ->
  Forall (fun image => ImageToPdf.buffer image <> []
                       /\ ImageToPdf.isValidImageFormat (ImageToPdf.mimetype image) = true)
         images.
Proof.
  induction images as [| image images IH]; intros i; [constructor |].
  cbn [ImageToPdf.validateEach].
  destruct (ImageToPdf.buffer image) as [| b bs] eqn:Hdata; [discriminate |].
  cbn [length Nat.eqb].
  destruct (ImageToPdf.isValidImageFormat (ImageToPdf.mimetype image)) eqn:Hformat;
    [| discriminate].
  cbn [negb]. intros H. constructor; [| by eapply IH].
  split; [by rewrite Hdata | exact Hformat].
Qed.

Let composeFromImages := composeFromImages decodePng decodeJpg save.

(** An input that [validateImages] lets pass: it has data and the tag of
    a PNG or a JPEG. *)
Let passes (image : ImageData) : Prop :=
  buffer image <> [] /\ isValidImageFormat (mimetype image) = true.

(** The message of [validateImages] for an input it refuses, at the
    1-based index [k]. *)
Let refusal (k : nat) (bad : ImageData) : string :=
  if length (buffer bad) =? 0 then
    "Image " +:+ PdfConverter.showNat k +:+ " has no data"
  else
    "Image " +:+ PdfConverter.showNat k +:+ " (" +:+ originalname bad
    +:+ ") has unsupported format: " +:+ mimetype bad.

Lemma validateEach_first_refused before bad after :
  Forall passes before ->
  buffer bad = [] \/ isValidImageFormat (mimetype bad) = false ->
  forall i,
    validateEach (before ++ bad :: after) i = Err (refusal (i + length before + 1) bad).
Proof.
  intros Hall Hbad.
  induction Hall as [| image before [Himg Hfmt] _ IH]; intros i;
    cbn [app validateEach length].
  - rewrite Nat.add_0_r. unfold refusal.
    destruct (length (buffer bad) =? 0) eqn:Hlen; [reflexivity |].
    destruct Hbad as [Hempty | Hformat].
    + rewrite Hempty in Hlen. discriminate.
    + rewrite Hformat. reflexivity.
  - destruct (buffer image); [contradiction |]. cbn [length Nat.eqb].
    rewrite Hfmt. cbn [negb]. rewrite IH.
    by replace (S i + length before + 1) with (i + S (length before) + 1) by lia.
Qed.

Lemma composeFromImages_validated images :
  images <> [] ->
  Forall passes images ->
  composeFromImages images = convertImagesToPdf images.
Proof.
  intros Hne Hall. unfold composeFromImages, ImageToPdf.composeFromImages, validateImages.
  destruct images as [| image rest]; [contradiction |].
  rewrite (validateEach_passes _ Hall 0). reflexivity.
Qed.

Lemma convertImagesToPdf_first_failure before bad after sizes :
  Forall2 (fun image size => intrinsicSize image = Some size) before sizes ->
  intrinsicSize bad = None ->
  exists reason,
    convertImagesToPdf (before ++ bad :: after) =
      Err ("Failed to process image "
           +:+ PdfConverter.showNat (length before + 1)
           +:+ " (" +:+ originalname bad +:+ "): "
           +:+ "Failed to embed image: " +:+ reason)
    /\ (isValidImageFormat (mimetype bad) = false ->
          reason = "Unsupported image format: " +:+ mimetype bad
                   +:+ ". Only PNG and JPEG are supported.").
Proof.
  intros Hall Hbad.
  destruct (addImages_first_failure before bad after sizes [] 0 Hall Hbad)
    as (reason & Hloop & Hwhy).
  exists reason. split; [| exact Hwhy].
  unfold convertImagesToPdf, ImageToPdf.convertImagesToPdf.
  destruct (before ++ bad :: after) as [| image rest] eqn:E;
    [by destruct before |].
  fold (addImages [] (image :: rest) 0). rewrite Hloop. cbn [bindR plus].
  rewrite includes_prefix; reflexivity.
Qed.

Lemma convertImagesToPdf_ok_inv images pdfBytes :
  convertImagesToPdf images = Ok pdfBytes ->
  images <> []
  /\ exists sizes,
       Forall2 (fun image size => intrinsicSize image = Some size) images sizes
       /\ save (zip_with fullPage images sizes) = Ok pdfBytes.
Proof.
  unfold convertImagesToPdf, ImageToPdf.convertImagesToPdf.
  destruct images as [| image rest]; [discriminate |].
  fold (addImages [] (image :: rest) 0).
  destruct (addImages [] (image :: rest) 0) as [e | doc] eqn:Hloop; cbn [bindR].
  - destruct (includes e _); discriminate.
  - apply addImages_ok_inv in Hloop as (sizes & Hall & ->). cbn [app].
    destruct (save _) as [e | bytes] eqn:Hsave.
    + destruct (includes e _); discriminate.
    + intros [= <-]. split; [discriminate | eauto].
Qed.

(** C6, as the code has it.  [composeFromImages] is [validateImages]
    followed by [convertImagesToPdf], as the handler calls them.
    - An empty list is refused with "At least one image is required", by
      either of the two.
    - On a non-empty list [validateImages] looks at every input before
      anything is embedded: the call fails at the first input, in input
      order, that has no data or whose tag is neither PNG nor JPEG, with
      "Image k has no data" when it has no data and otherwise with the
      unsupported-format error that carries its 1-based index, its name
      and its tag.
    - When every input passes that check, the call fails at the first
      input, in input order, that cannot be embedded, with an error that
      carries its 1-based index and name.
    - A document is returned only for a non-empty list of which every
      input passed the check and was embedded, and it is what [save]
      makes of the document with one full page per input.
    - [convertImagesToPdf] called by itself fails at the first input that
      cannot be embedded, with the unsupported-format error when the tag
      of that input is neither PNG nor JPEG, and returns a document only
      when every input was embedded. *)
Theorem C6_all_or_nothing :
  (composeFromImages [] = Err "At least one image is required"
   /\ validateImages [] = Err "At least one image is required"
   /\ convertImagesToPdf [] = Err "At least one image is required")
  /\ (forall before bad after,
        Forall passes before ->
        buffer bad = [] \/ isValidImageFormat (mimetype bad) = false ->
        validateImages (before ++ bad :: after)
          = Err (refusal (length before + 1) bad)
        /\ composeFromImages (before ++ bad :: after)
           = Err (refusal (length before + 1) bad))
  /\ (forall before bad after sizes,
        Forall passes (before ++ bad :: after) ->
        Forall2 (fun image size => intrinsicSize image = Some size) before sizes ->
        intrinsicSize bad = None ->
        exists reason,
          composeFromImages (before ++ bad :: after) =
            Err ("Failed to process image "
                 +:+ PdfConverter.showNat (length before + 1)
                 +:+ " (" +:+ originalname bad +:+ "): "
                 +:+ "Failed to embed image: " +:+ reason))
  /\ (forall images pdfBytes,
        composeFromImages images = Ok pdfBytes ->
        images <> []
        /\ Forall passes images
        /\ exists sizes,
             Forall2 (fun image size => intrinsicSize image = Some size) images sizes
             /\ save (zip_with fullPage images sizes) = Ok pdfBytes)
  /\ (forall before bad after sizes,
        Forall2 (fun image size => intrinsicSize image = Some size) before sizes ->
        intrinsicSize bad = None ->
        exists reason,
          convertImagesToPdf (before ++ bad :: after) =
            Err ("Failed to process image "
                 +:+ PdfConverter.showNat (length before + 1)
                 +:+ " (" +:+ originalname bad +:+ "): "
                 +:+ "Failed to embed image: " +:+ reason)
          /\ (isValidImageFormat (mimetype bad) = false ->
                reason = "Unsupported image format: " +:+ mimetype bad
                         +:+ ". Only PNG and JPEG are supported."))
  /\ (forall images pdfBytes,
        convertImagesToPdf images = Ok pdfBytes ->
        images <> []
        /\ exists sizes,
             Forall2 (fun image size => intrinsicSize image = Some size) images sizes
             /\ save (zip_with fullPage images sizes) = Ok pdfBytes).
Proof.
  split; [repeat split; reflexivity |].
  split; [| split; [| split; [| split]]].
  - intros before bad after Hall Hbad.
    assert (Hcheck : validateImages (before ++ bad :: after)
                     = Err (refusal (length before + 1) bad)).
    { unfold validateImages.
      destruct (before ++ bad :: after) as [| image rest] eqn:E;
        [by destruct before |].
      rewrite <- E. exact (validateEach_first_refused before bad after Hall Hbad 0). }
    split; [exact Hcheck |].
    unfold composeFromImages, ImageToPdf.composeFromImages. by rewrite Hcheck.
  - intros before bad after sizes Hpass Hall Hbad.
    rewrite composeFromImages_validated; [| by destruct before | exact Hpass].
    destruct (convertImagesToPdf_first_failure before bad after sizes Hall Hbad)
      as (reason & Hfail & _).
    by exists reason.
  - intros images pdfBytes.
    unfold composeFromImages, ImageToPdf.composeFromImages, validateImages.
    destruct images as [| image rest]; [discriminate |].
    destruct (validateEach (image :: rest) 0) as [e | []] eqn:Hcheck; [discriminate |].
    cbn [bindR]. intros H.
    apply validateEach_passes_inv in Hcheck.
    apply convertImagesToPdf_ok_inv in H as (Hne & Hsizes).
    split; [exact Hne | split; [exact Hcheck | exact Hsizes]].
  - exact convertImagesToPdf_first_failure.
  - exact convertImagesToPdf_ok_inv.
Qed.

End ReverseComposer.

Lemma C5_one_full_page_per_image_witness :
  [Samples.imageA; Samples.imageB] <> []
  /\ ImageToPdf.addImages Samples.decodePngSample Samples.decodeJpgSample
       [] [Samples.imageA; Samples.imageB] 0
     = Ok (zip_with ImageToPdf.fullPage [Samples.imageA; Samples.imageB]
             [(300%N, 200%N); (150%N, 150%N)])
  /\ map (fun page => (ImageToPdf.pageWidth page, ImageToPdf.pageHeight page))
         (zip_with ImageToPdf.fullPage [Samples.imageA; Samples.imageB]
            [(300%N, 200%N); (150%N, 150%N)])
     = [(300%N, 200%N); (150%N, 150%N)].
Proof.
  assert (Hne : [Samples.imageA; Samples.imageB] <> []) by discriminate.
  split; [exact Hne |].
  destruct (C5_one_full_page_per_image Samples.decodePngSample
              Samples.decodeJpgSample Samples.saveSample
              [Samples.imageA; Samples.imageB] [(300%N, 200%N); (150%N, 150%N)] Hne)
    as (Hloop & _ & Hsizes & _).
  - repeat constructor.
  - split; [exact Hloop | exact Hsizes].
Defined.

Lemma C6_all_or_nothing_witness :
  ImageToPdf.composeFromImages Samples.decodePngSample Samples.decodeJpgSample
    Samples.saveSample [Samples.brokenPng; Samples.gifImage]
  = Err "Image 2 (c.gif) has unsupported format: image/gif".
Proof.
  destruct (C6_all_or_nothing Samples.decodePngSample Samples.decodeJpgSample
              Samples.saveSample) as (_ & Hcheck & _).
  refine (proj2 (Hcheck [Samples.brokenPng] Samples.gifImage [] _ _)).
  - repeat constructor. discriminate.
  - right. reflexivity.
Defined.

(** C6 as stated fails on "an unsupported-format error when any input's
    tag is neither PNG nor JPEG": with a GIF in second place,
    [convertImagesToPdf] reports the first input, whose bytes do not
    decode, and [validateImages] reports the first input when it has no
    bytes; neither message is about the format. *)
Lemma C6_counterexample :
  (exists message,
     ImageToPdf.convertImagesToPdf Samples.decodePngSample Samples.decodeJpgSample
       Samples.saveSample [Samples.brokenPng; Samples.gifImage] = Err message
     /\ ImageToPdf.isUnsupportedFormatError message = false)
  /\ (exists message,
        ImageToPdf.composeFromImages Samples.decodePngSample Samples.decodeJpgSample
          Samples.saveSample [Samples.emptyPng; Samples.gifImage] = Err message
        /\ ImageToPdf.isUnsupportedFormatError message = false).
Proof. split; eexists; split; vm_compute; reflexivity. Qed.

(** ** Page breaks of the reconstructed document *)

Section DocumentReconstructor.
Import PdfToDocx.

Variable trim : string -> string.
Variable imageRunThrows : list byte -> string -> option string.
Variable pack : list Paragraph -> Result string (list byte).
Variable extractPdfContent :
  list byte -> Result string (list PdfConverter.ExtractedPageContent).

Let embedImages := embedImages imageRunThrows.
Let buildPages := buildPages trim imageRunThrows.
Let buildDocxContent := buildDocxContent trim imageRunThrows.
Let pageParagraphs := pageParagraphs trim imageRunThrows.
Let convertTextToParagraphs := convertTextToParagraphs trim.

Lemma countPageBreaks_app (a b : list Paragraph) :
  countPageBreaks (a ++ b) = countPageBreaks a + countPageBreaks b.
Proof.
  unfold countPageBreaks. by rewrite flat_map_app, List.filter_app, length_app.
Qed.

Lemma embedImages_acc images :
  forall acc log,
    fst (embedImages images acc log) = acc ++ fst (embedImages images [] []).
Proof.
  induction images as [| image images IH]; intros acc log;
    cbn [embedImages PdfToDocx.embedImages].
  - cbn. by rewrite app_nil_r.
  - destruct (createImageParagraph imageRunThrows _) as [e | par];
      fold embedImages.
    + cbn [app]. rewrite (IH acc), (IH [] [(PdfConverter.filename image, e)]).
      reflexivity.
    + cbn [app]. rewrite (IH (acc ++ [par])), (IH [par] []).
      by rewrite <- app_assoc.
Qed.

Lemma embedImages_no_break images :
  countPageBreaks (fst (embedImages images [] [])) = 0.
Proof.
  assert (H : forall acc log,
            countPageBreaks (fst (embedImages images acc log)) = countPageBreaks acc).
  { induction images as [| image images IH]; intros acc log;
      cbn [embedImages PdfToDocx.embedImages]; [reflexivity |].
    unfold createImageParagraph.
    destruct (imageRunThrows _ _); fold embedImages; rewrite IH; [reflexivity |].
    by rewrite countPageBreaks_app, Nat.add_0_r. }
  apply H.
Qed.

Lemma text_no_break text : countPageBreaks (convertTextToParagraphs text) = 0.
Proof.
  unfold convertTextToParagraphs, PdfToDocx.convertTextToParagraphs.
  induction (splitLines text) as [| line lines IH]; [reflexivity |].
  change (map (lineParagraph trim) (line :: lines))
    with ([lineParagraph trim line] ++ map (lineParagraph trim) lines).
  rewrite countPageBreaks_app, IH. unfold lineParagraph.
  by destruct (String.length (trim line) =? 0).
Qed.

(** The body of a page holds no page break. *)
Lemma pageParagraphs_no_break total includeImages page :
  countPageBreaks (pageParagraphs total includeImages page) = 0.
Proof.
  unfold pageParagraphs, PdfToDocx.pageParagraphs.
  rewrite !countPageBreaks_app.
  destruct (1 <? total); destruct (_ && _); destruct (_ && _);
    fold convertTextToParagraphs; fold embedImages;
    rewrite ?text_no_break, ?embedImages_no_break; reflexivity.
Qed.

Lemma withBreaks_count (bodies : list (list Paragraph)) :
  Forall (fun body => countPageBreaks body = 0) bodies ->
  countPageBreaks (withBreaks bodies) = length bodies - 1.
Proof.
  induction 1 as [| body bodies Hbody Hrest IH]; [reflexivity |].
  cbn [withBreaks]. destruct bodies as [| body' bodies']; [by rewrite Hbody |].
  change (body ++ pageBreakParagraph :: withBreaks (body' :: bodies'))
    with (body ++ [pageBreakParagraph] ++ withBreaks (body' :: bodies')).
  rewrite !countPageBreaks_app, Hbody, IH. cbn. lia.
Qed.

(** One round of the page loop: the body of the page, and the page
    break when the page is not the last. *)
Lemma buildPages_step total includeImages preservePageBreaks page pages i acc log :
  exists log',
    buildPages total includeImages preservePageBreaks (page :: pages) i acc log =
    buildPages total includeImages preservePageBreaks pages (S i)
      (acc ++ pageParagraphs total includeImages page
           ++ (if preservePageBreaks && (i <? total - 1)
               then [pageBreakParagraph] else []))
      log'.
Proof.
  cbn [buildPages PdfToDocx.buildPages]. fold buildPages.
  unfold pageParagraphs, PdfToDocx.pageParagraphs.
  fold embedImages. fold convertTextToParagraphs.
  destruct (1 <? total);
    destruct (negb _ && _);
    destruct (includeImages && _);
    destruct (preservePageBreaks && _);
    try match goal with
        | |- context [embedImages ?imgs ?a ?l] =>
            let E := fresh in
            let ps := fresh "ps" in
            let lg := fresh "lg" in
            destruct (embedImages imgs a l) as [ps lg] eqn:E;
            apply (f_equal fst) in E; cbn [fst] in E;
            rewrite embedImages_acc in E; subst ps
        end;
    eexists; f_equal; rewrite <- ?app_assoc, ?app_nil_r; cbn [app]; reflexivity.
Qed.

(** The page loop with page breaks on, from page [i] on. *)
Lemma buildPages_withBreaks total includeImages pages :
  forall i acc log,
    i + length pages = total ->
    fst (buildPages total includeImages true pages i acc log) =
      acc ++ withBreaks (map (pageParagraphs total includeImages) pages).
Proof.
  induction pages as [| page pages IH]; intros i acc log Htotal.
  - cbn. by rewrite app_nil_r.
  - destruct (buildPages_step total includeImages true page pages i acc log)
      as [log' ->].
    cbn [length] in Htotal. rewrite IH by lia.
    cbn [map withBreaks andb]. destruct pages as [| page' pages'].
    + cbn [length] in Htotal.
      replace (i <? total - 1) with false by (symmetry; apply Nat.ltb_ge; lia).
      cbn [map withBreaks]. by rewrite !app_nil_r.
    + replace (i <? total - 1) with true
        by (symmetry; apply Nat.ltb_lt; cbn [length] in Htotal; lia).
      cbn [map]. rewrite <- !app_assoc. reflexivity.
Qed.

(** C9.  With page breaks on, the body [buildDocxContent] builds is the
    bodies of the extracted pages, in order, with one page-break paragraph
    after each page but the last; the bodies hold no page break, so for P
    pages the document has P - 1 of them, and [convertPdfToDocx], where
    page breaks are on unless switched off, packs that body. *)
Theorem C9_page_breaks_between_pages :
  (forall (pages : list PdfConverter.ExtractedPageContent) (includeImages : bool),
     fst (buildDocxContent pages includeImages true) =
       withBreaks (map (pageParagraphs (length pages) includeImages) pages)
     /\ countPageBreaks (fst (buildDocxContent pages includeImages true)) =
          length pages - 1)
  /\ (forall pdfBuffer includeImages preservePageBreaks body bytes,
        default true preservePageBreaks = true ->
        convertPdfToDocx trim imageRunThrows pack extractPdfContent pdfBuffer
          includeImages preservePageBreaks = Ok (body, bytes) ->
        exists pages,
          extractPdfContent pdfBuffer = Ok pages
          /\ S (countPageBreaks body) = length pages).
Proof.
  assert (Hbuild : forall pages includeImages,
            fst (buildDocxContent pages includeImages true) =
              withBreaks (map (pageParagraphs (length pages) includeImages) pages)
            /\ countPageBreaks (fst (buildDocxContent pages includeImages true)) =
                 length pages - 1).
  { intros pages includeImages.
    assert (H : fst (buildDocxContent pages includeImages true) =
                withBreaks (map (pageParagraphs (length pages) includeImages) pages)).
    { unfold buildDocxContent, PdfToDocx.buildDocxContent. fold buildPages.
      by rewrite buildPages_withBreaks. }
    split; [exact H |]. rewrite H, withBreaks_count; [by rewrite length_map |].
    apply Forall_forall. intros body Hin. apply list_elem_of_In in Hin.
    apply in_map_iff in Hin as (page & <- & _). apply pageParagraphs_no_break. }
  split; [exact Hbuild |].
  intros pdfBuffer includeImages preservePageBreaks body bytes Hon.
  unfold convertPdfToDocx. rewrite Hon.
  destruct (extractPdfContent pdfBuffer) as [e | pages]; [discriminate |].
  cbn [bindR]. destruct (length pages =? 0) eqn:Hlen; [discriminate |].
  fold (buildDocxContent pages (default true includeImages) true).
  destruct (pack _) as [e | packed]; [discriminate |].
  cbn [bindR]. intros [= <- _]. exists pages. split; [reflexivity |].
  rewrite (proj2 (Hbuild pages _)). apply Nat.eqb_neq in Hlen. lia.
Qed.

End DocumentReconstructor.

Lemma C9_page_breaks_between_pages_witness :
  exists body bytes,
    PdfToDocx.convertPdfToDocx Samples.trimNothing Samples.imageRunFine
      Samples.packStub Samples.extractThreePages [] None (Some true)
    = Ok (body, bytes)
    /\ PdfToDocx.countPageBreaks body = 2.
Proof.
  eexists _, _. split; [reflexivity |].
  destruct (proj2 (C9_page_breaks_between_pages Samples.trimNothing
                     Samples.imageRunFine Samples.packStub Samples.extractThreePages)
              [] None (Some true) _ _ eq_refl eq_refl) as (pages & Hpages & Hcount).
  unfold Samples.extractThreePages in Hpages. injection Hpages as <-.
  exact (eq_add_S _ _ Hcount).
Defined.

(** ** File validation without an extension *)

Section FileValidation.
Import FileValidator.

Lemma lastIndexOf_dotFree (s : string) :
  Js.dotFree s -> lastIndexOf "." s = None.
Proof.
  induction s as [| c s IH]; cbn; [reflexivity |].
  intros [Hc Hs]. rewrite (IH Hs).
  destruct (Ascii.eqb_spec c "."); [contradiction | reflexivity].
Qed.

Lemma lastIndexOf_trailing_dot (stem : string) :
  lastIndexOf "." (stem +:+ ".") = Some (String.length stem).
Proof.
  induction stem as [| c stem IH]; [reflexivity |].
  change (lastIndexOf "." (String c stem +:+ "."))
    with (match lastIndexOf "." (stem +:+ ".") with
          | Some i => Some (S i)
          | None => if Ascii.eqb c "." then Some 0 else None
          end).
  by rewrite IH.
Qed.

Lemma length_trailing_dot (stem : string) :
  String.length (stem +:+ ".") = S (String.length stem).
Proof.
  induction stem as [| c stem IH]; [reflexivity |].
  change (String.length (String c stem +:+ "."))
    with (S (String.length (stem +:+ "."))).
  by rewrite IH.
Qed.

(** [getExtension] of a name without a dot, or ending in one. *)
Lemma getExtension_none (filename : string) :
  Js.dotFree filename \/ (exists stem, filename = stem +:+ ".") ->
  getExtension filename = "".
Proof.
  unfold getExtension. intros [Hfree | [stem ->]].
  - by rewrite lastIndexOf_dotFree.
  - rewrite lastIndexOf_trailing_dot, length_trailing_dot.
    cbn [Nat.sub]. by rewrite Nat.sub_0_r, Nat.eqb_refl.
Qed.

Lemma includes_In (l : list string) (x : string) :
  includes l x = true <-> In x l.
Proof.
  unfold includes. rewrite existsb_exists. split.
  - intros (y & Hin & Heq). apply String.eqb_eq in Heq. by subst.
  - intros Hin. exists x. split; [exact Hin | apply String.eqb_refl].
Qed.

Lemma definitionOf_known (t : string) (d : FileTypeDefinition) :
  definitionOf t = Some d -> In (t, d) FILE_TYPE_DEFINITIONS.
Proof.
  unfold definitionOf. generalize FILE_TYPE_DEFINITIONS as table.
  induction table as [| [k d'] table IH]; cbn; [discriminate |].
  destruct (String.eqb_spec k t) as [-> | _]; [intros [= ->]; auto | auto].
Qed.

(** No allowed extension is the empty string. *)
Lemma allowed_extension_nonempty (allowedTypes : list string) :
  ~ In "" (flatMapDefinitions extensions allowedTypes).
Proof.
  unfold flatMapDefinitions. rewrite in_flat_map. intros (t & _ & Hin).
  destruct (definitionOf t) as [d |] eqn:Hd; [| contradiction].
  apply definitionOf_known in Hd. cbn in Hd.
  destruct Hd as [[= _ <-] | [[= _ <-] | [[= _ <-] | []]]]; cbn in Hin;
    intuition discriminate.
Qed.

Lemma extensionErrors_none (allowedTypes : list string) :
  extensionErrors "" allowedTypes = [].
Proof. reflexivity. Qed.

Lemma crossErrors_no_extension detected mimeType allowedTypes :
  Forall (fun e => isExtensionError e = false)
    (crossErrors detected mimeType "" allowedTypes).
Proof.
  unfold crossErrors. destruct detected as [t |]; [| constructor].
  destruct (includes allowedTypes t); [| constructor].
  destruct (definitionOf t) as [d |]; [| constructor].
  cbn [String.eqb negb andb]. rewrite app_nil_r.
  destruct (includes (mimeTypes d) _); repeat constructor.
Qed.

(** C10.  For a file name without a dot, or ending in a dot,
    [getExtension] is the empty string, which is none of the allowed
    extensions; [validateFile] records no extension error for it; and the
    file is valid as soon as it has the eight bytes, its content is of an
    allowed type and its MIME type is one of that type. *)
Theorem C10_no_extension_no_check
    (buffer : list byte) (filename mimeType : string) (allowedTypes : list string) :
  Js.dotFree filename \/ (exists stem, filename = stem +:+ ".") ->
  getExtension filename = ""
  /\ ~ In (getExtension filename) (flatMapDefinitions extensions allowedTypes)
  /\ Forall (fun e => isExtensionError e = false)
       (errors (validateFile buffer filename mimeType allowedTypes))
  /\ (forall t definition,
        8 <= length buffer ->
        detectFileType buffer = Some t ->
        In t allowedTypes ->
        definitionOf t = Some definition ->
        In (toLowerCase mimeType) (mimeTypes definition) ->
        validateFile buffer filename mimeType allowedTypes =
          {| isValid := true; detectedType := Some t; errors := [] |}).
Proof.
  intros Hname. pose proof (getExtension_none filename Hname) as Hext.
  split; [exact Hext |]. rewrite Hext.
  split; [apply allowed_extension_nonempty |].
  split.
  - unfold validateFile.
    destruct (length buffer =? 0); [repeat constructor |].
    destruct (length buffer <? 8); [repeat constructor |].
    cbn [errors]. rewrite Hext, extensionErrors_none.
    repeat apply Forall_app_2.
    + unfold contentErrors. destruct (detectFileType buffer) as [t |];
        [destruct (includes allowedTypes t) |]; repeat constructor.
    + unfold mimeErrors. destruct (includes _ _); repeat constructor.
    + constructor.
    + apply crossErrors_no_extension.
  - intros t definition Hlen Hdetect Hallowed Hdef Hmime.
    unfold validateFile.
    destruct (Nat.eqb_spec (length buffer) 0); [lia |].
    destruct (Nat.ltb_spec (length buffer) 8); [lia |].
    rewrite Hext, extensionErrors_none, Hdetect.
    apply includes_In in Hallowed. apply includes_In in Hmime.
    unfold contentErrors, crossErrors, mimeErrors.
    rewrite Hallowed, Hdef, Hmime.
    assert (Hany : includes (flatMapDefinitions mimeTypes allowedTypes)
                     (toLowerCase mimeType) = true).
    { apply includes_In. unfold flatMapDefinitions. apply in_flat_map.
      exists t. split; [by apply includes_In |].
      rewrite Hdef. by apply includes_In. }
    rewrite Hany. reflexivity.
Qed.

End FileValidation.

Lemma C10_no_extension_no_check_witness :
  FileValidator.validateFile
    [x25; x50; x44; x46; x2d; x31; x2e; x34; x0a] "README" "application/pdf" ["pdf"]
  = {| FileValidator.isValid := true;
       FileValidator.detectedType := Some "pdf";
       FileValidator.errors := [] |}.
Proof.
  refine (proj2 (proj2 (proj2
            (C10_no_extension_no_check
               [x25; x50; x44; x46; x2d; x31; x2e; x34; x0a] "README"
               "application/pdf" ["pdf"] (or_introl _)))) "pdf" _ _ eq_refl _ eq_refl _).
  - cbn. repeat split; discriminate.
  - cbn. lia.
  - left. reflexivity.
  - left. reflexivity.
Defined.

(** * Further properties of the code *)

(** ** The limiter over time *)

Section LimiterOverTime.
Import DosProtection Guards.

Lemma getCount_insert_ne ip ip' n (m : gmap string nat) :
  ip <> ip' -> getCount ip' (<[ip := n]> m) = getCount ip' m.
Proof. intros Hne. unfold getCount. by rewrite lookup_insert_ne. Qed.

Lemma getCount_delete_ne ip ip' (m : gmap string nat) :
  ip <> ip' -> getCount ip' (delete ip m) = getCount ip' m.
Proof. intros Hne. unfold getCount. by rewrite lookup_delete_ne. Qed.

Lemma limiter_other max ip ip' (m : gmap string nat) :
  ip <> ip' ->
  getCount ip' (snd (concurrentRequestLimiter max ip m)) = getCount ip' m.
Proof.
  intros Hne. unfold concurrentRequestLimiter.
  destruct (max <=? getCount ip m); cbn [snd]; [reflexivity |].
  by apply getCount_insert_ne.
Qed.

Lemma cleanup_other ip ip' (m : gmap string nat) :
  ip <> ip' -> getCount ip' (cleanup ip m) = getCount ip' m.
Proof.
  intros Hne. unfold cleanup. destruct (getCount ip m <=? 1).
  - by apply getCount_delete_ne.
  - by apply getCount_insert_ne.
Qed.

Lemma happen_bounded max (m : gmap string nat) (h : Happening) :
  (forall ip, getCount ip m <= max) ->
  forall ip, getCount ip (happen max m h) <= max.
Proof.
  intros Hm ip. destruct h as [client | client]; cbn [happen].
  - destruct (decide (client = ip)) as [-> | Hne]; [| by rewrite limiter_other].
    unfold concurrentRequestLimiter.
    destruct (Nat.leb_spec max (getCount ip m)); cbn [snd]; [apply Hm |].
    rewrite getCount_insert. lia.
  - destruct (decide (client = ip)) as [-> | Hne]; [| by rewrite cleanup_other].
    rewrite cleanup_count. specialize (Hm ip). lia.
Qed.

(** X1.  Whatever requests arrive and whatever responses emit events, in
    any order, no client's stored count ever exceeds the cap; and a request
    is answered 429 exactly when its client's stored count has reached the
    cap, in which case the counters are left as they are. *)
Theorem limiter_never_exceeds_cap (max : nat) :
  (forall hs ip, getCount ip (history max hs) <= max)
  /\ (forall ip (m : gmap string nat),
        fst (concurrentRequestLimiter max ip m) = Rejected429
        <-> max <= getCount ip m)
  /\ (forall ip (m : gmap string nat),
        fst (concurrentRequestLimiter max ip m) = Rejected429 ->
        snd (concurrentRequestLimiter max ip m) = m).
Proof.
  split; [| split].
  - intros hs. unfold history.
    assert (H : forall (m : gmap string nat),
              (forall ip, getCount ip m <= max) ->
              forall ip, getCount ip (fold_left (happen max) hs m) <= max).
    { induction hs as [| h hs IH]; intros m Hm; [exact Hm |].
      cbn [fold_left]. apply IH. by apply happen_bounded. }
    apply H. intros ip. rewrite getCount_empty. lia.
  - intros ip m. unfold concurrentRequestLimiter.
    destruct (Nat.leb_spec max (getCount ip m)); cbn [fst]; split;
      try discriminate; try lia; auto.
  - intros ip m. unfold concurrentRequestLimiter.
    destruct (max <=? getCount ip m); cbn [fst snd]; [reflexivity | discriminate].
Qed.

(** No stored count is zero. *)
Lemma happen_positive max (m : gmap string nat) (h : Happening) :
  (forall ip n, m !! ip = Some n -> 1 <= n) ->
  forall ip n, happen max m h !! ip = Some n -> 1 <= n.
Proof.
  intros Hm ip n. destruct h as [client | client]; cbn [happen].
  - unfold concurrentRequestLimiter.
    destruct (max <=? getCount client m); cbn [snd]; [apply Hm |].
    destruct (decide (client = ip)) as [-> | Hne].
    + rewrite lookup_insert_eq. intros [= <-]. lia.
    + rewrite lookup_insert_ne by done. apply Hm.
  - unfold cleanup. destruct (Nat.leb_spec (getCount client m) 1).
    + destruct (decide (client = ip)) as [-> | Hne].
      * by rewrite lookup_delete_eq.
      * rewrite lookup_delete_ne by done. apply Hm.
    + destruct (decide (client = ip)) as [-> | Hne].
      * rewrite lookup_insert_eq. intros [= <-]. lia.
      * rewrite lookup_insert_ne by done. apply Hm.
Qed.

Lemma history_positive max hs ip n :
  history max hs !! ip = Some n -> 1 <= n.
Proof.
  unfold history.
  assert (H : forall (m : gmap string nat),
            (forall ip n, m !! ip = Some n -> 1 <= n) ->
            forall ip n, fold_left (happen max) hs m !! ip = Some n -> 1 <= n).
  { induction hs as [| h hs IH]; intros m Hm; [exact Hm |].
    cbn [fold_left]. apply IH. by apply happen_positive. }
  apply H. intros ip' n'. by rewrite lookup_empty.
Qed.

(** X2.  In every state the counters can reach, the map holds no entry
    with count zero (a client without active requests has no entry), and
    admitting a request and then running its [cleanup] once gives back
    exactly the map there was before. *)
Theorem admit_then_cleanup_restores (max : nat) (hs : list Happening)
    (ip : string) (m' : gmap string nat) :
  concurrentRequestLimiter max ip (history max hs) = (Accepted, m') ->
  (forall client, history max hs !! client <> Some 0)
  /\ cleanup ip m' = history max hs.
Proof.
  intros Hadmit. split.
  - intros client Hzero. apply history_positive in Hzero. lia.
  - revert Hadmit. unfold concurrentRequestLimiter.
    destruct (max <=? getCount ip (history max hs)); [discriminate |].
    intros [= <-]. unfold cleanup. rewrite getCount_insert.
    unfold getCount.
    destruct (history max hs !! ip) as [n |] eqn:Hn; unfold default, from_option, id.
    + pose proof (history_positive _ _ _ _ Hn) as Hpos.
      destruct (Nat.leb_spec (n + 1) 1); [lia |].
      rewrite insert_insert_eq.
      replace (n + 1 - 1) with n by lia. by apply insert_id.
    + cbn. rewrite delete_insert_eq. by apply delete_id.
Qed.

Lemma admit_then_cleanup_restores_witness :
  cleanup "198.51.100.4"
    (<["198.51.100.4" := 2]> (history 5 [Arrives "198.51.100.4"]))
  = history 5 [Arrives "198.51.100.4"].
Proof.
  apply (admit_then_cleanup_restores 5 [Arrives "198.51.100.4"] "198.51.100.4").
  vm_compute. reflexivity.
Defined.

(** Requests whose client addresses are pairwise different and have no
    stored count are all admitted. *)
Lemma admitAll_fresh max (reqs : list Peer) :
  1 <= max ->
  forall m : gmap string nat,
    List.NoDup (map getClientIp reqs) ->
    Forall (fun req => getCount (getClientIp req) m = 0) reqs ->
    fst (admitAll max reqs m) = map (fun _ => Accepted) reqs.
Proof.
  intros Hmax. induction reqs as [| req reqs IH]; intros m Hnodup Hfresh;
    [reflexivity |].
  apply List.NoDup_cons_iff in Hnodup as [Hnotin Hnodup].
  apply Forall_cons in Hfresh as [Hreq Hfresh].
  cbn [admitAll map]. rewrite admits_below_cap by lia.
  specialize (IH (<[getClientIp req := getCount (getClientIp req) m + 1]> m) Hnodup).
  destruct (admitAll max reqs _) as [answers m''] eqn:Hrest. cbn [fst] in *.
  f_equal. apply IH.
  apply Forall_forall. intros req' Hin.
  rewrite getCount_insert_ne.
  - eapply Forall_forall in Hfresh; eauto.
  - intros Heq. apply Hnotin. rewrite Heq. apply in_map.
    by apply list_elem_of_In.
Qed.

(** X3.  The limiter counts per client address as [getClientIp] gives it,
    and that is the first entry of the [X-Forwarded-For] header, trimmed,
    whenever the request carries the header, whatever the address of the
    connection is.  So with a cap of at least one, requests that carry
    pairwise different first entries are all admitted when they arrive
    together on idle counters, however many they are. *)
Theorem forwarded_header_decides_the_client (max : nat) (reqs : list Peer) :
  1 <= max ->
  Forall (fun req => forwardedFor req <> None) reqs ->
  List.NoDup (map (fun req => trim (firstField (default "" (forwardedFor req)))) reqs) ->
  (forall req, In req reqs ->
     getClientIp req = trim (firstField (default "" (forwardedFor req))))
  /\ fst (admitAll max reqs ∅) = map (fun _ => Accepted) reqs.
Proof.
  intros Hmax Hheader Hnodup.
  assert (Hkey : forall req, In req reqs ->
            getClientIp req = trim (firstField (default "" (forwardedFor req)))).
  { intros req Hin. apply list_elem_of_In in Hin.
    eapply Forall_forall in Hheader; eauto.
    unfold getClientIp. destruct (forwardedFor req); [reflexivity | contradiction]. }
  split; [exact Hkey |].
  apply admitAll_fresh; [exact Hmax | |].
  - erewrite map_ext_in; [exact Hnodup |]. exact Hkey.
  - apply Forall_forall. intros req _. apply getCount_empty.
Qed.

End LimiterOverTime.

Lemma forwarded_header_decides_the_client_witness :
  (forall req, In req [MoreSamples.viaProxyA; MoreSamples.viaProxyB] ->
     Guards.getClientIp req
     = Guards.trim (Guards.firstField (default "" (Guards.forwardedFor req))))
  /\ fst (Guards.admitAll 1 [MoreSamples.viaProxyA; MoreSamples.viaProxyB] ∅)
     = [DosProtection.Accepted; DosProtection.Accepted].
Proof.
  apply (forwarded_header_decides_the_client 1
           [MoreSamples.viaProxyA; MoreSamples.viaProxyB]).
  - lia.
  - repeat constructor; discriminate.
  - vm_compute. repeat constructor.
    + intros [H | []]. discriminate H.
    + intros [].
Defined.

(** ** Magic bytes and file validation *)

Section MagicBytes.
Import FileValidator Uploads.

Lemma byte_eqb_true (x y : byte) : Byte.eqb x y = true <-> x = y.
Proof.
  split; [| intros ->; apply Byte.byte_dec_lb; reflexivity].
  apply Byte.byte_dec_bl.
Qed.

Lemma bytesMatchFrom_spec (bs : list byte) :
  forall (buffer : list byte) (at_ : nat),
    bytesMatchFrom buffer at_ bs = true <->
    firstn (length bs) (skipn at_ buffer) = bs.
Proof.
  induction bs as [| b bs IH]; intros buffer at_; cbn [bytesMatchFrom length].
  - by rewrite firstn_0.
  - destruct (nth_error buffer at_) as [x |] eqn:Hnth.
    + apply nth_error_split in Hnth as (before & after & -> & <-).
      rewrite skipn_app, skipn_all, Nat.sub_diag. cbn [app skipn firstn].
      destruct (Byte.eqb x b) eqn:Hx.
      * apply byte_eqb_true in Hx as ->.
        rewrite IH.
        replace (skipn (S (length before)) (before ++ b :: after)) with after.
        -- split; [by intros -> | by intros [= ->]].
        -- change (b :: after) with ([b] ++ after). rewrite app_assoc.
           rewrite skipn_app. rewrite skipn_all2 by (rewrite length_app; cbn; lia).
           rewrite length_app. cbn [length].
           by replace (S (length before) - (length before + 1)) with 0 by lia.
      * split; [discriminate |]. intros [= -> _].
        rewrite (proj2 (byte_eqb_true b b) eq_refl) in Hx. discriminate.
    + apply nth_error_None in Hnth. rewrite skipn_all2 by done.
      rewrite firstn_nil. split; discriminate.
Qed.

(** X4.  [matchesMagicBytes] is the test that the buffer reaches to the
    end of the rule and the bytes of the rule stand in it at the offset of
    the rule (0 when the rule has none): for a rule without offset, that
    the buffer begins with them. *)
Theorem matchesMagicBytes_is_prefix (buffer : list byte) (r : MagicByteRule) :
  (matchesMagicBytes buffer r = true <->
   default 0 (offset r) + length (bytes r) <= length buffer
   /\ firstn (length (bytes r)) (skipn (default 0 (offset r)) buffer) = bytes r)
  /\ (offset r = None ->
      (matchesMagicBytes buffer r = true <-> exists rest, buffer = bytes r ++ rest)).
Proof.
  assert (Hgen : matchesMagicBytes buffer r = true <->
                 default 0 (offset r) + length (bytes r) <= length buffer
                 /\ firstn (length (bytes r)) (skipn (default 0 (offset r)) buffer)
                    = bytes r).
  { unfold matchesMagicBytes.
    destruct (Nat.ltb_spec (length buffer) (default 0 (offset r) + length (bytes r))).
    - split; [discriminate | lia].
    - rewrite bytesMatchFrom_spec. tauto. }
  split; [exact Hgen |].
  intros Hoff. rewrite Hgen, Hoff. unfold from_option, id. rewrite drop_0.
  cbn [Nat.add]. split.
  - intros [_ Heq]. exists (skipn (length (bytes r)) buffer).
    rewrite <- Heq at 1. by rewrite firstn_skipn.
  - intros [rest ->]. rewrite length_app. split; [lia |]. apply take_app_length.
Qed.

Lemma matches_rule_prefix (buffer bs : list byte) :
  matchesMagicBytes buffer (rule bs) = true <-> exists rest, buffer = bs ++ rest.
Proof.
  unfold matchesMagicBytes, rule. cbn [offset bytes]. unfold from_option, id.
  cbn [Nat.add].
  destruct (Nat.ltb_spec (length buffer) (length bs)).
  - split; [discriminate |]. intros [rest ->]. rewrite length_app in *. lia.
  - rewrite bytesMatchFrom_spec, drop_0. split.
    + intros Heq. exists (skipn (length bs) buffer).
      rewrite <- Heq at 1. by rewrite firstn_skipn.
    + intros [rest ->]. apply take_app_length.
Qed.

Lemma jpeg_rules_prefix (buffer : list byte) :
  existsb (matchesMagicBytes buffer)
    [rule [xff; xd8; xff; xe0]; rule [xff; xd8; xff; xe1];
     rule [xff; xd8; xff; xe2]; rule [xff; xd8; xff; xe3];
     rule [xff; xd8; xff; xe8]; rule [xff; xd8; xff; xdb];
     rule [xff; xd8; xff]] = true
  <-> exists rest, buffer = jpegSignature ++ rest.
Proof.
  rewrite existsb_exists. split.
  - intros (r & Hin & Hmatch). cbn [In] in Hin.
    destruct Hin as [<- | [<- | [<- | [<- | [<- | [<- | [<- | []]]]]]]];
      apply matches_rule_prefix in Hmatch as [rest ->]; eexists; reflexivity.
  - intros Hprefix. exists (rule [xff; xd8; xff]). split.
    + cbn. tauto.
    + by apply matches_rule_prefix.
Qed.

Lemma detectFileType_cases (buffer : list byte) :
  (detectFileType buffer = Some "pdf" <-> exists rest, buffer = pdfSignature ++ rest)
  /\ (detectFileType buffer = Some "png" <-> exists rest, buffer = pngSignature ++ rest)
  /\ (detectFileType buffer = Some "jpeg" <-> exists rest, buffer = jpegSignature ++ rest)
  /\ (forall t, detectFileType buffer = Some t -> t = "pdf" \/ t = "png" \/ t = "jpeg").
Proof.
  unfold detectFileType, FILE_TYPE_DEFINITIONS. cbn [detectIn magicBytes].
  pose proof (matches_rule_prefix buffer pdfSignature) as Hpdf.
  pose proof (matches_rule_prefix buffer pngSignature) as Hpng.
  pose proof (jpeg_rules_prefix buffer) as Hjpeg.
  unfold pdfSignature, pngSignature in Hpdf, Hpng.
  cbn [existsb]. rewrite !orb_false_r.
  destruct (matchesMagicBytes buffer (rule [x25; x50; x44; x46; x2d])).
  { destruct (proj1 Hpdf eq_refl) as [rest ->].
    repeat split; eauto; try discriminate; try (intros [? [=]]).
    intros t [= <-]. auto. }
  destruct (matchesMagicBytes buffer
              (rule [x89; x50; x4e; x47; x0d; x0a; x1a; x0a])).
  { destruct (proj1 Hpng eq_refl) as [rest ->].
    repeat split; eauto; try discriminate; try (intros [? [=]]).
    intros t [= <-]. auto. }
  cbn [existsb] in Hjpeg. rewrite !orb_false_r in Hjpeg.
  match goal with |- context [if ?c then _ else _] => destruct c end.
  { destruct (proj1 Hjpeg eq_refl) as [rest ->].
    repeat split; eauto; try discriminate; try (intros [? [=]]).
    intros t [= <-]. auto. }
  repeat split; try discriminate.
  - intros H. apply Hpdf in H. discriminate.
  - intros H. apply Hpng in H. discriminate.
  - intros H. apply Hjpeg in H. discriminate.
Qed.

(** X5.  [detectFileType] answers [pdf] exactly for the buffers that begin
    with [%PDF-], [png] exactly for those that begin with the eight bytes
    of the PNG signature, [jpeg] exactly for those that begin with FF D8 FF
    (the six longer JPEG rules add nothing to the last one), and nothing
    else. *)
Theorem detectFileType_by_signature (buffer : list byte) :
  (detectFileType buffer = Some "pdf" <-> exists rest, buffer = pdfSignature ++ rest)
  /\ (detectFileType buffer = Some "png" <-> exists rest, buffer = pngSignature ++ rest)
  /\ (detectFileType buffer = Some "jpeg" <-> exists rest, buffer = jpegSignature ++ rest)
  /\ (forall t, detectFileType buffer = Some t -> t = "pdf" \/ t = "png" \/ t = "jpeg").
Proof. exact (detectFileType_cases buffer). Qed.

Lemma detectFileType_keys (buffer : list byte) (t : string) :
  detectFileType buffer = Some t -> t = "pdf" \/ t = "png" \/ t = "jpeg".
Proof.
  unfold detectFileType, FILE_TYPE_DEFINITIONS. cbn [detectIn].
  repeat match goal with |- context [if ?c then _ else _] => destruct c end;
    intros [= <-]; auto.
Qed.

Lemma validateFile_valid_spec
    (buffer : list byte) (filename mimeType : string) (allowedTypes : list string) :
  isValid (validateFile buffer filename mimeType allowedTypes) = true <->
  8 <= length buffer
  /\ exists t definition,
       detectFileType buffer = Some t
       /\ In t allowedTypes
       /\ definitionOf t = Some definition
       /\ In (toLowerCase mimeType) (mimeTypes definition)
       /\ (getExtension filename = ""
           \/ In (getExtension filename) (extensions definition)).
Proof.
  unfold validateFile.
  destruct (Nat.eqb_spec (length buffer) 0) as [Hzero | _];
    [cbn [isValid]; split; [discriminate | lia] |].
  destruct (Nat.ltb_spec (length buffer) 8) as [Hshort | Hlen];
    [cbn [isValid]; split; [discriminate | lia] |].
  cbn [isValid]. split.
  - intros Hnil.
    apply Nat.eqb_eq, length_zero_iff_nil in Hnil.
    apply app_eq_nil in Hnil as [Hcontent Hnil].
    apply app_eq_nil in Hnil as [Hmime Hnil].
    apply app_eq_nil in Hnil as [_ Hcross].
    split; [exact Hlen |].
    unfold contentErrors in Hcontent.
    destruct (detectFileType buffer) as [t |] eqn:Hdetect; [| discriminate].
    destruct (includes allowedTypes t) eqn:Hallowed; [| discriminate].
    unfold crossErrors in Hcross. rewrite Hallowed in Hcross.
    destruct (definitionOf t) as [d |] eqn:Hdef.
    2:{ apply detectFileType_keys in Hdetect as [-> | [-> | ->]]; discriminate. }
    exists t, d. split; [reflexivity |]. split; [by apply includes_In |].
    split; [exact Hdef |].
    destruct (includes (mimeTypes d) (toLowerCase mimeType)) eqn:Hm; [| discriminate].
    split; [by apply includes_In |].
    destruct (String.eqb_spec (getExtension filename) "") as [-> | Hext]; [by left |].
    right. cbn [negb andb app] in Hcross.
    destruct (includes (extensions d) (getExtension filename)) eqn:He; [| discriminate].
    by apply includes_In.
  - intros (_ & t & d & Hdetect & Hallowed & Hdef & Hmime & Hext).
    rewrite Hdetect. unfold contentErrors, mimeErrors, extensionErrors, crossErrors.
    apply includes_In in Hallowed. apply includes_In in Hmime.
    rewrite Hallowed, Hdef, Hmime.
    assert (Hany : includes (flatMapDefinitions mimeTypes allowedTypes)
                     (toLowerCase mimeType) = true).
    { apply includes_In. unfold flatMapDefinitions. apply in_flat_map.
      exists t. split; [by apply includes_In |]. rewrite Hdef. by apply includes_In. }
    rewrite Hany.
    destruct (String.eqb_spec (getExtension filename) "") as [-> | Hne]; [reflexivity |].
    destruct Hext as [Hext | Hext]; [contradiction |].
    assert (Hany' : includes (flatMapDefinitions extensions allowedTypes)
                      (getExtension filename) = true).
    { apply includes_In. unfold flatMapDefinitions. apply in_flat_map.
      exists t. split; [by apply includes_In |]. by rewrite Hdef. }
    apply includes_In in Hext. rewrite Hany', Hext. reflexivity.
Qed.

(** X6.  What a valid result of [validateFile] means, and all it means:
    the buffer has at least eight bytes, its content is of one of the
    allowed types, the MIME type, in lower case, is one of the MIME types
    of that very type, and the extension of the name is absent or one of
    the extensions of that very type. *)
Theorem validateFile_valid_iff
    (buffer : list byte) (filename mimeType : string) (allowedTypes : list string) :
  isValid (validateFile buffer filename mimeType allowedTypes) = true <->
  8 <= length buffer
  /\ exists t definition,
       detectFileType buffer = Some t
       /\ In t allowedTypes
       /\ definitionOf t = Some definition
       /\ In (toLowerCase mimeType) (mimeTypes definition)
       /\ (getExtension filename = ""
           \/ In (getExtension filename) (extensions definition)).
Proof. apply validateFile_valid_spec. Qed.

(** X7.  [validatePdf] accepts exactly the uploads of at least eight bytes
    that begin with [%PDF-], are declared [application/pdf] in any case,
    and whose name has no extension or the extension [.pdf]: content that
    is not a PDF is refused whatever the declared type and the name. *)
Theorem validatePdf_valid_iff (buffer : list byte) (filename mimeType : string) :
  isValid (validatePdf buffer filename mimeType) = true <->
  8 <= length buffer
  /\ (exists rest, buffer = pdfSignature ++ rest)
  /\ toLowerCase mimeType = "application/pdf"
  /\ (getExtension filename = "" \/ getExtension filename = ".pdf").
Proof.
  unfold validatePdf. rewrite validateFile_valid_spec.
  pose proof (detectFileType_cases buffer) as (Hpdf & _).
  split.
  - intros (Hlen & t & d & Hdetect & [<- | []] & [= <-] & Hmime & Hext).
    cbn in Hmime, Hext. split; [exact Hlen |]. split; [by apply Hpdf |].
    split; [by destruct Hmime as [<- | []] |].
    destruct Hext as [? | [? | []]]; auto.
  - intros (Hlen & Hsig & Hmime & Hext). split; [exact Hlen |].
    eexists "pdf", _. split; [by apply Hpdf |]. split; [by left |].
    split; [reflexivity |]. cbn. rewrite Hmime. split; [by left |].
    destruct Hext as [-> | ->]; auto.
Qed.

(** X8.  [validateImage] accepts exactly the uploads of at least eight
    bytes that are a PNG by signature, MIME type and (if present)
    extension, or a JPEG by signature, MIME type and (if present)
    extension; PNG content under a JPEG name or type, and the reverse, is
    refused. *)
Theorem validateImage_valid_iff (buffer : list byte) (filename mimeType : string) :
  isValid (validateImage buffer filename mimeType) = true <->
  8 <= length buffer
  /\ ((exists rest, buffer = pngSignature ++ rest)
      /\ toLowerCase mimeType = "image/png"
      /\ (getExtension filename = "" \/ getExtension filename = ".png")
      \/
      (exists rest, buffer = jpegSignature ++ rest)
      /\ (toLowerCase mimeType = "image/jpeg" \/ toLowerCase mimeType = "image/jpg")
      /\ (getExtension filename = "" \/ getExtension filename = ".jpg"
          \/ getExtension filename = ".jpeg")).
Proof.
  unfold validateImage. rewrite validateFile_valid_spec.
  pose proof (detectFileType_cases buffer) as (_ & Hpng & Hjpeg & _).
  split.
  - intros (Hlen & t & d & Hdetect & [<- | [<- | []]] & [= <-] & Hmime & Hext);
      cbn in Hmime, Hext; (split; [exact Hlen |]).
    + left. split; [by apply Hpng |]. split; [by destruct Hmime as [<- | []] |].
      destruct Hext as [? | [? | []]]; auto.
    + right. split; [by apply Hjpeg |].
      split; [destruct Hmime as [<- | [<- | []]]; auto |].
      destruct Hext as [? | [? | [? | []]]]; auto.
  - intros (Hlen & [(Hsig & Hmime & Hext) | (Hsig & Hmime & Hext)]);
      (split; [exact Hlen |]).
    + eexists "png", _. split; [by apply Hpng |]. split; [cbn; auto |].
      split; [reflexivity |]. cbn. rewrite Hmime. split; [by left |].
      destruct Hext as [-> | ->]; auto.
    + eexists "jpeg", _. split; [by apply Hjpeg |]. split; [cbn; auto |].
      split; [reflexivity |]. cbn. split; [destruct Hmime as [-> | ->]; auto |].
      destruct Hext as [-> | [-> | ->]]; auto.
Qed.

End MagicBytes.

(** ** Extensions, letter case and text files *)

Section Extensions.
Import FileValidator Uploads.

Lemma lowerAscii_dot (c : ascii) : lowerAscii c = "."%char <-> c = "."%char.
Proof.
  destruct c as [[] [] [] [] [] [] [] []]; vm_compute; split; congruence.
Qed.

Lemma lowerAscii_idem (c : ascii) : lowerAscii (lowerAscii c) = lowerAscii c.
Proof. destruct c as [[] [] [] [] [] [] [] []]; reflexivity. Qed.

Lemma toLowerCase_idem (s : string) : toLowerCase (toLowerCase s) = toLowerCase s.
Proof.
  induction s as [| c s IH]; [reflexivity |].
  cbn [toLowerCase]. by rewrite lowerAscii_idem, IH.
Qed.

Lemma toLowerCase_length (s : string) : String.length (toLowerCase s) = String.length s.
Proof. induction s as [| c s IH]; [reflexivity |]. cbn. by rewrite IH. Qed.

Lemma lastIndexOf_lower (s : string) :
  lastIndexOf "." (toLowerCase s) = lastIndexOf "." s.
Proof.
  induction s as [| c s IH]; [reflexivity |].
  cbn [toLowerCase lastIndexOf]. rewrite IH.
  destruct (lastIndexOf "." s); [reflexivity |].
  destruct (Ascii.eqb_spec c ".") as [-> | Hne]; [reflexivity |].
  destruct (Ascii.eqb_spec (lowerAscii c) ".") as [Heq | _]; [| reflexivity].
  apply (proj1 (lowerAscii_dot c)) in Heq. contradiction.
Qed.

Lemma substringFrom_lower (n : nat) (s : string) :
  substringFrom n (toLowerCase s) = toLowerCase (substringFrom n s).
Proof.
  revert s. induction n as [| n IH]; intros [| c s]; cbn; auto.
Qed.

Lemma getExtension_lower (filename : string) :
  getExtension (toLowerCase filename) = getExtension filename.
Proof.
  unfold getExtension. rewrite lastIndexOf_lower, toLowerCase_length.
  destruct (lastIndexOf "." filename) as [lastDot |]; [| reflexivity].
  destruct (lastDot =? String.length filename - 1); [reflexivity |].
  by rewrite substringFrom_lower, toLowerCase_idem.
Qed.

(** X9.  File names that differ only in the case of their ASCII letters
    are validated alike: the whole result of [validateFile], errors
    included, is the same. *)
Theorem validateFile_ignores_name_case
    (buffer : list byte) (name1 name2 mimeType : string) (allowedTypes : list string) :
  toLowerCase name1 = toLowerCase name2 ->
  validateFile buffer name1 mimeType allowedTypes
  = validateFile buffer name2 mimeType allowedTypes.
Proof.
  intros Hsame.
  assert (Hext : getExtension name1 = getExtension name2)
    by (by rewrite <- (getExtension_lower name1), Hsame, getExtension_lower).
  unfold validateFile. by rewrite Hext.
Qed.

Lemma lastIndexOf_before_dotFree (stem ext : string) :
  Js.dotFree ext ->
  lastIndexOf "." (stem +:+ String "." ext) = Some (String.length stem).
Proof.
  intros Hfree. induction stem as [| c stem IH].
  - change (lastIndexOf "." ("" +:+ String "." ext))
      with (match lastIndexOf "." ext with
            | Some i => Some (S i)
            | None => if Ascii.eqb "." "." then Some 0 else None
            end).
    rewrite (lastIndexOf_dotFree _ Hfree). reflexivity.
  - change (lastIndexOf "." (String c stem +:+ String "." ext))
      with (match lastIndexOf "." (stem +:+ String "." ext) with
            | Some i => Some (S i)
            | None => if Ascii.eqb c "." then Some 0 else None
            end).
    by rewrite IH.
Qed.

Lemma substringFrom_append (stem rest : string) :
  substringFrom (String.length stem) (stem +:+ rest) = rest.
Proof.
  induction stem as [| c stem IH]; [by destruct rest |]. exact IH.
Qed.

Lemma length_append_string (a b : string) :
  String.length (a +:+ b) = String.length a + String.length b.
Proof.
  induction a as [| c a IH]; [reflexivity |].
  change (String.length (String c a +:+ b)) with (S (String.length (a +:+ b))).
  by rewrite IH.
Qed.

(** X10.  The extension of [stem.ext], where [ext] is not empty, has no
    dot and consists of ASCII characters, is [.ext] with its letters in
    lower case, whatever dots and other characters the stem holds. *)
Theorem getExtension_of_dotted_name (stem ext : string) :
  ext <> "" ->
  Js.dotFree ext ->
  Js.asciiOnly ext ->
  getExtension (stem +:+ "." +:+ ext) = "." +:+ toLowerCase ext.
Proof.
  intros Hne Hfree _. unfold getExtension.
  change ("." +:+ ext) with (String "." ext).
  rewrite (lastIndexOf_before_dotFree _ _ Hfree), length_append_string.
  destruct ext as [| e ext]; [contradiction |].
  cbn [String.length].
  destruct (Nat.eqb_spec (String.length stem)
              (String.length stem + S (S (String.length ext)) - 1)); [lia |].
  rewrite substringFrom_append. reflexivity.
Qed.

Lemma hasNullByte_spec (buffer : list byte) :
  hasNullByte buffer = false <-> Forall (fun b => b <> x00) (firstn 1000 buffer).
Proof.
  unfold hasNullByte.
  replace (firstn (Nat.min (length buffer) 1000) buffer) with (firstn 1000 buffer).
  2:{ destruct (Nat.le_ge_cases (length buffer) 1000) as [Hle | Hge].
      - rewrite Nat.min_l by done. by rewrite !firstn_all2 by lia.
      - by rewrite Nat.min_r by done. }
  induction (firstn 1000 buffer) as [| b l IH]; cbn [existsb].
  - split; [constructor | reflexivity].
  - rewrite orb_false_iff, IH, Forall_cons. split.
    + intros [Hb Hl]. split; [| exact Hl]. intros ->.
      rewrite (proj2 (byte_eqb_true x00 x00) eq_refl) in Hb. discriminate.
    + intros [Hb Hl]. split; [| exact Hl].
      destruct (Byte.eqb x00 b) eqn:E; [| reflexivity].
      apply byte_eqb_true in E. congruence.
Qed.

(** X11.  [validateText] accepts exactly the uploads declared
    [text/plain], in exactly this spelling, whose name has the extension
    [.txt] and whose first 1000 bytes hold no zero byte; the bytes after
    them are not looked at, and an empty file passes. *)
Theorem validateText_valid_iff (buffer : list byte) (filename mimeType : string) :
  textIsValid (validateText buffer filename mimeType) = true <->
  mimeType = "text/plain"
  /\ getExtension filename = ".txt"
  /\ Forall (fun b => b <> x00) (firstn 1000 buffer).
Proof.
  unfold validateText. cbn [textIsValid].
  rewrite <- hasNullByte_spec.
  destruct (String.eqb_spec mimeType "text/plain");
    destruct (String.eqb_spec (getExtension filename) ".txt");
    destruct (hasNullByte buffer); cbn; split; try discriminate; try tauto;
    intros (? & ? & ?); congruence.
Qed.

End Extensions.

Lemma validateFile_ignores_name_case_witness :
  FileValidator.validateFile [x25; x50; x44; x46; x2d; x31; x2e; x34]
    "REPORT.Pdf" "application/pdf" ["pdf"]
  = FileValidator.validateFile [x25; x50; x44; x46; x2d; x31; x2e; x34]
      "report.pdf" "application/pdf" ["pdf"].
Proof.
  apply (validateFile_ignores_name_case _ "REPORT.Pdf" "report.pdf"). reflexivity.
Defined.

Lemma getExtension_of_dotted_name_witness :
  FileValidator.getExtension ("archive.tar" +:+ "." +:+ "GZ") = "." +:+ "gz".
Proof.
  apply (getExtension_of_dotted_name "archive.tar" "GZ").
  - discriminate.
  - cbn. repeat split; discriminate.
  - cbn [Js.asciiOnly]. repeat split; apply Nat.ltb_lt; reflexivity.
Defined.

(** ** The guards of the routes *)

Section RouteGuards.
Import DosProtection.

(** Of the DoS chain only the size check and the limiter answer a
    request themselves; the size check comes first, so a declared length
    over the limit is answered 413 even for a client at its cap; a chain
    that answers leaves the counters as they were; and a chain that passes
    the request on has raised the count of its client by one. *)
Lemma dos_chain_outcomes (config : PartialConfig) (req : Routes.Request)
    (m : gmap string nat) :
  let final := mergeConfig config in
  Routes.runGuards (dosProtection config) req m =
    if (maxBodySize final <? Routes.contentLength req)%N then (Some 413, m)
    else if maxConcurrentPerIp final <=? getCount (Routes.clientIp req) m
         then (Some 429, m)
         else (None, <[Routes.clientIp req :=
                         getCount (Routes.clientIp req) m + 1]> m).
Proof.
  cbn zeta. unfold dosProtection.
  cbn [Routes.runGuards Routes.runGuard].
  destruct (maxBodySize (mergeConfig config) <? Routes.contentLength req)%N;
    [reflexivity |].
  unfold concurrentRequestLimiter.
  destruct (maxConcurrentPerIp (mergeConfig config)
            <=? getCount (Routes.clientIp req) m); reflexivity.
Qed.

End RouteGuards.

Section ImagesRoute.
Import Uploads.

Variable decodePng : list byte -> Result string (N * N).
Variable decodeJpg : list byte -> Result string (N * N).
Variable save : ImageToPdf.PDFDocument -> Result string (list byte).

(** X12.  [validateImages] returns without throwing exactly for the
    non-empty lists in which every image has at least one byte and the MIME
    type [image/png] or [image/jpeg], in exactly these spellings. *)
Theorem validateImages_passes_iff (images : list ImageToPdf.ImageData) :
  ImageToPdf.validateImages images = Ok tt <->
  images <> []
  /\ Forall (fun image =>
               ImageToPdf.buffer image <> []
               /\ (ImageToPdf.mimetype image = "image/png"
                   \/ ImageToPdf.mimetype image = "image/jpeg"))
            images.
Proof.
  assert (Hformat : forall m, ImageToPdf.isValidImageFormat m = true <->
                              m = "image/png" \/ m = "image/jpeg").
  { intros m. unfold ImageToPdf.isValidImageFormat.
    rewrite orb_true_iff, !String.eqb_eq. tauto. }
  unfold ImageToPdf.validateImages. destruct images as [| image images].
  - split; [discriminate | intros [[] _]; reflexivity].
  - split.
    + intros H. split; [discriminate |].
      apply validateEach_passes_inv in H.
      eapply Forall_impl; [exact H |]. intros x [? ?]. split; [done | by apply Hformat].
    + intros [_ H]. apply validateEach_passes.
      eapply Forall_impl; [exact H |]. intros x [? ?]. split; [done | by apply Hformat].
Qed.

(** X13.  Files that got through the upload filter and through
    [validateImageUploads] cannot make the handler's own [validateImages]
    throw: the answer of the [/images-to-pdf] route to them is the PDF, or
    the error of [convertImagesToPdf]. *)
Theorem image_route_after_guards (files : list Routes.UploadedFile) :
  files <> [] ->
  uploadArray files = Ok files ->
  validateImageUploads files = None ->
  ImageToPdf.validateImages (map toImageData files) = Ok tt
  /\ postImagesToPdf decodePng decodeJpg save files =
       match ImageToPdf.convertImagesToPdf decodePng decodeJpg save
               (map toImageData files) with
       | Ok pdfBuffer => ImagesPdf pdfBuffer
       | Err message => ImagesError message
       end.
Proof.
  intros Hne Hupload Hvalid.
  assert (Hfilter : forallb imageFileFilter files = true).
  { unfold uploadArray in Hupload.
    destruct (forallb imageFileFilter files); [reflexivity | discriminate]. }
  assert (Hall : Forall (fun file =>
                   FileValidator.isValid
                     (FileValidator.validateImage (Routes.buffer file)
                        (Routes.originalname file) (Routes.mimetype file)) = true)
                 files).
  { unfold validateImageUploads in Hvalid.
    destruct files as [| file files']; [contradiction |].
    match type of Hvalid with
    | context [List.filter ?f ?l] =>
        destruct (List.filter f l) as [| bad rest] eqn:Hfiltered
    end; [| discriminate].
    apply Forall_forall. intros x Hin. apply list_elem_of_In in Hin.
    destruct (FileValidator.isValid _) eqn:Hx; [reflexivity |].
    assert (Hbad : In x []).
    { rewrite <- Hfiltered. apply filter_In. split; [exact Hin |]. by rewrite Hx. }
    destruct Hbad. }
  assert (Hpass : ImageToPdf.validateImages (map toImageData files) = Ok tt).
  { unfold ImageToPdf.validateImages.
    destruct files as [| file files']; [contradiction |].
    cbn [map]. change (toImageData file :: map toImageData files')
      with (map toImageData (file :: files')).
    apply validateEach_passes. apply Forall_map.
    rewrite forallb_forall in Hfilter.
    apply Forall_forall. intros x Hin. split.
    - eapply Forall_forall in Hall; eauto.
      cbn [toImageData ImageToPdf.buffer].
      unfold FileValidator.validateImage, FileValidator.validateFile in Hall.
      destruct (Routes.buffer x); [discriminate | discriminate].
    - apply list_elem_of_In in Hin. apply Hfilter in Hin. exact Hin. }
  split; [exact Hpass |].
  unfold postImagesToPdf. rewrite Hupload, Hvalid. unfold imagesToPdfHandler.
  destruct files as [| file files']; [contradiction |].
  rewrite Hpass. reflexivity.
Qed.

End ImagesRoute.

Lemma image_route_after_guards_witness :
  ImageToPdf.validateImages (map Uploads.toImageData [MoreSamples.uploadA]) = Ok tt
  /\ Uploads.postImagesToPdf Samples.decodePngSample Samples.decodeJpgSample
       Samples.saveSample [MoreSamples.uploadA]
     = match ImageToPdf.convertImagesToPdf Samples.decodePngSample
               Samples.decodeJpgSample Samples.saveSample
               (map Uploads.toImageData [MoreSamples.uploadA]) with
       | Ok pdfBuffer => Uploads.ImagesPdf pdfBuffer
       | Err message => Uploads.ImagesError message
       end.
Proof.
  apply (image_route_after_guards Samples.decodePngSample Samples.decodeJpgSample
           Samples.saveSample [MoreSamples.uploadA]).
  - discriminate.
  - reflexivity.
  - reflexivity.
Defined.

(** ** The page estimate *)

Section PageEstimate.
Import DosProtection.

Lemma firstn_min_length {A} (l : list A) (n : nat) :
  firstn (Nat.min (length l) n) l = firstn n l.
Proof.
  destruct (Nat.le_ge_cases (length l) n) as [Hle | Hge].
  - rewrite Nat.min_l by done. by rewrite !firstn_all2 by lia.
  - by rewrite Nat.min_r by done.
Qed.

(** X14.  Only the first 1 MiB of the buffer counts: two buffers of at
    least five bytes that agree on their first 1048576 bytes get the same
    result, whatever follows.  Page markers and [/Count] entries beyond
    that point are not seen. *)
Theorem validatePdfComplexity_reads_leading_window
    (buffer1 buffer2 : list byte) (maxPages : N) :
  5 <= length buffer1 ->
  5 <= length buffer2 ->
  firstn leadingWindow buffer1 = firstn leadingWindow buffer2 ->
  validatePdfComplexity buffer1 maxPages = validatePdfComplexity buffer2 maxPages.
Proof.
  intros H1 H2 Hsame. unfold validatePdfComplexity, Js.toStringUtf8.
  destruct (Nat.ltb_spec (length buffer1) 5); [lia |].
  destruct (Nat.ltb_spec (length buffer2) 5); [lia |].
  generalize dependent leadingWindow. intros window Hsame.
  by rewrite !firstn_min_length, Hsame.
Qed.

Lemma estimatedPages_positive (content : Js.CodeUnits) : (1 <= estimatedPages content)%N.
Proof. unfold estimatedPages. destruct (countPageMarkers 0 content); lia. Qed.

(** X15.  A result of [validatePdfComplexity] is valid only for a buffer
    of at least five bytes and then reports a page count between 1 and the
    limit; every result that is not valid carries an error; so with a limit
    of 0 no buffer is valid. *)
Theorem validatePdfComplexity_result (pdfBuffer : list byte) (maxPages : N) :
  let result := validatePdfComplexity pdfBuffer maxPages in
  (valid result = true ->
     5 <= length pdfBuffer
     /\ error result = None
     /\ exists n, pageCount result = Some n /\ (1 <= n <= maxPages)%N)
  /\ (valid result = false -> error result <> None)
  /\ (maxPages = 0%N -> valid result = false).
Proof.
  cbn zeta. unfold validatePdfComplexity.
  destruct (Nat.ltb_spec (length pdfBuffer) 5).
  - cbn. repeat split; try discriminate.
  - set (content := Js.toStringUtf8 _ _).
    pose proof (estimatedPages_positive content) as Hpos.
    destruct (N.ltb_spec maxPages
                (N.max (estimatedPages content) (metadataPageCount content)));
      cbn [valid error pageCount].
    + repeat split; try discriminate.
    + split; [| split].
      * intros _. split; [done |]. split; [reflexivity |].
        eexists. split; [reflexivity |]. lia.
      * discriminate.
      * intros ->. lia.
Qed.

End PageEstimate.

Lemma validatePdfComplexity_reads_leading_window_witness :
  DosProtection.validatePdfComplexity (MoreSamples.padded ++ MoreSamples.lateMarkers) 100
  = DosProtection.validatePdfComplexity MoreSamples.padded 100.
Proof.
  assert (Hlen : length MoreSamples.padded = 5 + DosProtection.leadingWindow).
  { unfold MoreSamples.padded. rewrite length_app, repeat_length. reflexivity. }
  apply (validatePdfComplexity_reads_leading_window
           (MoreSamples.padded ++ MoreSamples.lateMarkers) MoreSamples.padded 100).
  - rewrite length_app, Hlen. lia.
  - rewrite Hlen. lia.
  - apply take_app_le. rewrite Hlen. lia.
Defined.

(** ** More on the image walk and the codec bridge *)

Section WalkFacts.
Import PdfConverter.

Variable getDocument : list byte -> Result string PDFDocumentProxy.
Variable convertPageToImage : PDFPageProxy -> string -> Q -> Q -> Result string (list byte).
Variable createCanvas : N -> N -> Result string unit.
Variable createImageData : N -> N -> Result string (list byte).
Variable encodePng : N -> N -> list byte -> Result string (list byte).

Let walkStep := walkStep createCanvas createImageData encodePng.
Let walk := walk createCanvas createImageData encodePng.
Let extractImagesFromPage := extractImagesFromPage createCanvas createImageData encodePng.
Let convertImageObjToBuffer := convertImageObjToBuffer createCanvas createImageData encodePng.

(** The state of a walk that is numbered without gaps and has taken at
    most [budget] instructions' worth of images and log entries. *)
Let inOrder (pageNum budget : nat) (st : WalkState) : Prop :=
  wsImageIndex st = S (length (wsImages st))
  /\ (forall k img, wsImages st !! k = Some img ->
        filename img = imageName pageNum (S k) (format img))
  /\ length (wsImages st) + length (wsLog st) <= budget.

Lemma walkStep_inOrder page pageNum ol i budget st :
  inOrder pageNum budget st -> inOrder pageNum (S budget) (walkStep page pageNum ol st i).
Proof.
  intros (Hidx & Hnames & Hbudget). unfold walkStep, PdfConverter.walkStep.
  assert (Hsame : inOrder pageNum (S budget) st)
    by (split; [exact Hidx | split; [exact Hnames | lia]]).
  destruct (fnArray ol !! i) as [op |]; [| exact Hsame].
  destruct (isPaintImage op); [| exact Hsame].
  destruct (paintOutcome _ _ _ _ _) as [b f | | m]; [| exact Hsame |].
  - split; [| split]; cbn [wsImages wsImageIndex wsLog].
    + rewrite length_app, Hidx. cbn. lia.
    + intros k img Hk. apply lookup_app_Some in Hk as [Hk | [Hge Hk]];
        [by apply Hnames |].
      apply list_lookup_singleton_Some in Hk as [Hzero <-].
      cbn [filename format]. rewrite Hidx.
      by replace (S k) with (S (length (wsImages st))) by lia.
    + rewrite length_app. cbn. lia.
  - split; [| split]; cbn [wsImages wsImageIndex wsLog]; [exact Hidx | exact Hnames |].
    rewrite length_app. cbn. lia.
Qed.

Lemma walk_inOrder page pageNum ol (l : list nat) :
  forall budget st,
    inOrder pageNum budget st ->
    inOrder pageNum (budget + length l) (walk page pageNum ol l st).
Proof.
  induction l as [| i l IH]; intros budget st H.
  - by rewrite Nat.add_0_r.
  - cbn [walk PdfConverter.walk fold_left length].
    replace (budget + S (length l)) with (S budget + length l) by lia.
    apply IH. by apply walkStep_inOrder.
Qed.

(** X16.  The images a page yields are numbered 1, 2, 3, ... in the order
    of the walk, without a gap where an instruction failed: the name of the
    k-th image (counting from 0) is [page-N-image-(k+1).format] with its
    own format; and images and log entries together are at most as many as
    the page has instructions. *)
Theorem extracted_images_numbered (page : PDFPageProxy) (pageNum : nat)
    (operatorList : OperatorList) :
  getOperatorList page = Ok operatorList ->
  exists imgs log,
    extractImagesFromPage page pageNum = (Ok imgs, log)
    /\ (forall k img, imgs !! k = Some img ->
          filename img = imageName pageNum (S k) (format img))
    /\ length imgs + length log <= length (fnArray operatorList).
Proof.
  intros Hol. unfold extractImagesFromPage, PdfConverter.extractImagesFromPage.
  rewrite Hol. eexists _, _. split; [reflexivity |].
  assert (Hstart : inOrder pageNum 0 walkStart).
  { split; [reflexivity |]. split; [| cbn; lia]. intros k img Hk. discriminate. }
  pose proof (walk_inOrder page pageNum operatorList
                (seq 0 (length (fnArray operatorList))) 0 walkStart Hstart)
    as (_ & Hnames & Hbudget).
  rewrite length_seq in Hbudget. split; [exact Hnames | exact Hbudget].
Qed.

Lemma walk_no_paint page pageNum ol (l : list nat) st :
  Forall (fun op => isPaintImage op = false) (fnArray ol) ->
  walk page pageNum ol l st = st.
Proof.
  intros Hnone. revert st. induction l as [| i l IH]; intros st; [reflexivity |].
  cbn [walk PdfConverter.walk fold_left].
  replace (PdfConverter.walkStep createCanvas createImageData encodePng
             page pageNum ol st i) with st; [apply IH |].
  unfold PdfConverter.walkStep.
  destruct (fnArray ol !! i) as [op |] eqn:Hop; [| reflexivity].
  eapply Forall_lookup in Hnone; eauto. by rewrite Hnone.
Qed.

(** X17.  A page without paint-image instructions yields no image and no
    log entry, and its only archive entry is its text file: it gets no
    images folder. *)
Theorem page_without_images (page : PDFPageProxy) (pageNum : nat)
    (operatorList : OperatorList) (text : string) :
  getOperatorList page = Ok operatorList ->
  Forall (fun op => isPaintImage op = false) (fnArray operatorList) ->
  extractImagesFromPage page pageNum = (Ok [], [])
  /\ map Routes.name
       (Routes.pageEntries {| pageNumber := pageNum; textContent := text; images := [] |})
     = ["page-" +:+ showNat pageNum +:+ ".txt"].
Proof.
  intros Hol Hnone. split; [| reflexivity].
  unfold extractImagesFromPage, PdfConverter.extractImagesFromPage. rewrite Hol.
  fold (walk page pageNum operatorList). by rewrite walk_no_paint.
Qed.

(** X18.  Whatever [convertImageObjToBuffer] returns is tagged [jpg] or
    [png]; what is tagged [jpg] is the bytes of the resource themselves,
    they begin with FF D8, and the type detection of the DOCX service calls
    them [jpg] too. *)
Theorem converted_image_tags (imageObj : ImageObj) (bytes : list byte) (tag : string) :
  convertImageObjToBuffer imageObj = Ok (bytes, tag) ->
  (tag = "jpg" \/ tag = "png")
  /\ (tag = "jpg" ->
        data imageObj = Some bytes
        /\ (exists rest, bytes = xff :: xd8 :: rest)
        /\ PdfToDocx.detectImageType bytes = "jpg").
Proof.
  unfold convertImageObjToBuffer, PdfConverter.convertImageObjToBuffer.
  destruct (createCanvas _ _) as [e | []]; [discriminate |]. cbn [bindR].
  destruct (data imageObj) as [d |] eqn:Hdata.
  - destruct ((kind imageObj =? 1)%N && startsWithSoi d) eqn:Hpass.
    + cbn. intros [= <- <-]. split; [by left |]. intros _.
      apply andb_true_iff in Hpass as [_ Hsoi].
      destruct d as [| b0 [| b1 rest]]; try discriminate.
      cbn in Hsoi. apply andb_true_iff in Hsoi as [H0 H1].
      apply byte_eqb_true in H0 as ->. apply byte_eqb_true in H1 as ->.
      split; [reflexivity |]. split; [by exists rest |].
      by destruct rest as [| b2 [| b3 rest]].
    + destruct (createImageData _ _); [discriminate |]. cbn [bindR].
      destruct (encodePng _ _ _); [discriminate |]. cbn [bindR].
      intros [= <- <-]. split; [by right | discriminate].
  - destruct (createImageData _ _); [discriminate |]. cbn [bindR].
    destruct (encodePng _ _ _); [discriminate |]. cbn [bindR].
    intros [= <- <-]. split; [by right | discriminate].
Qed.

End WalkFacts.

Lemma extracted_images_numbered_witness :
  exists imgs log,
    PdfConverter.extractImagesFromPage Samples.canvasNonEmpty Samples.blankImageData
      Samples.pngOf Samples.mixedPage 1 = (Ok imgs, log)
    /\ (forall k img, imgs !! k = Some img ->
          PdfConverter.filename img
          = PdfConverter.imageName 1 (S k) (PdfConverter.format img))
    /\ length imgs + length log <= 4.
Proof.
  exact (extracted_images_numbered Samples.canvasNonEmpty Samples.blankImageData
           Samples.pngOf Samples.mixedPage 1 _ eq_refl).
Defined.

Lemma page_without_images_witness :
  PdfConverter.extractImagesFromPage Samples.canvasNonEmpty Samples.blankImageData
    Samples.pngOf MoreSamples.textOnlyPage 3 = (Ok [], [])
  /\ map Routes.name
       (Routes.pageEntries
          {| PdfConverter.pageNumber := 3; PdfConverter.textContent := "Summary";
             PdfConverter.images := [] |})
     = ["page-" +:+ PdfConverter.showNat 3 +:+ ".txt"].
Proof.
  apply (page_without_images Samples.canvasNonEmpty Samples.blankImageData
           Samples.pngOf MoreSamples.textOnlyPage 3 _ "Summary" eq_refl).
  repeat constructor.
Defined.

Lemma converted_image_tags_witness :
  ("jpg" = "jpg" \/ "jpg" = "png")
  /\ ("jpg" = "jpg" ->
        PdfConverter.data Samples.soiKind1 = Some Samples.soiBytes
        /\ (exists rest, Samples.soiBytes = xff :: xd8 :: rest)
        /\ PdfToDocx.detectImageType Samples.soiBytes = "jpg").
Proof.
  apply (converted_image_tags Samples.canvasOk Samples.blankImageData Samples.pngOf
           Samples.soiKind1 Samples.soiBytes "jpg").
  reflexivity.
Defined.

(** ** The pixel copy *)

Section PixelCopy.
Import PdfConverter.

Lemma copyPixel_length (srcData dest : list byte) (i : nat) :
  length (copyPixel srcData dest i) = length dest.
Proof. unfold copyPixel. by rewrite !length_insert. Qed.

Lemma copyPixels_length (rounds : nat) :
  forall i srcData dest, length (copyPixels rounds i srcData dest) = length dest.
Proof.
  induction rounds as [| rounds IH]; intros i srcData dest; [reflexivity |].
  cbn [copyPixels]. by rewrite IH, copyPixel_length.
Qed.

(** Inside both arrays, one round copies four bytes and leaves the
    others. *)
Lemma copyPixel_lookup (srcData dest : list byte) (i j : nat) :
  i + 4 <= length srcData ->
  length dest = length srcData ->
  copyPixel srcData dest i !! j =
    if (i <=? j) && (j <? i + 4) then srcData !! j else dest !! j.
Proof.
  intros Hsrc Hlen. unfold copyPixel.
  assert (Hget : forall k, k < length srcData ->
            Some (default x00 (srcData !! k)) = srcData !! k
            /\ Some (default xff (srcData !! k)) = srcData !! k).
  { intros k Hk. destruct (lookup_lt_is_Some_2 srcData k Hk) as [x ->]. by split. }
  destruct (Nat.leb_spec i j); destruct (Nat.ltb_spec j (i + 4)); cbn [andb].
  - assert (j = i \/ j = i + 1 \/ j = i + 2 \/ j = i + 3) as [-> | [-> | [-> | ->]]] by lia.
    + rewrite !list_lookup_insert_ne by lia.
      rewrite list_lookup_insert_eq by lia. apply Hget. lia.
    + rewrite !list_lookup_insert_ne by lia.
      rewrite list_lookup_insert_eq by (rewrite ?length_insert; lia). apply Hget. lia.
    + rewrite list_lookup_insert_ne by lia.
      rewrite list_lookup_insert_eq by (rewrite ?length_insert; lia). apply Hget. lia.
    + rewrite list_lookup_insert_eq by (rewrite ?length_insert; lia). apply Hget. lia.
  - by rewrite !list_lookup_insert_ne by lia.
  - by rewrite !list_lookup_insert_ne by lia.
  - by rewrite !list_lookup_insert_ne by lia.
Qed.

Lemma copyPixels_lookup (rounds : nat) :
  forall i srcData dest j,
    i + 4 * rounds <= length srcData ->
    length dest = length srcData ->
    copyPixels rounds i srcData dest !! j =
      if (i <=? j) && (j <? i + 4 * rounds) then srcData !! j else dest !! j.
Proof.
  induction rounds as [| rounds IH]; intros i srcData dest j Hsrc Hlen.
  - cbn [copyPixels]. destruct (Nat.leb_spec i j); destruct (Nat.ltb_spec j (i + 4 * 0));
      cbn [andb]; try reflexivity; lia.
  - cbn [copyPixels]. rewrite IH by (rewrite ?copyPixel_length; lia).
    rewrite copyPixel_lookup by lia.
    destruct (Nat.leb_spec (i + 4) j); destruct (Nat.ltb_spec j (i + 4 + 4 * rounds));
      destruct (Nat.leb_spec i j); destruct (Nat.ltb_spec j (i + 4));
      destruct (Nat.ltb_spec j (i + 4 * S rounds)); cbn [andb]; try reflexivity; lia.
Qed.

(** X19.  The pixel copy never changes the size of the canvas array; and
    when the resource holds whole four-byte pixels and as many bytes as the
    canvas array, the copy makes the canvas array equal to the resource
    data, byte for byte. *)
Theorem pixel_copy_is_exact (srcData dest : list byte) :
  length (copyPixels (Nat.div (length srcData + 3) 4) 0 srcData dest) = length dest
  /\ (length dest = length srcData ->
      Nat.modulo (length srcData) 4 = 0 ->
      copyPixels (Nat.div (length srcData + 3) 4) 0 srcData dest = srcData).
Proof.
  split; [apply copyPixels_length |].
  intros Hlen Hmod.
  assert (Hrounds : 4 * Nat.div (length srcData + 3) 4 = length srcData).
  { pose proof (Nat.div_mod_eq (length srcData) 4) as Hdiv.
    pose proof (Nat.div_mod_eq (length srcData + 3) 4) as Hdiv3.
    pose proof (Nat.mod_upper_bound (length srcData + 3) 4) as Hup.
    lia. }
  apply list_eq. intros j.
  rewrite copyPixels_lookup by lia. rewrite Hrounds. cbn [Nat.add Nat.leb andb].
  destruct (Nat.ltb_spec j (length srcData)); [reflexivity |].
  rewrite !lookup_ge_None_2 by lia. reflexivity.
Qed.

End PixelCopy.

Lemma pixel_copy_is_exact_witness :
  PdfConverter.copyPixels 2 0 [x01; x02; x03; x04; x05; x06; x07; x08]
    [x00; x00; x00; x00; x00; x00; x00; x00]
  = [x01; x02; x03; x04; x05; x06; x07; x08].
Proof.
  apply (proj2 (pixel_copy_is_exact [x01; x02; x03; x04; x05; x06; x07; x08]
                  [x00; x00; x00; x00; x00; x00; x00; x00])); reflexivity.
Defined.

(** ** Conversion is all or nothing *)

Section AllPagesOrNone.
Import PdfConverter.

Variable getDocument : list byte -> Result string PDFDocumentProxy.
Variable convertPageToImage : PDFPageProxy -> string -> Q -> Q -> Result string (list byte).

(** Page [k] of the document, rendered, is the converted page [cp]. *)
Let rendered (pdfDoc : PDFDocumentProxy) (format : string) (scale quality : Q)
    (k : nat) (cp : ConvertedPage) : Prop :=
  cpPageNumber cp = k
  /\ cpFilename cp = "page-" +:+ showNat k +:+ "." +:+ format
  /\ exists page,
       getPage pdfDoc k = Ok page
       /\ convertPageToImage page format scale quality = Ok (cpBuffer cp).

Lemma convertPages_iff pdfDoc format scale quality remaining :
  forall pageNum acc pages,
    convertPages convertPageToImage pdfDoc format scale quality remaining pageNum acc
      = Ok pages
    <-> exists new,
          pages = acc ++ new
          /\ Forall2 (rendered pdfDoc format scale quality) (seq pageNum remaining) new.
Proof.
  induction remaining as [| r IH]; intros pageNum acc pages; cbn [convertPages seq].
  - split.
    + intros [= <-]. exists []. split; [by rewrite app_nil_r | constructor].
    + intros (new & -> & Hnew). apply Forall2_nil_inv_l in Hnew as ->.
      by rewrite app_nil_r.
  - split.
    + destruct (getPage pdfDoc pageNum) as [e | page] eqn:Hpage; [discriminate |].
      cbn [bindR].
      destruct (convertPageToImage page format scale quality) as [e | img] eqn:Himg;
        [discriminate |].
      cbn [bindR]. intros H. apply IH in H as (new & -> & Hnew).
      eexists (_ :: new). split; [by rewrite <- app_assoc |].
      constructor; [| exact Hnew].
      split; [reflexivity |]. split; [reflexivity |]. exists page. by split.
    + intros (new & -> & Hnew).
      apply Forall2_cons_inv_l in Hnew
        as (cp & new' & (Hnum & Hname & page & Hpage & Himg) & Hnew & ->).
      rewrite Hpage. cbn [bindR]. rewrite Himg. cbn [bindR].
      apply IH. exists new'. split; [| exact Hnew].
      rewrite <- app_assoc. cbn [app]. do 2 f_equal.
      destruct cp as [n b f]. cbn in *. by subst.
Qed.

Lemma prefix_append (p rest : string) : String.prefix p (p +:+ rest) = true.
Proof.
  induction p as [| c p IH]; [by destruct rest |].
  change (String.prefix (String c p) (String c (p +:+ rest)) = true).
  cbn [String.prefix]. destruct (Ascii.ascii_dec c c); [exact IH | contradiction].
Qed.

(** X20.  [convertPdfToImages] returns pages exactly when the document
    loads and every one of its pages, from 1 to the page count, can be
    fetched and rendered, and then returns one converted page per page with
    that rendering, in order; when it fails, for whichever page, no page is
    returned and the message begins "PDF conversion failed: ". *)
Theorem convert_all_pages_or_none
    (pdfBuffer : list byte) (format : string) (scale quality : option Q) :
  (forall pages,
     convertPdfToImages getDocument convertPageToImage pdfBuffer format scale quality
       = Ok pages
     <-> exists pdfDoc,
           getDocument pdfBuffer = Ok pdfDoc
           /\ Forall2 (rendered pdfDoc format (default defaultScale scale)
                         (default defaultQuality quality))
                      (seq 1 (numPages pdfDoc)) pages)
  /\ (forall message,
        convertPdfToImages getDocument convertPageToImage pdfBuffer format scale quality
          = Err message ->
        String.prefix "PDF conversion failed: " message = true).
Proof.
  split.
  - intros pages. unfold convertPdfToImages, loadPdfDocument.
    destruct (getDocument pdfBuffer) as [e | pdfDoc].
    + cbn. split; [discriminate | intros (? & [=] & _)].
    + cbn [bindR].
      pose proof (convertPages_iff pdfDoc format (default defaultScale scale)
                    (default defaultQuality quality) (numPages pdfDoc) 1 []) as Hloop.
      destruct (convertPages _ _ _ _ _ _ _ _) as [e | pages']; split.
      * discriminate.
      * intros (doc & [= <-] & Hall).
        assert (Hex : exists new, pages = [] ++ new
                        /\ Forall2 (rendered pdfDoc format (default defaultScale scale)
                                      (default defaultQuality quality))
                                   (seq 1 (numPages pdfDoc)) new) by eauto.
        apply Hloop in Hex. discriminate.
      * intros [= <-]. exists pdfDoc. split; [reflexivity |].
        destruct (proj1 (Hloop pages') eq_refl) as (new & -> & Hnew). exact Hnew.
      * intros (doc & [= <-] & Hall).
        assert (Hex : exists new, pages = [] ++ new
                        /\ Forall2 (rendered pdfDoc format (default defaultScale scale)
                                      (default defaultQuality quality))
                                   (seq 1 (numPages pdfDoc)) new) by eauto.
        apply Hloop in Hex. congruence.
  - intros message. unfold convertPdfToImages.
    destruct (bindR _ _); [| discriminate].
    intros [= <-]. apply prefix_append.
Qed.

End AllPagesOrNone.

(** ** More on the reconstructed document *)

Section DocumentBody.
Import PdfToDocx Measures.

Variable trim : string -> string.
Variable imageRunThrows : list byte -> string -> option string.

Let embedImages := embedImages imageRunThrows.
Let buildPages := buildPages trim imageRunThrows.
Let buildDocxContent := buildDocxContent trim imageRunThrows.
Let convertTextToParagraphs := convertTextToParagraphs trim.

Lemma countImageRuns_app (a b : list Paragraph) :
  countImageRuns (a ++ b) = countImageRuns a + countImageRuns b.
Proof.
  unfold countImageRuns. by rewrite flat_map_app, List.filter_app, length_app.
Qed.

Lemma splitLines_length (text : string) :
  length (splitLines text) = S (lineFeeds text).
Proof.
  induction text as [| c text IH]; [reflexivity |].
  cbn [splitLines lineFeeds].
  destruct (Ascii.eqb c (ascii_of_nat 10)); cbn [length]; [by rewrite IH |].
  destruct (splitLines text) as [| line lines]; [discriminate |].
  cbn [length] in *. lia.
Qed.

Lemma text_no_image text : countImageRuns (convertTextToParagraphs text) = 0.
Proof.
  unfold convertTextToParagraphs, PdfToDocx.convertTextToParagraphs.
  induction (splitLines text) as [| line lines IH]; [reflexivity |].
  change (map (lineParagraph trim) (line :: lines))
    with ([lineParagraph trim line] ++ map (lineParagraph trim) lines).
  rewrite countImageRuns_app, IH. unfold lineParagraph.
  by destruct (String.length (trim line) =? 0).
Qed.

(** X21.  The text of a page becomes one paragraph per line, blank lines
    included: a text with n line feeds gives n + 1 paragraphs, and none of
    them holds an image or a page break. *)
Theorem one_paragraph_per_line (text : string) :
  length (convertTextToParagraphs text) = S (lineFeeds text)
  /\ countImageRuns (convertTextToParagraphs text) = 0
  /\ countPageBreaks (convertTextToParagraphs text) = 0.
Proof.
  split; [| split].
  - unfold convertTextToParagraphs, PdfToDocx.convertTextToParagraphs.
    by rewrite length_map, splitLines_length.
  - apply text_no_image.
  - apply text_no_break.
Qed.






End DocumentBody.

(** ** Laying out text on pages *)

Section TextLayout.
Import TextToPdf Measures.

Variable widthOfTextAtSize : string -> Q -> Result string Q.
Variable drawTextThrows : string -> option string.
Variable trim : string -> string.

Let breakWords := TextToPdf.breakWords widthOfTextAtSize.
Let breakTextIntoLines := TextToPdf.breakTextIntoLines widthOfTextAtSize.
Let drawLines := TextToPdf.drawLines drawTextThrows.
Let drawParagraphs := TextToPdf.drawParagraphs widthOfTextAtSize drawTextThrows trim.
Let layoutText := TextToPdf.layoutText widthOfTextAtSize drawTextThrows trim.

Lemma splitOn_not_nil separator text : splitOn separator text <> [].
Proof.
  destruct text as [| c text]; cbn; [discriminate |].
  destruct (Ascii.eqb c separator); [discriminate |].
  destruct (splitOn separator text); discriminate.
Qed.

Lemma joinWith_cons separator line next lines :
  joinWith separator (line :: next :: lines)
  = line +:+ separator +:+ joinWith separator (next :: lines).
Proof. reflexivity. Qed.

Lemma append_assoc (a b c : string) : (a +:+ b) +:+ c = a +:+ b +:+ c.
Proof.
  induction a as [| x a IH]; [reflexivity |].
  exact (f_equal (String x) IH).
Qed.

Lemma joinWith_merge separator before x y after :
  joinWith separator (before ++ (x +:+ separator +:+ y) :: after)
  = joinWith separator (before ++ x :: y :: after).
Proof.
  induction before as [| line before IH].
  - rewrite !app_nil_l. rewrite (joinWith_cons separator x y after).
    destruct after as [| next after].
    + reflexivity.
    + rewrite !joinWith_cons, !append_assoc. reflexivity.
  - rewrite <- !app_comm_cons.
    destruct before as [| next before].
    + rewrite !app_nil_l in *. rewrite (joinWith_cons separator line x).
      rewrite <- IH. reflexivity.
    + rewrite <- !app_comm_cons in *. rewrite !joinWith_cons. rewrite <- IH. reflexivity.
Qed.

Lemma joinWith_splitOn separator text :
  joinWith (String separator EmptyString) (splitOn separator text) = text.
Proof.
  induction text as [| c text IH]; [reflexivity |].
  cbn [splitOn].
  destruct (Ascii.eqb_spec c separator) as [-> | Hc].
  - destruct (splitOn separator text) as [| field fields] eqn:E.
    + now apply splitOn_not_nil in E.
    + rewrite joinWith_cons, IH. reflexivity.
  - destruct (splitOn separator text) as [| field fields] eqn:E.
    + now apply splitOn_not_nil in E.
    + destruct fields as [| next fields].
      * cbn in IH |- *. now rewrite IH.
      * rewrite joinWith_cons in IH |- *. rewrite <- IH. reflexivity.
Qed.

Lemma breakWords_join words : forall lines currentLine size maxWidth out,
  breakWords words lines currentLine size maxWidth = Ok out ->
  joinWith " " out = joinWith " " (lines ++ currentLine :: words).
Proof.
  induction words as [| word words IH]; intros lines currentLine size maxWidth out H.
  - cbn in H. now injection H as <-.
  - cbn in H.
    destruct (widthOfTextAtSize (currentLine +:+ " " +:+ word) size) as [| width];
      [discriminate |].
    destruct (Qltb width maxWidth).
    + apply IH in H. rewrite H. apply joinWith_merge.
    + apply IH in H. rewrite H, <- app_assoc. reflexivity.
Qed.

Lemma breakTextIntoLines_join text size maxWidth lines :
  breakTextIntoLines text size maxWidth = Ok lines ->
  lines <> [] /\ joinWith " " lines = text.
Proof.
  unfold breakTextIntoLines, TextToPdf.breakTextIntoLines. intros H.
  destruct (String.eqb_spec text "") as [-> | Hne].
  - injection H as <-. split; [discriminate | reflexivity].
  - destruct (splitOn " " text) as [| first words] eqn:E.
    + now apply splitOn_not_nil in E.
    + split.
      * intros ->. apply breakWords_join in H.
        pose proof (joinWith_splitOn " " text) as J. rewrite E in J.
        cbn [app] in H. rewrite J in H. cbn in H. congruence.
      * apply breakWords_join in H. rewrite H. cbn [app]. rewrite <- E.
        apply joinWith_splitOn.
Qed.

(** X23.  The lines into which a paragraph is broken, joined by single
    spaces, are the paragraph: breaking moves no character and drops
    none. *)
Theorem breakTextIntoLines_round_trip text size maxWidth lines :
  breakTextIntoLines text size maxWidth = Ok lines ->
  lines <> [] /\ joinWith " " lines = text.
Proof. apply breakTextIntoLines_join. Qed.

Let fits (size maxWidth : Q) (line : string) : Prop :=
  exists width, widthOfTextAtSize line size = Ok width /\ (width < maxWidth)%Q.

Lemma Qltb_lt a b : Qltb a b = true <-> (a < b)%Q.
Proof.
  unfold Qltb. rewrite negb_true_iff. split.
  - intros H. apply Qnot_le_lt. intros Hle.
    apply Qle_bool_iff in Hle. congruence.
  - intros H. destruct (Qle_bool b a) eqn:E; [| reflexivity].
    apply Qle_bool_iff in E. exfalso. exact (Qlt_not_le _ _ H E).
Qed.

Lemma Qltb_ge a b : Qltb a b = false <-> (b <= a)%Q.
Proof.
  unfold Qltb. rewrite negb_false_iff. apply Qle_bool_iff.
Qed.

Lemma breakWords_fit (all : list string) size maxWidth words :
  forall lines currentLine out,
  breakWords words lines currentLine size maxWidth = Ok out ->
  Forall (fun line => In line all \/ fits size maxWidth line) lines ->
  In currentLine all \/ fits size maxWidth currentLine ->
  (forall word, In word words -> In word all) ->
  Forall (fun line => In line all \/ fits size maxWidth line) out.
Proof.
  induction words as [| word words IH]; intros lines currentLine out H Hlines Hcur Hall.
  - cbn in H. injection H as <-. apply Forall_app. split; [exact Hlines |].
    constructor; [exact Hcur | constructor].
  - cbn in H.
    destruct (widthOfTextAtSize (currentLine +:+ " " +:+ word) size) as [| width] eqn:W;
      [discriminate |].
    destruct (Qltb width maxWidth) eqn:L.
    + apply (IH _ _ _ H Hlines).
      * right. exists width. split; [exact W | now apply Qltb_lt].
      * intros w Hw. apply Hall. now right.
    + apply (IH _ _ _ H).
      * apply Forall_app. split; [exact Hlines |]. constructor; [exact Hcur | constructor].
      * left. apply Hall. now left.
      * intros w Hw. apply Hall. now right.
Qed.

(** X24.  Every line of a broken paragraph either measures less than the
    width it was broken for, or is a single word of the paragraph (a
    piece between two spaces): only a word that is too wide by itself
    sticks out. *)
Theorem broken_line_fits_or_is_one_word text size maxWidth lines :
  breakTextIntoLines text size maxWidth = Ok lines ->
  Forall (fun line => In line (splitOn " " text) \/ fits size maxWidth line) lines.
Proof.
  unfold breakTextIntoLines, TextToPdf.breakTextIntoLines. intros H.
  destruct (String.eqb_spec text "") as [-> | Hne].
  - injection H as <-. constructor; [| constructor]. left. now left.
  - destruct (splitOn " " text) as [| first words] eqn:E.
    + now apply splitOn_not_nil in E.
    + apply (breakWords_fit (first :: words)) in H; [exact H | constructor | |].
      * left. now left.
      * intros w Hw. now right.
Qed.

(** X25.  When the font measures every text, a paragraph is always broken:
    [breakTextIntoLines] fails only with an exception of the font. *)
Theorem breakTextIntoLines_returns text size maxWidth :
  (forall line, isOk (widthOfTextAtSize line size) = true) ->
  isOk (breakTextIntoLines text size maxWidth) = true.
Proof.
  intros Hfont. unfold breakTextIntoLines, TextToPdf.breakTextIntoLines.
  destruct (String.eqb text ""); [reflexivity |].
  destruct (splitOn " " text) as [| first words]; [reflexivity |].
  generalize (@nil string) as lines. revert first.
  induction words as [| word words IH]; intros currentLine lines; [reflexivity |].
  cbn. specialize (Hfont (currentLine +:+ " " +:+ word)).
  destruct (widthOfTextAtSize (currentLine +:+ " " +:+ word) size); [discriminate |].
  destruct (Qltb _ maxWidth); apply IH.
Qed.

Let placed (size marginQ lineHeightQ top : Q) (d : DrawnText) : Prop :=
  dtX d = marginQ /\ dtSize d = size
  /\ (marginQ + lineHeightQ <= dtY d)%Q /\ (dtY d <= top)%Q.

Let sound (size marginQ lineHeightQ top : Q) (st : Layout) : Prop :=
  (y st <= top)%Q
  /\ Forall (Forall (placed size marginQ lineHeightQ top)) (donePages st)
  /\ Forall (placed size marginQ lineHeightQ top) (currentPage st).

Lemma newPage_sound size marginQ lineHeightQ top st :
  sound size marginQ lineHeightQ top st ->
  sound size marginQ lineHeightQ top (newPage st top).
Proof.
  intros (Hy & Hdone & Hcur). repeat split; cbn.
  - apply Qle_refl.
  - apply Forall_app. split; [exact Hdone |]. constructor; [exact Hcur | constructor].
  - constructor.
Qed.

Lemma drawLines_sound size marginQ lineHeightQ top lines :
  (0 <= lineHeightQ)%Q -> (marginQ + lineHeightQ <= top)%Q ->
  forall st st',
  drawLines lines st size marginQ lineHeightQ top = Ok st' ->
  sound size marginQ lineHeightQ top st ->
  sound size marginQ lineHeightQ top st'.
Proof.
  intros Hlh Hroom.
  induction lines as [| line lines IH]; intros st st' H Hst.
  - cbn in H. now injection H as <-.
  - cbn in H. destruct (drawTextThrows line); [discriminate |].
    apply IH in H; [exact H |]. clear IH H.
    destruct (Qltb (y st) (marginQ + lineHeightQ)) eqn:L.
    + apply (newPage_sound size marginQ lineHeightQ top) in Hst.
      destruct Hst as (Hy & Hdone & Hcur). cbn in *.
      repeat split; cbn.
      * lra.
      * exact Hdone.
      * constructor; [| constructor].
        repeat split; cbn; try reflexivity; lra.
    + apply Qltb_ge in L. destruct Hst as (Hy & Hdone & Hcur).
      repeat split; cbn.
      * lra.
      * exact Hdone.
      * apply Forall_app. split; [exact Hcur |]. constructor; [| constructor].
        repeat split; cbn; try reflexivity; lra.
Qed.

Lemma drawParagraphs_sound size marginQ lineHeightQ top maxWidth paragraphs :
  (0 <= lineHeightQ)%Q -> (marginQ + lineHeightQ <= top)%Q ->
  forall st st',
  drawParagraphs paragraphs st size marginQ lineHeightQ top maxWidth = Ok st' ->
  sound size marginQ lineHeightQ top st ->
  sound size marginQ lineHeightQ top st'.
Proof.
  intros Hlh Hroom.
  induction paragraphs as [| paragraph paragraphs IH]; intros st st' H Hst.
  - cbn in H. now injection H as <-.
  - cbn in H. destruct (String.eqb (trim paragraph) "").
    + apply IH in H; [exact H |]. clear IH H.
      destruct (Qltb _ marginQ) eqn:L.
      * apply newPage_sound. destruct Hst as (Hy & Hdone & Hcur).
        repeat split; cbn; [lra | exact Hdone | exact Hcur].
      * destruct Hst as (Hy & Hdone & Hcur).
        repeat split; cbn; [lra | exact Hdone | exact Hcur].
    + destruct (TextToPdf.breakTextIntoLines widthOfTextAtSize paragraph size maxWidth)
        as [| lines]; [discriminate |].
      cbn in H.
      destruct (TextToPdf.drawLines drawTextThrows lines st size marginQ lineHeightQ top)
        as [| st1] eqn:D; [discriminate |].
      cbn in H. apply IH in H; [exact H |].
      exact (drawLines_sound _ _ _ _ _ Hlh Hroom _ _ D Hst).
Qed.

(** X26.  When a line fits between the margins of an A4 page, every line
    that is drawn starts at the left margin, in the chosen size, with its
    baseline at least one line height above the bottom margin and not
    above the top margin, and the document has at least one page. *)
Theorem drawn_lines_stay_between_margins text options pages :
  (0 <= lineHeightOf options)%Q ->
  (marginOf options + lineHeightOf options <= A4_HEIGHT - marginOf options)%Q ->
  layoutText text options = Ok pages ->
  pages <> []
  /\ Forall (Forall (fun d =>
       dtX d = marginOf options /\ dtSize d = sizeOf options
       /\ (marginOf options + lineHeightOf options <= dtY d)%Q
       /\ (dtY d <= A4_HEIGHT - marginOf options)%Q)) pages.
Proof.
  intros Hlh Hroom. unfold layoutText, TextToPdf.layoutText.
  destruct (TextToPdf.drawParagraphs _ _ _ _ _ _ _ _ _ _) as [| st] eqn:D;
    [discriminate |].
  intros H. injection H as <-.
  apply (drawParagraphs_sound _ _ _ _ _ _ Hlh Hroom) in D.
  - destruct D as (_ & Hdone & Hcur). split.
    + unfold pagesOf. destruct (donePages st); discriminate.
    + unfold pagesOf. apply Forall_app. split; [exact Hdone |].
      constructor; [exact Hcur | constructor].
  - repeat split; cbn; [apply Qle_refl | constructor | constructor].
Qed.

Let drawnTexts (st : Layout) : list string :=
  map dtText (concat (pagesOf st)).

Lemma drawnTexts_newPage st top : drawnTexts (newPage st top) = drawnTexts st.
Proof.
  unfold drawnTexts, pagesOf, newPage. cbn [donePages currentPage].
  rewrite !concat_app. cbn [concat]. now rewrite !app_nil_r.
Qed.

Lemma drawnTexts_draw done current d position :
  drawnTexts {| donePages := done; currentPage := current ++ [d]; y := position |}
  = map dtText (concat (done ++ [current])) ++ [dtText d].
Proof.
  unfold drawnTexts, pagesOf. cbn [donePages currentPage].
  rewrite !concat_app. cbn [concat]. rewrite !app_nil_r, !map_app, <- app_assoc.
  reflexivity.
Qed.

Lemma drawLines_texts size marginQ lineHeightQ top lines :
  forall st st',
  drawLines lines st size marginQ lineHeightQ top = Ok st' ->
  drawnTexts st' = drawnTexts st ++ lines.
Proof.
  induction lines as [| line lines IH]; intros st st' H.
  - cbn in H. injection H as <-. now rewrite app_nil_r.
  - cbn in H. destruct (drawTextThrows line); [discriminate |].
    apply IH in H. rewrite H, drawnTexts_draw. cbn [dtText].
    rewrite <- app_assoc. cbn [app]. f_equal.
    destruct (Qltb (y st) (marginQ + lineHeightQ)).
    + exact (drawnTexts_newPage st top).
    + reflexivity.
Qed.

Lemma drawParagraphs_texts size marginQ lineHeightQ top maxWidth paragraphs :
  forall st st',
  drawParagraphs paragraphs st size marginQ lineHeightQ top maxWidth = Ok st' ->
  exists groups,
    drawnTexts st' = drawnTexts st ++ concat groups
    /\ map (joinWith " ") groups
       = List.filter (fun paragraph => negb (String.eqb (trim paragraph) "")) paragraphs
    /\ Forall (fun group => group <> []) groups.
Proof.
  induction paragraphs as [| paragraph paragraphs IH]; intros st st' H.
  - cbn in H. injection H as <-. exists []. cbn. now rewrite app_nil_r.
  - cbn in H. cbn [List.filter]. destruct (String.eqb (trim paragraph) "").
    + apply IH in H. destruct H as (groups & Htexts & Hjoin & Hne).
      exists groups. split; [| split; [exact Hjoin | exact Hne]].
      rewrite Htexts. f_equal.
      destruct (Qltb _ marginQ).
      * rewrite drawnTexts_newPage. reflexivity.
      * reflexivity.
    + destruct (TextToPdf.breakTextIntoLines widthOfTextAtSize paragraph size maxWidth)
        as [| lines] eqn:B; [discriminate |].
      cbn in H.
      destruct (TextToPdf.drawLines drawTextThrows lines st size marginQ lineHeightQ top)
        as [| st1] eqn:D; [discriminate |].
      cbn in H. apply IH in H. destruct H as (groups & Htexts & Hjoin & Hne).
      apply drawLines_texts in D. apply breakTextIntoLines_join in B.
      destruct B as (Hlines & Hjoined).
      exists (lines :: groups). split; [| split].
      * rewrite Htexts, D. cbn [concat]. now rewrite app_assoc.
      * cbn [map negb]. now rewrite Hjoined, Hjoin.
      * constructor; [exact Hlines | exact Hne].
Qed.

(** X27.  The lines drawn on the pages, read page after page, are the
    paragraphs of the text that are not blank, in their order, each cut
    into one or more lines at spaces: joining the lines of the groups with
    single spaces gives the paragraphs back, so no text is lost, doubled
    or moved, and a blank paragraph draws nothing. *)
Theorem drawn_lines_are_the_paragraphs text options pages :
  layoutText text options = Ok pages ->
  exists groups,
    map dtText (concat pages) = concat groups
    /\ map (joinWith " ") groups
       = List.filter (fun paragraph => negb (String.eqb (trim paragraph) ""))
           (PdfToDocx.splitLines (normalizeLineEndings text))
    /\ Forall (fun group => group <> []) groups.
Proof.
  unfold layoutText, TextToPdf.layoutText.
  destruct (TextToPdf.drawParagraphs _ _ _ _ _ _ _ _ _ _) as [| st] eqn:D;
    [discriminate |].
  intros H. injection H as <-.
  apply drawParagraphs_texts in D. destruct D as (groups & Htexts & Hjoin & Hne).
  exists groups. split; [exact Htexts | split; [exact Hjoin | exact Hne]].
Qed.

Let free (c : ascii) (text : string) : Prop :=
  ~ In c (list_ascii_of_string text).

Lemma replaceCr_free text : free CR (replaceCr text).
Proof.
  unfold free. induction text as [| c text IH]; cbn; [tauto |].
  intros [H | H]; [| exact (IH H)].
  destruct (Ascii.eqb_spec c CR) as [-> | Hc]; [discriminate | congruence].
Qed.

Lemma splitLines_chars text :
  Forall (fun line => free LF line
                      /\ forall c, In c (list_ascii_of_string line) ->
                                   In c (list_ascii_of_string text))
    (PdfToDocx.splitLines text).
Proof.
  induction text as [| c text IH]; cbn [PdfToDocx.splitLines].
  - constructor; [| constructor]. split; [intros [] | tauto].
  - fold LF. destruct (Ascii.eqb_spec c LF) as [-> | Hc].
    + constructor.
      * split; [intros [] | intros c []].
      * eapply Forall_impl; [exact IH |]. cbn. intros line (Hfree & Hsub).
        split; [exact Hfree |]. intros c Hc. right. now apply Hsub.
    + destruct (PdfToDocx.splitLines text) as [| line lines].
      * constructor; [| constructor]. split.
        -- cbn. intros [H | []]. congruence.
        -- cbn. tauto.
      * apply Forall_cons in IH. destruct IH as ((Hfree & Hsub) & IH).
        constructor.
        -- split.
           ++ cbn. intros [H | H]; [congruence | exact (Hfree H)].
           ++ cbn. intros d [H | H]; [now left | right; now apply Hsub].
        -- eapply Forall_impl; [exact IH |]. cbn. intros l (Hf & Hs).
           split; [exact Hf |]. intros d Hd. right. now apply Hs.
Qed.

(** X28.  After the line endings are normalised, no paragraph that is
    handed to the line breaker contains a carriage return or a line
    feed. *)
Theorem paragraphs_hold_no_line_ending text :
  Forall (fun paragraph => free CR paragraph /\ free LF paragraph)
    (PdfToDocx.splitLines (normalizeLineEndings text)).
Proof.
  eapply Forall_impl; [apply splitLines_chars |].
  cbn. intros line (Hfree & Hsub). split; [| exact Hfree].
  intros H. apply Hsub in H. exact (replaceCr_free _ H).
Qed.

End TextLayout.

Lemma breakTextIntoLines_round_trip_witness :
  ["aa bb"; "cc"] <> [] /\ Measures.joinWith " " ["aa bb"; "cc"] = "aa bb cc".
Proof.
  apply (breakTextIntoLines_round_trip MoreSamples.widthSample "aa bb cc" 12 40).
  reflexivity.
Defined.

Lemma broken_line_fits_or_is_one_word_witness :
  Forall (fun line =>
            In line (TextToPdf.splitOn " " "aa bb cc")
            \/ exists width, MoreSamples.widthSample line 12 = Ok width
                             /\ (width < 40)%Q)
    ["aa bb"; "cc"].
Proof.
  apply (broken_line_fits_or_is_one_word MoreSamples.widthSample "aa bb cc" 12 40).
  reflexivity.
Defined.

Lemma breakTextIntoLines_returns_witness :
  isOk (TextToPdf.breakTextIntoLines MoreSamples.widthSample "aa bb cc" 12 40) = true.
Proof.
  apply (breakTextIntoLines_returns MoreSamples.widthSample "aa bb cc" 12 40).
  intros line. reflexivity.
Defined.

Lemma drawn_lines_stay_between_margins_witness :
  exists pages,
    TextToPdf.layoutText MoreSamples.widthSample MoreSamples.drawFine Guards.trim
      MoreSamples.letter MoreSamples.defaults = Ok pages
    /\ pages <> []
    /\ Forall (Forall (fun d =>
         TextToPdf.dtX d = TextToPdf.marginOf MoreSamples.defaults
         /\ TextToPdf.dtSize d = TextToPdf.sizeOf MoreSamples.defaults
         /\ (TextToPdf.marginOf MoreSamples.defaults
             + TextToPdf.lineHeightOf MoreSamples.defaults <= TextToPdf.dtY d)%Q
         /\ (TextToPdf.dtY d
             <= TextToPdf.A4_HEIGHT - TextToPdf.marginOf MoreSamples.defaults)%Q)) pages.
Proof.
  eexists. split; [vm_compute; reflexivity |].
  apply (drawn_lines_stay_between_margins MoreSamples.widthSample MoreSamples.drawFine
           Guards.trim MoreSamples.letter MoreSamples.defaults).
  - apply Qle_bool_iff. reflexivity.
  - apply Qle_bool_iff. reflexivity.
  - vm_compute. reflexivity.
Defined.

Lemma drawn_lines_are_the_paragraphs_witness :
  exists groups,
    ["aa bb"; "cc"] = concat groups
    /\ map (Measures.joinWith " ") groups = ["aa bb"; "cc"]
    /\ Forall (fun group => group <> []) groups.
Proof.
  exact (drawn_lines_are_the_paragraphs MoreSamples.widthSample MoreSamples.drawFine
           Guards.trim MoreSamples.letter MoreSamples.defaults _ eq_refl).
Defined.
